(** * fmu-dataio: metadata assembly and validation

    A shallow embedding of the parts of [fmu.dataio.dataio] and
    [fmu.dataio.datastructure.meta.meta] that decide the properties stated
    for the content validator, the settings resolver, the schema models
    [File], [FMUAttributes] and [Root], the JSON schema dump, the
    aggregation merger and the case initializer.

    Python values are embedded as [pyval]; exceptions as [exn]; code that
    raises returns a [result]; code that also mutates the instance, the
    file system or the warning channel runs in the state-and-exception
    monad [M]. The file system holds directories and regular files; a
    path is followed part by part, as the operating system does. *)

From Stdlib Require Import String Ascii List ZArith Bool Lia.
From Stdlib Require Import Permutation Sorted DecimalString.
Import ListNotations.
Open Scope string_scope.
Set Warnings "-register-all".

(** ** Python values *)

(** The values metadata documents and settings are made of: what YAML/JSON
    loading produces, plus [pathlib.Path] objects and the [FmuContext]
    enumeration. [PPath s] is the object [Path(s)]. A dict is an
    association list in insertion order. *)

(** Modelled from the spec: the members of [FmuContext]
    ([fmu.dataio._definitions], not among the sources). *)
Inductive FmuContext : Type :=
| REALIZATION
| CASE
| CASE_SYMLINK_REALIZATION
| PREPROCESSED.

Inductive pyval : Type :=
| PNone
| PBool (b : bool)
| PInt (z : Z)
| PStr (s : string)
| PPath (s : string)
| PCtx (c : FmuContext)
| PList (l : list pyval)
| PDict (kv : list (string * pyval)).

Definition pydict : Type := list (string * pyval).

(** [bool(v)]: the truth value Python's [if v] tests. *)
Definition truthy (v : pyval) : bool :=
  match v with
  | PNone => false
  | PBool b => b
  | PInt z => negb (Z.eqb z 0)
  | PStr s => negb (String.eqb s "")
  | PPath _ => true
  | PCtx _ => true
  | PList l => match l with [] => false | _ => true end
  | PDict kv => match kv with [] => false | _ => true end
  end.

(** [d[k]] on an association list: the first binding of [k]. *)
Fixpoint dict_lookup (k : string) (d : pydict) : option pyval :=
  match d with
  | [] => None
  | (k', v) :: d' => if String.eqb k k' then Some v else dict_lookup k d'
  end.

(** [d.get(k)] and [d.get(k, None)]. *)
Definition dict_get (k : string) (d : pydict) : pyval :=
  match dict_lookup k d with
  | Some v => v
  | None => PNone
  end.

(** [k in d]. *)
Definition dict_has (k : string) (d : pydict) : bool :=
  match dict_lookup k d with
  | Some _ => true
  | None => false
  end.

(** [d[k] = v]: overwrite in place, or append a new key. *)
Fixpoint dict_set (k : string) (v : pyval) (d : pydict) : pydict :=
  match d with
  | [] => [(k, v)]
  | (k', v') :: d' =>
      if String.eqb k k' then (k', v) :: d' else (k', v') :: dict_set k v d'
  end.

(** [del d[k]] (the caller has checked that [k] is present). *)
Fixpoint dict_del (k : string) (d : pydict) : pydict :=
  match d with
  | [] => []
  | (k', v') :: d' =>
      if String.eqb k k' then d' else (k', v') :: dict_del k d'
  end.

(** [x in xs] for a list of strings. *)
Definition str_in (x : string) (xs : list string) : bool :=
  existsb (String.eqb x) xs.

(** ** Exceptions and results *)

Inductive exn_class : Type :=
| ValidationError          (* fmu.dataio._definitions.ValidationError *)
| ConfigurationError
| PydanticValidationError  (* pydantic.ValidationError *)
| ValueError
| KeyError
| IndexError
| TypeError
| AttributeError
| OSError
| FileNotFoundError        (* the subclasses of OSError *)
| FileExistsError
| NotADirectoryError
| IsADirectoryError.

Record exn : Type := mkExn { exn_cls : exn_class; exn_msg : string }.

Inductive result (A : Type) : Type :=
| Ok (a : A)
| Raise (e : exn).
Arguments Ok {A} a.
Arguments Raise {A} e.

Definition raises {A : Type} (r : result A) (c : exn_class) : Prop :=
  exists msg, r = Raise (mkExn c msg).

Definition rbind {A B : Type} (r : result A) (f : A -> result B) : result B :=
  match r with
  | Ok a => f a
  | Raise e => Raise e
  end.

Declare Scope result_scope.
Delimit Scope result_scope with result.
Notation "x <- r ;; k" := (rbind r (fun x => k))
  (at level 61, r at next level, right associativity) : result_scope.

(** ** The content validator ([dataio.py], [_check_content]) *)

Section ContentValidator.

(** The content taxonomy lives in [datastructure/_internal/internal.py],
    which is not among the sources; the validator is embedded over it. *)

(** [AllowedContent.model_fields.keys()], in declaration order. *)
Variable model_fields : list string.

(** [AllowedContent.requires_additional_input]. *)
Variable requires_additional_input : string -> bool.

(** [AllowedContent.model_validate({name: fields}).model_dump(
    exclude_none=True, mode="json")[name]]. *)
Variable AllowedContent_validate_dump : string -> pyval -> result pyval.

Definition content_format_message : string :=
  "Content is incorrectly formatted. When giving content as a dict, "
  ++ "it must be formatted as:"
  ++ "{'mycontent': {extra_key: extra_value} where mycontent is a string "
  ++ "and in the list of valid contents, and extra keys in associated "
  ++ " dictionary must be valid keys for this content.".

Definition content_validate_message (name detail : string) : string :=
  "The field " ++ name ++ " has one or more errors that makes it
impossible to create valid content. The data will still be exported but no
metadata will be made. You are strongly encouraged to correct your
configuration. Invalid configuration may be disallowed in future versions.

Detailed information:
" ++ detail ++ "
".

(** [_content_validate]: only pydantic's error is caught and re-raised. *)
Definition _content_validate (name : string) (fields : pyval)
  : result pyval :=
  match AllowedContent_validate_dump name fields with
  | Ok v => Ok v
  | Raise e =>
      match exn_cls e with
      | PydanticValidationError =>
          Raise (mkExn ValidationError
                   (content_validate_message name (exn_msg e)))
      | _ => Raise e
      end
  end.

(** The first stage of [_check_content]: the case split on the type of
    the proposed content, giving [usecontent] and [content_specific]. *)
Definition resolve_content (content : pyval) : result (string * pyval) :=
  match content with
  | PNone => Ok ("unset", PNone)
  | PStr s =>
      if requires_additional_input s
      then Raise (mkExn ValidationError
                    ("content " ++ s ++ " requires additional input"))
      else Ok (s, PNone)
  | PDict kv =>
      match kv with
      | [] => Raise (mkExn IndexError "list index out of range")
      | (usecontent, _) :: _ =>
          let content_specific := dict_get usecontent kv in
          match content_specific with
          | PDict _ => Ok (usecontent, content_specific)
          | _ => Raise (mkExn ValueError content_format_message)
          end
      end
  | _ => Raise (mkExn ValidationError "The 'content' must be string or dict")
  end.

Definition _check_content (proposed : pyval) : result (string * pyval) :=
  (p <- resolve_content proposed ;;
   let '(usecontent, content_specific) := p in
   if negb (String.eqb usecontent "unset")
      && negb (str_in usecontent model_fields)
   then Raise (mkExn ValidationError
                 ("Invalid content: <" ++ usecontent ++ ">! "
                  ++ "Valid content: " ++ String.concat ", " model_fields))
   else if truthy content_specific
        then (cs <- _content_validate usecontent content_specific ;;
              Ok (usecontent, cs))
        else Ok (usecontent, content_specific))%result.

End ContentValidator.

(** ** Python's string and path operations *)

(** [s.startswith(p)]. *)
Fixpoint startswith (p s : string) : bool :=
  match p with
  | EmptyString => true
  | String a p' =>
      match s with
      | EmptyString => false
      | String b s' => Ascii.eqb a b && startswith p' s'
      end
  end.

(** [p in s]: [p] occurs somewhere in [s]. *)
Fixpoint occurs (p s : string) : bool :=
  startswith p s
  || match s with
     | EmptyString => false
     | String _ s' => occurs p s'
     end.

(** The scan of [s.replace(old, new)] for a non-empty [old]: left to
    right, skipping the characters of a match once it is replaced. *)
Fixpoint replace_from (old new : string) (skip : nat) (s : string) : string :=
  match s with
  | EmptyString => EmptyString
  | String c s' =>
      match skip with
      | S k => replace_from old new k s'
      | O =>
          if startswith old s
          then new ++ replace_from old new (String.length old - 1) s'
          else String c (replace_from old new 0 s')
      end
  end.

(** With an empty [old], [new] goes before every character and at the
    end. *)
Fixpoint intersperse (new s : string) : string :=
  match s with
  | EmptyString => new
  | String c s' => new ++ String c (intersperse new s')
  end.

(** [s.replace(old, new)]. *)
Definition str_replace (old new s : string) : string :=
  match old with
  | EmptyString => intersperse new s
  | _ => replace_from old new 0 s
  end.

(** [s.split(sep)] for a one-character separator. *)
Fixpoint str_split (sep : ascii) (s : string) : list string :=
  match s with
  | EmptyString => [EmptyString]
  | String c s' =>
      if Ascii.eqb c sep then EmptyString :: str_split sep s'
      else match str_split sep s' with
           | [] => [String c EmptyString]
           | h :: t => String c h :: t
           end
  end.

(** [s.rfind(c)], [None] for -1. *)
Fixpoint rfind (c : ascii) (s : string) : option nat :=
  match s with
  | EmptyString => None
  | String a s' =>
      match rfind c s' with
      | Some i => Some (S i)
      | None => if Ascii.eqb a c then Some 0 else None
      end
  end.

(** [sorted(xs)] on strings: a stable insertion sort by [<=]. *)
Fixpoint insert_sorted (x : string) (l : list string) : list string :=
  match l with
  | [] => [x]
  | y :: l' =>
      if String.leb x y then x :: y :: l' else y :: insert_sorted x l'
  end.

Definition sorted (l : list string) : list string :=
  fold_right insert_sorted [] l.

(** A [pathlib.PurePosixPath]: the root and the parts after it. *)
Record PurePath : Type := mkPath { path_root : string; path_parts : list string }.

Definition path_sep : ascii := "/"%char.

(** [Path(s)]: two leading slashes are kept as a root of their own, any
    other number is one; empty and [.] components are dropped. *)
Definition Path (s : string) : PurePath :=
  mkPath
    (if startswith "//" s && negb (startswith "///" s) then "//"
     else if startswith "/" s then "/"
     else "")
    (filter (fun p => negb (String.eqb p "") && negb (String.eqb p "."))
            (str_split path_sep s)).

(** [str(p)]. *)
Definition path_str (p : PurePath) : string :=
  match path_root p, path_parts p with
  | EmptyString, [] => "."
  | r, parts => r ++ String.concat "/" parts
  end.

(** [p.name]. *)
Definition path_name (p : PurePath) : string := last (path_parts p) "".

(** [p.suffix] and [p.stem]: the name is cut at its last dot, unless that
    dot starts or ends the name. *)
Definition path_suffix (p : PurePath) : string :=
  let name := path_name p in
  match rfind "."%char name with
  | Some i =>
      if Nat.ltb 0 i && Nat.ltb i (String.length name - 1)
      then substring i (String.length name - i) name
      else ""
  | None => ""
  end.

Definition path_stem (p : PurePath) : string :=
  let name := path_name p in
  match rfind "."%char name with
  | Some i =>
      if Nat.ltb 0 i && Nat.ltb i (String.length name - 1)
      then substring 0 i name
      else name
  | None => name
  end.

(** [p.parent]. *)
Definition path_parent (p : PurePath) : PurePath :=
  mkPath (path_root p) (removelast (path_parts p)).

(** [p / q]: a rooted [q] replaces [p]. *)
Definition path_join (p q : PurePath) : PurePath :=
  match path_root q with
  | EmptyString => mkPath (path_root p) (path_parts p ++ path_parts q)
  | _ => q
  end.

(** [p.with_suffix(suffix)]. *)
Definition path_with_suffix (p : PurePath) (suffix : string)
  : result PurePath :=
  if occurs "/" suffix
  then Raise (mkExn ValueError ("Invalid suffix " ++ suffix))
  else if (negb (String.eqb suffix "") && negb (startswith "." suffix))
          || String.eqb suffix "."
  then Raise (mkExn ValueError ("Invalid suffix " ++ suffix))
  else
    let name := path_name p in
    if String.eqb name ""
    then Raise (mkExn ValueError (path_str p ++ " has an empty name"))
    else
      let old_suffix := path_suffix p in
      let name' :=
        if String.eqb old_suffix "" then name ++ suffix
        else substring 0 (String.length name - String.length old_suffix) name
             ++ suffix in
      Ok (mkPath (path_root p) (removelast (path_parts p) ++ [name'])).

(** The character [c] does not occur in [s]. *)
Fixpoint no_char (c : ascii) (s : string) : bool :=
  match s with
  | EmptyString => true
  | String a s' => negb (Ascii.eqb a c) && no_char c s'
  end.

(** The two hexadecimal digits of a byte. *)
Definition hex_digit (n : nat) : ascii :=
  nth n (list_ascii_of_string "0123456789abcdef") "0"%char.

Definition hex_byte (c : ascii) : string :=
  String (hex_digit (nat_of_ascii c / 16))
    (String (hex_digit (nat_of_ascii c mod 16)) EmptyString).

(** The double quote. *)
Definition double_quote : ascii := ascii_of_nat 34.

(** One character of [repr(s)] between the quotes [quote]. A byte above
    127 is part of the UTF-8 of a character and is taken as it is. *)
Definition repr_char (quote c : ascii) : string :=
  if Ascii.eqb c "\"%char then "\\"
  else if Ascii.eqb c quote then String "\"%char (String quote EmptyString)
  else if Ascii.eqb c (ascii_of_nat 10) then "\n"
  else if Ascii.eqb c (ascii_of_nat 13) then "\r"
  else if Ascii.eqb c (ascii_of_nat 9) then "\t"
  else if Nat.ltb (nat_of_ascii c) 32 || Nat.eqb (nat_of_ascii c) 127
  then "\x" ++ hex_byte c
  else String c EmptyString.

(** [repr(s)] of a string: in single quotes, unless the string holds a
    single quote and no double quote. *)
Definition str_repr (s : string) : string :=
  let quote :=
    if negb (no_char "'"%char s) && no_char double_quote s
    then double_quote else "'"%char in
  String quote
    (String.concat "" (map (repr_char quote) (list_ascii_of_string s))
     ++ String quote EmptyString).

(** [str(e)] of an exception raised with one argument: the argument,
    for a [KeyError] its [repr]. *)
Definition exn_str (e : exn) : string :=
  match exn_cls e with
  | KeyError => str_repr (exn_msg e)
  | _ => exn_msg e
  end.

(** [type(v).__name__]. *)
Definition type_name (v : pyval) : string :=
  match v with
  | PNone => "NoneType"
  | PBool _ => "bool"
  | PInt _ => "int"
  | PStr _ => "str"
  | PPath _ => "PosixPath"
  | PCtx _ => "FmuContext"
  | PList _ => "list"
  | PDict _ => "dict"
  end.

(** ** Schema validation ([datastructure/meta/meta.py])

    A pydantic model validates a dict field by field, in declaration order,
    and reports every failing field; a [model_validator(mode="before")]
    runs first on the raw input, and a [ValueError] it raises becomes the
    single validation error of the model. *)

Inductive loc_item : Type :=
| LField (name : string)
| LIndex (i : nat).

Record verror : Type := mkVerror { ve_loc : list loc_item; ve_msg : string }.

Inductive outcome (A : Type) : Type :=
| Valid (a : A)
| Invalid (errs : list verror)
| Crash (e : exn).   (* an exception pydantic does not convert *)
Arguments Valid {A} a.
Arguments Invalid {A} errs.
Arguments Crash {A} e.

Definition omap {A B : Type} (f : A -> B) (o : outcome A) : outcome B :=
  match o with
  | Valid a => Valid (f a)
  | Invalid es => Invalid es
  | Crash e => Crash e
  end.

(** Fields are validated left to right and their errors are collected. *)
Definition oap {A B : Type} (f : outcome (A -> B)) (x : outcome A)
  : outcome B :=
  match f with
  | Crash e => Crash e
  | Valid g => omap g x
  | Invalid es =>
      match x with
      | Valid _ => Invalid es
      | Invalid es' => Invalid (es ++ es')
      | Crash e => Crash e
      end
  end.

(** Validators run in sequence: the second sees the first's value. *)
Definition obind {A B : Type} (o : outcome A) (f : A -> outcome B)
  : outcome B :=
  match o with
  | Valid a => f a
  | Invalid es => Invalid es
  | Crash e => Crash e
  end.

Declare Scope outcome_scope.
Delimit Scope outcome_scope with outcome.
Notation "f <*> x" := (oap f x) (at level 50, left associativity)
  : outcome_scope.

Definition is_valid {A : Type} (o : outcome A) : bool :=
  match o with
  | Valid _ => true
  | _ => false
  end.

Definition value_error {A : Type} (msg : string) : outcome A :=
  Invalid [mkVerror [] ("Value error, " ++ msg)].

Definition at_loc {A : Type} (at_ : loc_item) (o : outcome A) : outcome A :=
  match o with
  | Invalid es =>
      Invalid (map (fun e => mkVerror (at_ :: ve_loc e) (ve_msg e)) es)
  | _ => o
  end.

Definition validator (A : Type) : Type := pyval -> outcome A.

(** [name: T] *)
Definition required {A : Type} (name : string) (v : validator A)
    (d : pydict) : outcome A :=
  match dict_lookup name d with
  | None => Invalid [mkVerror [LField name] "Field required"]
  | Some x => at_loc (LField name) (v x)
  end.

(** [name: Optional[T] = Field(default=None)] *)
Definition optional {A : Type} (name : string) (v : validator A)
    (d : pydict) : outcome (option A) :=
  match dict_lookup name d with
  | None => Valid None
  | Some PNone => Valid None
  | Some x => at_loc (LField name) (omap Some (v x))
  end.

(** [name: Optional[T] = Field(...)] without a default: a required key
    whose value may be [None]. *)
Definition required_nullable {A : Type} (name : string) (v : validator A)
    (d : pydict) : outcome (option A) :=
  match dict_lookup name d with
  | None => Invalid [mkVerror [LField name] "Field required"]
  | Some PNone => Valid None
  | Some x => at_loc (LField name) (omap Some (v x))
  end.

(** [name: Optional[T] = Field(default_factory=f)] *)
Definition optional_factory {A : Type} (name : string) (v : validator A)
    (dflt : A) (d : pydict) : outcome (option A) :=
  match dict_lookup name d with
  | None => Valid (Some dflt)
  | Some PNone => Valid None
  | Some x => at_loc (LField name) (omap Some (v x))
  end.

(** A model without a before-validator: the input must be a dict. *)
Definition model {A : Type} (cls : string) (fields : pydict -> outcome A)
  : validator A :=
  fun v =>
    match v with
    | PDict d => fields d
    | _ => Invalid [mkVerror []
             ("Input should be a valid dictionary or instance of " ++ cls)]
    end.

Definition v_str : validator string :=
  fun v =>
    match v with
    | PStr s => Valid s
    | _ => Invalid [mkVerror [] "Input should be a valid string"]
    end.

(** [pathlib.Path] fields take a string or a path, and hold the path
    made of it. *)
Definition v_Path : validator PurePath :=
  fun v =>
    match v with
    | PStr s => Valid (Path s)
    | PPath s => Valid (Path s)
    | _ => Invalid [mkVerror [] "Input is not a valid path"]
    end.

(** [Optional[object]]: anything. *)
Definition v_object : validator pyval := fun v => Valid v.

Definition v_Literal (allowed : list string) : validator string :=
  fun v =>
    match v with
    | PStr s =>
        if str_in s allowed then Valid s
        else Invalid [mkVerror []
               ("Input should be " ++ String.concat " or " allowed)]
    | _ => Invalid [mkVerror []
             ("Input should be " ++ String.concat " or " allowed)]
    end.

Fixpoint v_items {A : Type} (v : validator A) (i : nat) (l : list pyval)
  : outcome (list A) :=
  match l with
  | [] => Valid []
  | x :: l' =>
      (Valid cons <*> at_loc (LIndex i) (v x) <*> v_items v (S i) l')
        %outcome
  end.

(** [List[T]] *)
Definition v_List {A : Type} (v : validator A) : validator (list A) :=
  fun x =>
    match x with
    | PList l => v_items v 0 l
    | _ => Invalid [mkVerror [] "Input should be a valid list"]
    end.

(** [str.isascii()]. *)
Definition isascii (s : string) : bool :=
  forallb (fun c => N.ltb (N_of_ascii c) 128) (list_ascii_of_string s).

(** *** The models of [meta.py] *)

Record Asset : Type := mkAsset { Asset_name : string }.

Record User : Type := mkUser { User_id : string }.

Record Workflow : Type := mkWorkflow { Workflow_reference : string }.

Record Model : Type := mkModel {
  Model_description : option (list string);
  Model_name : string;
  Model_revision : string }.

Record Display : Type := mkDisplay { Display_name : option string }.

Record Version : Type := mkVersion { Version_version : string }.

Record OperatingSystem : Type := mkOperatingSystem {
  OperatingSystem_hostname : string;
  OperatingSystem_operating_system : string;
  OperatingSystem_release : string;
  OperatingSystem_system : string;
  OperatingSystem_version : string }.

Record SystemInformation : Type := mkSystemInformation {
  SystemInformation_fmu_dataio : option Version;
  SystemInformation_komodo : option Version;
  SystemInformation_operating_system : option OperatingSystem }.

Record File : Type := mkFile {
  File_absolute_path : option PurePath;
  File_relative_path : PurePath;
  File_checksum_md5 : option string;
  File_size_bytes : option Z;
  File_relative_path_symlink : option PurePath;
  File_absolute_path_symlink : option PurePath }.

(** [enums.FMUClass], as far as [Root] admits its members. The module
    [enums] is not among the sources; a member's value is its name, as the
    JSON schema written by [Root.__get_pydantic_json_schema__] has it for
    [table] and [surface]. *)
Inductive FMUClass : Type :=
| FMUClass_case
| FMUClass_surface
| FMUClass_table
| FMUClass_cpgrid
| FMUClass_cpgrid_property
| FMUClass_polygons
| FMUClass_cube
| FMUClass_well
| FMUClass_points
| FMUClass_dictionary.

Definition FMUClass_value (c : FMUClass) : string :=
  match c with
  | FMUClass_case => "case"
  | FMUClass_surface => "surface"
  | FMUClass_table => "table"
  | FMUClass_cpgrid => "cpgrid"
  | FMUClass_cpgrid_property => "cpgrid_property"
  | FMUClass_polygons => "polygons"
  | FMUClass_cube => "cube"
  | FMUClass_well => "well"
  | FMUClass_points => "points"
  | FMUClass_dictionary => "dictionary"
  end.

Definition FMUClass_eqb (a b : FMUClass) : bool :=
  String.eqb (FMUClass_value a) (FMUClass_value b).

(** The members [ObjectMetadata.class_] admits, in the order of its
    [Literal]. *)
Definition ObjectMetadata_classes : list FMUClass :=
  [FMUClass_surface; FMUClass_table; FMUClass_cpgrid;
   FMUClass_cpgrid_property; FMUClass_polygons; FMUClass_cube;
   FMUClass_well; FMUClass_points; FMUClass_dictionary].

Definition FMUClass_of_tag (tag : string) : option FMUClass :=
  find (fun c => String.eqb tag (FMUClass_value c))
       (FMUClass_case :: ObjectMetadata_classes).

Definition Asset_validate : validator Asset :=
  model "Asset" (fun d => Valid mkAsset <*> required "name" v_str d)%outcome.

Definition User_validate : validator User :=
  model "User" (fun d => Valid mkUser <*> required "id" v_str d)%outcome.

Definition Workflow_validate : validator Workflow :=
  model "Workflow"
    (fun d => Valid mkWorkflow <*> required "reference" v_str d)%outcome.

Definition Model_validate : validator Model :=
  model "Model"
    (fun d => Valid mkModel
              <*> optional "description" (v_List v_str) d
              <*> required "name" v_str d
              <*> required "revision" v_str d)%outcome.

Definition Display_validate : validator Display :=
  model "Display"
    (fun d => Valid mkDisplay <*> optional "name" v_str d)%outcome.

Definition Version_validate : validator Version :=
  model "Version"
    (fun d => Valid mkVersion <*> required "version" v_str d)%outcome.

Definition OperatingSystem_validate : validator OperatingSystem :=
  model "OperatingSystem"
    (fun d => Valid mkOperatingSystem
              <*> required "hostname" v_str d
              <*> required "operating_system" v_str d
              <*> required "release" v_str d
              <*> required "system" v_str d
              <*> required "version" v_str d)%outcome.

(** [fmu_dataio] is read under its alias [fmu-dataio]. *)
Definition SystemInformation_validate : validator SystemInformation :=
  model "SystemInformation"
    (fun d => Valid mkSystemInformation
              <*> optional "fmu-dataio" Version_validate d
              <*> optional "komodo" Version_validate d
              <*> optional "operating_system" OperatingSystem_validate d)
    %outcome.

Section Schema.

(** What pydantic and the modules [enums] and [content] (not among the
    sources) decide: the leaf types, their validators, and the data
    block with its [spec] field. *)
Variables Classification FMUContextStage UUID Datetime Parameters : Type.
Variable v_Classification : validator Classification.
Variable v_FMUContext : validator FMUContextStage.
Variable v_UUID : validator UUID.
Variable v_datetime : validator Datetime.
Variable Parameters_validate : validator Parameters.
Variable v_int : validator Z.
Variable v_bool : validator bool.
Variables AnyData Spec : Type.
Variable AnyData_validate : validator AnyData.
Variable AnyData_spec : AnyData -> option Spec.   (* [data.root.spec] *)
(** [str(v)] for a value that is neither a string nor a path. *)
Variable builtin_str : pyval -> string.

Definition py_str (v : pyval) : string :=
  match v with
  | PStr s => s
  | PPath s => path_str (Path s)
  | _ => builtin_str v
  end.

Record Ssdl : Type := mkSsdl {
  Ssdl_access_level : Classification;
  Ssdl_rep_include : bool }.

Record Access : Type := mkAccess {
  Access_asset : Asset;
  Access_classification : option Classification }.

Record SsdlAccess : Type := mkSsdlAccess {
  SsdlAccess_asset : Asset;
  SsdlAccess_classification : option Classification;
  SsdlAccess_ssdl : Ssdl }.

Record Aggregation : Type := mkAggregation {
  Aggregation_id : UUID;
  Aggregation_operation : string;
  Aggregation_realization_ids : list Z;
  Aggregation_parameters : option Parameters }.

Record Case : Type := mkCase {
  Case_name : string;
  Case_user : User;
  Case_uuid : UUID;
  Case_description : option (list string) }.

Record Iteration : Type := mkIteration {
  Iteration_id : option Z;
  Iteration_name : string;
  Iteration_uuid : UUID;
  Iteration_restart_from : option UUID }.

Record Realization : Type := mkRealization {
  Realization_id : Z;
  Realization_name : string;
  Realization_parameters : option Parameters;
  Realization_jobs : option pyval;
  Realization_uuid : UUID }.

Record CountryItem : Type := mkCountryItem {
  CountryItem_identifier : string;
  CountryItem_uuid : UUID }.

Record DiscoveryItem : Type := mkDiscoveryItem {
  DiscoveryItem_short_identifier : string;
  DiscoveryItem_uuid : UUID }.

Record FieldItem : Type := mkFieldItem {
  FieldItem_identifier : string;
  FieldItem_uuid : UUID }.

Record CoordinateSystem : Type := mkCoordinateSystem {
  CoordinateSystem_identifier : string;
  CoordinateSystem_uuid : UUID }.

Record StratigraphicColumn : Type := mkStratigraphicColumn {
  StratigraphicColumn_identifier : string;
  StratigraphicColumn_uuid : UUID }.

Record Smda : Type := mkSmda {
  Smda_coordinate_system : CoordinateSystem;
  Smda_country : list CountryItem;
  Smda_discovery : list DiscoveryItem;
  Smda_field : list FieldItem;
  Smda_stratigraphic_column : StratigraphicColumn }.

Record Masterdata : Type := mkMasterdata { Masterdata_smda : Smda }.

Record TracklogEvent : Type := mkTracklogEvent {
  TracklogEvent_datetime : Datetime;
  TracklogEvent_event : string;
  TracklogEvent_user : User;
  TracklogEvent_sysinfo : option SystemInformation }.

Record Context : Type := mkContext { Context_stage : FMUContextStage }.

Record FMUCaseAttributes : Type := mkFMUCaseAttributes {
  FMUCaseAttributes_case : Case;
  FMUCaseAttributes_model : Model }.

Record FMUAttributes : Type := mkFMUAttributes {
  FMUAttributes_case : Case;
  FMUAttributes_model : Model;
  FMUAttributes_context : Context;
  FMUAttributes_iteration : option Iteration;
  FMUAttributes_workflow : option Workflow;
  FMUAttributes_aggregation : option Aggregation;
  FMUAttributes_realization : option Realization }.

Record CaseMetadata : Type := mkCaseMetadata {
  CaseMetadata_class_ : FMUClass;
  CaseMetadata_masterdata : Masterdata;
  CaseMetadata_tracklog : list TracklogEvent;
  CaseMetadata_source : string;
  CaseMetadata_version : string;
  CaseMetadata_fmu : FMUCaseAttributes;
  CaseMetadata_access : Access }.

Record ObjectMetadata : Type := mkObjectMetadata {
  ObjectMetadata_class_ : FMUClass;
  ObjectMetadata_masterdata : Masterdata;
  ObjectMetadata_tracklog : list TracklogEvent;
  ObjectMetadata_source : string;
  ObjectMetadata_version : string;
  ObjectMetadata_fmu : FMUAttributes;
  ObjectMetadata_access : SsdlAccess;
  ObjectMetadata_data : AnyData;
  ObjectMetadata_file : File;
  ObjectMetadata_display : Display }.

(** [Root.root]: the union of the two document shapes. *)
Inductive RootValue : Type :=
| Root_Case (m : CaseMetadata)
| Root_Object (m : ObjectMetadata).

Definition Ssdl_validate : validator Ssdl :=
  model "Ssdl"
    (fun d => Valid mkSsdl
              <*> required "access_level" v_Classification d
              <*> required "rep_include" v_bool d)%outcome.

Definition Access_validate : validator Access :=
  model "Access"
    (fun d => Valid mkAccess
              <*> required "asset" Asset_validate d
              <*> optional "classification" v_Classification d)%outcome.

Definition SsdlAccess_validate : validator SsdlAccess :=
  model "SsdlAccess"
    (fun d => Valid mkSsdlAccess
              <*> required "asset" Asset_validate d
              <*> optional "classification" v_Classification d
              <*> required "ssdl" Ssdl_validate d)%outcome.

(** [File._check_for_non_ascii_in_path] (mode "before"). *)
Definition _check_for_non_ascii_in_path (values : pyval) : outcome pydict :=
  match values with
  | PDict d =>
      let path := dict_get "absolute_path" d in
      if truthy path && negb (isascii (py_str path))
      then value_error
             ("Path has non-ascii elements which is not supported: "
              ++ py_str path)
      else Valid d
  | _ => Crash (mkExn AttributeError "object has no attribute 'get'")
  end.

Definition File_fields (d : pydict) : outcome File :=
  (Valid mkFile
   <*> optional "absolute_path" v_Path d
   <*> required "relative_path" v_Path d
   <*> required_nullable "checksum_md5" v_str d
   <*> optional "size_bytes" v_int d
   <*> optional "relative_path_symlink" v_Path d
   <*> optional "absolute_path_symlink" v_Path d)%outcome.

Definition File_validate : validator File :=
  fun v => obind (_check_for_non_ascii_in_path v) File_fields.

Definition Aggregation_validate : validator Aggregation :=
  model "Aggregation"
    (fun d => Valid mkAggregation
              <*> required "id" v_UUID d
              <*> required "operation" v_str d
              <*> required "realization_ids" (v_List v_int) d
              <*> optional "parameters" Parameters_validate d)%outcome.

Definition Case_validate : validator Case :=
  model "Case"
    (fun d => Valid mkCase
              <*> required "name" v_str d
              <*> required "user" User_validate d
              <*> required "uuid" v_UUID d
              <*> optional "description" (v_List v_str) d)%outcome.

Definition Iteration_validate : validator Iteration :=
  model "Iteration"
    (fun d => Valid mkIteration
              <*> optional "id" v_int d
              <*> required "name" v_str d
              <*> required "uuid" v_UUID d
              <*> optional "restart_from" v_UUID d)%outcome.

Definition Realization_validate : validator Realization :=
  model "Realization"
    (fun d => Valid mkRealization
              <*> required "id" v_int d
              <*> required "name" v_str d
              <*> optional "parameters" Parameters_validate d
              <*> optional "jobs" v_object d
              <*> required "uuid" v_UUID d)%outcome.

Definition CountryItem_validate : validator CountryItem :=
  model "CountryItem"
    (fun d => Valid mkCountryItem
              <*> required "identifier" v_str d
              <*> required "uuid" v_UUID d)%outcome.

Definition DiscoveryItem_validate : validator DiscoveryItem :=
  model "DiscoveryItem"
    (fun d => Valid mkDiscoveryItem
              <*> required "short_identifier" v_str d
              <*> required "uuid" v_UUID d)%outcome.

Definition FieldItem_validate : validator FieldItem :=
  model "FieldItem"
    (fun d => Valid mkFieldItem
              <*> required "identifier" v_str d
              <*> required "uuid" v_UUID d)%outcome.

Definition CoordinateSystem_validate : validator CoordinateSystem :=
  model "CoordinateSystem"
    (fun d => Valid mkCoordinateSystem
              <*> required "identifier" v_str d
              <*> required "uuid" v_UUID d)%outcome.

Definition StratigraphicColumn_validate : validator StratigraphicColumn :=
  model "StratigraphicColumn"
    (fun d => Valid mkStratigraphicColumn
              <*> required "identifier" v_str d
              <*> required "uuid" v_UUID d)%outcome.

Definition Smda_validate : validator Smda :=
  model "Smda"
    (fun d => Valid mkSmda
              <*> required "coordinate_system" CoordinateSystem_validate d
              <*> required "country" (v_List CountryItem_validate) d
              <*> required "discovery" (v_List DiscoveryItem_validate) d
              <*> required "field" (v_List FieldItem_validate) d
              <*> required "stratigraphic_column"
                    StratigraphicColumn_validate d)%outcome.

Definition Masterdata_validate : validator Masterdata :=
  model "Masterdata"
    (fun d => Valid mkMasterdata <*> required "smda" Smda_validate d)
    %outcome.

Definition TracklogEvent_validate : validator TracklogEvent :=
  model "TracklogEvent"
    (fun d => Valid mkTracklogEvent
              <*> required "datetime" v_datetime d
              <*> required "event" v_str d
              <*> required "user" User_validate d
              <*> optional_factory "sysinfo" SystemInformation_validate
                    (mkSystemInformation None None None) d)%outcome.

Definition Context_validate : validator Context :=
  model "Context"
    (fun d => Valid mkContext <*> required "stage" v_FMUContext d)%outcome.

Definition FMUCaseAttributes_validate : validator FMUCaseAttributes :=
  model "FMUCaseAttributes"
    (fun d => Valid mkFMUCaseAttributes
              <*> required "case" Case_validate d
              <*> required "model" Model_validate d)%outcome.

(** [FMUAttributes._dependencies_aggregation_realization]
    (mode "before"). *)
Definition _dependencies_aggregation_realization (values : pyval)
  : outcome pydict :=
  match values with
  | PDict d =>
      let aggregation := dict_get "aggregation" d in
      let realization := dict_get "realization" d in
      if truthy aggregation && truthy realization
      then value_error
             ("Both 'aggregation' and 'realization' cannot be set "
              ++ "at the same time. Please set only one.")
      else Valid d
  | _ => Crash (mkExn AttributeError "object has no attribute 'get'")
  end.

Definition FMUAttributes_fields (d : pydict) : outcome FMUAttributes :=
  (Valid mkFMUAttributes
   <*> required "case" Case_validate d
   <*> required "model" Model_validate d
   <*> required "context" Context_validate d
   <*> optional "iteration" Iteration_validate d
   <*> optional "workflow" Workflow_validate d
   <*> optional "aggregation" Aggregation_validate d
   <*> optional "realization" Realization_validate d)%outcome.

Definition FMUAttributes_validate : validator FMUAttributes :=
  fun v => obind (_dependencies_aggregation_realization v)
                 FMUAttributes_fields.

(** A field whose annotation is a [Literal] of [FMUClass] members. *)
Definition v_FMUClass (allowed : list FMUClass) : validator FMUClass :=
  fun v =>
    match v with
    | PStr tag =>
        match find (fun c => String.eqb tag (FMUClass_value c)) allowed with
        | Some c => Valid c
        | None => Invalid [mkVerror [] "Input should be one of the literals"]
        end
    | _ => Invalid [mkVerror [] "Input should be one of the literals"]
    end.

Definition CaseMetadata_validate : validator CaseMetadata :=
  model "CaseMetadata"
    (fun d => Valid mkCaseMetadata
              <*> required "class" (v_FMUClass [FMUClass_case]) d
              <*> required "masterdata" Masterdata_validate d
              <*> required "tracklog" (v_List TracklogEvent_validate) d
              <*> required "source" (v_Literal ["fmu"]) d
              <*> required "version" (v_Literal ["0.8.0"]) d
              <*> required "fmu" FMUCaseAttributes_validate d
              <*> required "access" Access_validate d)%outcome.

Definition ObjectMetadata_validate : validator ObjectMetadata :=
  model "ObjectMetadata"
    (fun d => Valid mkObjectMetadata
              <*> required "class" (v_FMUClass ObjectMetadata_classes) d
              <*> required "masterdata" Masterdata_validate d
              <*> required "tracklog" (v_List TracklogEvent_validate) d
              <*> required "source" (v_Literal ["fmu"]) d
              <*> required "version" (v_Literal ["0.8.0"]) d
              <*> required "fmu" FMUAttributes_validate d
              <*> required "access" SsdlAccess_validate d
              <*> required "data" AnyData_validate d
              <*> required "file" File_validate d
              <*> required "display" Display_validate d)%outcome.

(** The union of [Root], discriminated by the key [class]. *)
Definition Root_union : validator RootValue :=
  fun v =>
    match v with
    | PDict d =>
        match dict_lookup "class" d with
        | Some (PStr tag) =>
            match FMUClass_of_tag tag with
            | Some FMUClass_case =>
                at_loc (LField "case")
                  (omap Root_Case (CaseMetadata_validate v))
            | Some c =>
                at_loc (LField (FMUClass_value c))
                  (omap Root_Object (ObjectMetadata_validate v))
            | None =>
                Invalid [mkVerror []
                  ("Input tag '" ++ tag ++ "' found using 'class' does "
                   ++ "not match any of the expected tags")]
            end
        | _ =>
            Invalid [mkVerror []
              "Unable to extract tag using discriminator 'class'"]
        end
    | _ => Invalid [mkVerror [] "Input should be a valid dictionary"]
    end.

Definition Root_class_ (root : RootValue) : FMUClass :=
  match root with
  | Root_Case m => CaseMetadata_class_ m
  | Root_Object m => ObjectMetadata_class_ m
  end.

(** [root.data] where [hasattr(root, "data")]. *)
Definition Root_data (root : RootValue) : option AnyData :=
  match root with
  | Root_Case _ => None
  | Root_Object m => Some (ObjectMetadata_data m)
  end.

(** [Root._check_class_data_spec] (mode "after"). *)
Definition _check_class_data_spec (root : RootValue) : outcome RootValue :=
  if existsb (FMUClass_eqb (Root_class_ root))
             [FMUClass_table; FMUClass_surface]
     && match Root_data root with
        | Some data =>
            match AnyData_spec data with
            | None => true
            | Some _ => false
            end
        | None => false
        end
  then value_error
         ("When 'class' is 'table' or 'surface', "
          ++ "'data' must contain the 'spec' field.")
  else Valid root.

Definition Root_validate : validator RootValue :=
  fun v => obind (Root_union v) _check_class_data_spec.

End Schema.

Arguments FMUAttributes_aggregation {_ _ _} _.
Arguments FMUAttributes_realization {_ _ _} _.
Arguments Aggregation_validate {_ _} _ _ _ _.
Arguments Realization_validate {_ _} _ _ _ _.
Arguments FMUAttributes_fields {_ _ _} _ _ _ _ _.
Arguments FMUAttributes_validate {_ _ _} _ _ _ _ _.
Arguments ObjectMetadata_class_ {_ _ _ _ _ _} _.
Arguments ObjectMetadata_data {_ _ _ _ _ _} _.
Arguments ObjectMetadata_fmu {_ _ _ _ _ _} _.
Arguments CaseMetadata_class_ {_ _ _} _.
Arguments Root_Case {_ _ _ _ _ _} _.
Arguments Root_Object {_ _ _ _ _ _} _.
Arguments Root_class_ {_ _ _ _ _ _} _.
Arguments Root_data {_ _ _ _ _ _} _.
Arguments _check_class_data_spec {_ _ _ _ _ _ _} _ _.
Arguments CaseMetadata_validate {_ _ _} _ _ _ _.
Arguments ObjectMetadata_validate {_ _ _ _ _} _ _ _ _ _ _ _ {_} _ _ _.
Arguments Root_union {_ _ _ _ _} _ _ _ _ _ _ _ {_} _ _ _.
Arguments Root_validate {_ _ _ _ _} _ _ _ _ _ _ _ {_ _} _ _ _ _.

(** ** The process environment: file system, warnings, fresh UUIDs *)

Inductive warning_category : Type :=
| UserWarning
| PendingDeprecationWarning.

Record warning : Type :=
  mkWarning { warning_category_of : warning_category; warning_message : string }.

(** Directories and regular files, keyed by the string of their path
    from the root, without [.] and [..]; a file holds the document
    written to it. The root directory is there without being listed.
    The file system has no links. *)
Record FileSystem : Type :=
  mkFS { fs_dirs : list string; fs_files : list (string * pyval) }.

Record World : Type := mkWorld {
  w_fs : FileSystem;
  w_cwd : string;                (* the process working directory *)
  w_warnings : list warning;     (* what [warnings.warn] has emitted *)
  w_uuid4 : nat -> string;       (* the values [uuid.uuid4()] draws *)
  w_uuid4_drawn : nat }.

(** [Path(p).absolute()]. *)
Definition path_absolute (cwd : string) (p : PurePath) : PurePath :=
  match path_root p with
  | EmptyString => path_join (Path cwd) p
  | _ => p
  end.

(** The key of the place the parts lead to from the root. *)
Definition key_of (place : list string) : string :=
  "/" ++ String.concat "/" place.

Definition is_directory (fs : FileSystem) (place : list string) : bool :=
  match place with
  | [] => true
  | _ => str_in (key_of place) (fs_dirs fs)
  end.

Definition is_regular_file (fs : FileSystem) (place : list string) : bool :=
  dict_has (key_of place) (fs_files fs).

(** The errors of the operating system on a path. *)
Inductive errno : Type :=
| ENOENT
| EEXIST
| ENOTDIR
| EISDIR.

Inductive walked : Type :=
| Found (place : list string)
| Failed (e : errno).

(** The walk of the operating system along the parts of a path, from
    the place [place]: every part is looked up in a directory, and [..]
    is the parent of that directory (the root is its own parent). The
    place found need not be there. *)
Fixpoint namei (fs : FileSystem) (place todo : list string) : walked :=
  match todo with
  | [] => Found place
  | c :: todo' =>
      if is_directory fs place
      then namei fs
             (if String.eqb c ".." then removelast place
              else List.app place [c])
             todo'
      else if is_regular_file fs place then Failed ENOTDIR
      else Failed ENOENT
  end.

(** Where the walk along [p] starts: at the root, or at the working
    directory for a relative path. *)
Definition start_place (w : World) (p : PurePath) : list string :=
  match path_root p with
  | EmptyString => path_parts (Path (w_cwd w))
  | _ => []
  end.

Definition locate (w : World) (p : PurePath) : walked :=
  namei (w_fs w) (start_place w p) (path_parts p).

(** [p.exists()], [p.is_dir()] and [p.is_file()]: false when the walk
    fails. *)
Definition path_exists (w : World) (p : PurePath) : bool :=
  match locate w p with
  | Found place =>
      is_directory (w_fs w) place || is_regular_file (w_fs w) place
  | Failed _ => false
  end.

Definition path_is_dir (w : World) (p : PurePath) : bool :=
  match locate w p with
  | Found place => is_directory (w_fs w) place
  | Failed _ => false
  end.

Definition path_is_file (w : World) (p : PurePath) : bool :=
  match locate w p with
  | Found place => is_regular_file (w_fs w) place
  | Failed _ => false
  end.


(** The [OSError] of Python for an error of the operating system on the
    path [p]. *)
Definition os_error (e : errno) (p : PurePath) : exn :=
  match e with
  | ENOENT =>
      mkExn FileNotFoundError
        ("[Errno 2] No such file or directory: " ++ str_repr (path_str p))
  | EEXIST =>
      mkExn FileExistsError
        ("[Errno 17] File exists: " ++ str_repr (path_str p))
  | ENOTDIR =>
      mkExn NotADirectoryError
        ("[Errno 20] Not a directory: " ++ str_repr (path_str p))
  | EISDIR =>
      mkExn IsADirectoryError
        ("[Errno 21] Is a directory: " ++ str_repr (path_str p))
  end.

Definition add_dir (key : string) (fs : FileSystem) : FileSystem :=
  if str_in key (fs_dirs fs) then fs
  else mkFS (key :: fs_dirs fs) (fs_files fs).

(** [os.mkdir] of the path made of the parts, from the place [start]:
    the walk to the parent must end in a directory, and nothing may be
    there under the name. *)
Definition os_mkdir (fs : FileSystem) (start parts : list string)
  : FileSystem + errno :=
  match parts with
  | [] => inr EEXIST
  | _ =>
      match namei fs start (removelast parts) with
      | Found parent =>
          if is_directory fs parent
          then
            let name := last parts "" in
            let place := List.app parent [name] in
            if String.eqb name ".." then inr EEXIST
            else if is_directory fs place || is_regular_file fs place
            then inr EEXIST
            else inl (add_dir (key_of place) fs)
          else if is_regular_file fs parent then inr ENOTDIR
          else inr ENOENT
      | Failed e => inr e
      end
  end.

(** [is_dir()] of the path made of the parts. *)
Definition is_directory_at (fs : FileSystem) (start parts : list string)
  : bool :=
  match namei fs start parts with
  | Found place => is_directory fs place
  | Failed _ => false
  end.

(** [mkdir(parents=True, exist_ok=True)] of [pathlib] on the first [n]
    parts: [os.mkdir]; when a parent is missing, the same for the
    parent and then [os.mkdir] again; any other error is passed over
    when the path is a directory. An error comes with the number of
    parts of the path it is raised for. *)
Fixpoint mkdir_exist_ok (n : nat) (fs : FileSystem)
    (start parts : list string) : FileSystem + errno * nat :=
  let target := firstn n parts in
  match os_mkdir fs start target with
  | inl fs' => inl fs'
  | inr ENOENT =>
      match n with
      | O => inr (ENOENT, n)
      | S n' =>
          match mkdir_exist_ok n' fs start parts with
          | inl fs1 =>
              match os_mkdir fs1 start target with
              | inl fs2 => inl fs2
              | inr ENOENT => inr (ENOENT, n)
              | inr e =>
                  if is_directory_at fs1 start target then inl fs1
                  else inr (e, n)
              end
          | inr failed => inr failed
          end
      end
  | inr e =>
      if is_directory_at fs start target then inl fs else inr (e, n)
  end.

(** State and exceptions: a raise keeps the state reached so far. *)
Definition M (S A : Type) : Type := S -> result A * S.

Definition ret {S A : Type} (a : A) : M S A := fun s => (Ok a, s).

Definition throw {S A : Type} (c : exn_class) (msg : string) : M S A :=
  fun s => (Raise (mkExn c msg), s).

Definition bind {S A B : Type} (m : M S A) (f : A -> M S B) : M S B :=
  fun s =>
    match m s with
    | (Ok a, s') => f a s'
    | (Raise e, s') => (Raise e, s')
    end.

Definition lift {S A : Type} (r : result A) : M S A := fun s => (r, s).

Definition get_state {S : Type} : M S S := fun s => (Ok s, s).

Definition modify {S : Type} (f : S -> S) : M S unit := fun s => (Ok tt, f s).

Declare Scope M_scope.
Delimit Scope M_scope with M.
Notation "x <- m ;; k" := (bind m (fun x => k))
  (at level 61, m at next level, right associativity) : M_scope.
Notation "m ;; k" := (bind m (fun _ => k))
  (at level 61, right associativity) : M_scope.

Definition when {S : Type} (b : bool) (m : M S unit) : M S unit :=
  if b then m else ret tt.

Fixpoint for_each {S A : Type} (l : list A) (body : A -> M S unit)
  : M S unit :=
  match l with
  | [] => ret tt
  | x :: l' => (body x ;; for_each l' body)%M
  end.

Definition set_warnings (ws : list warning) (w : World) : World :=
  mkWorld (w_fs w) (w_cwd w) ws (w_uuid4 w) (w_uuid4_drawn w).

Definition set_fs (fs : FileSystem) (w : World) : World :=
  mkWorld fs (w_cwd w) (w_warnings w) (w_uuid4 w) (w_uuid4_drawn w).

(** [warnings.warn(message, category)]. *)
Definition warn (message : string) (category : warning_category)
  : M World unit :=
  modify (fun w => set_warnings (w_warnings w ++ [mkWarning category message]) w).

(** [uuid.uuid4()]. *)
Definition uuid4 : M World string :=
  fun w =>
    (Ok (w_uuid4 w (w_uuid4_drawn w)),
     mkWorld (w_fs w) (w_cwd w) (w_warnings w) (w_uuid4 w)
             (S (w_uuid4_drawn w))).

(** [p.mkdir(parents=True, exist_ok=True)]. *)
Definition mkdir_parents (p : PurePath) : M World unit :=
  fun w =>
    match mkdir_exist_ok (List.length (path_parts p)) (w_fs w)
            (start_place w p) (path_parts p) with
    | inl fs => (Ok tt, set_fs fs w)
    | inr (e, n) =>
        (Raise (os_error e (mkPath (path_root p) (firstn n (path_parts p)))),
         w)
    end.

(** Writing a document to the file at [p], which is made when it is not
    there: the directory of the file must be there, and the file must be
    no directory. *)
Definition write_file (p : PurePath) (content : pyval) : M World unit :=
  fun w =>
    match locate w p with
    | Found place =>
        if is_directory (w_fs w) place
        then (Raise (os_error EISDIR p), w)
        else (Ok tt,
              set_fs (mkFS (fs_dirs (w_fs w))
                           (dict_set (key_of place) content
                                     (fs_files (w_fs w)))) w)
    | Failed e => (Raise (os_error e p), w)
    end.

(** [d[k]] on a value. *)
Definition subscript (v : pyval) (k : string) : result pyval :=
  match v with
  | PDict d =>
      match dict_lookup k d with
      | Some x => Ok x
      | None => Raise (mkExn KeyError k)
      end
  | PStr _ =>
      Raise (mkExn TypeError "string indices must be integers, not 'str'")
  | PList _ =>
      Raise (mkExn TypeError
               "list indices must be integers or slices, not str")
  | _ =>
      Raise (mkExn TypeError
               ("'" ++ type_name v ++ "' object is not subscriptable"))
  end.

(** [v.get(k, None)] on a value. *)
Definition get_method (v : pyval) (k : string) : result pyval :=
  match v with
  | PDict d => Ok (dict_get k d)
  | _ =>
      Raise (mkExn AttributeError
               ("'" ++ type_name v ++ "' object has no attribute 'get'"))
  end.

(** The receiver of [.replace(old, new)] must be a string. *)
Definition replace_receiver (v : pyval) : result string :=
  match v with
  | PStr s => Ok s
  | PPath _ => Raise (mkExn TypeError "replace() takes 2 positional arguments")
  | _ => Raise (mkExn AttributeError "object has no attribute 'replace'")
  end.

(** [v + "/"]. *)
Definition plus_sep (v : pyval) : result string :=
  match v with
  | PStr s => Ok (s ++ "/")
  | _ => Raise (mkExn TypeError "unsupported operand type(s) for +")
  end.

(** [Path(v)], and the right operand of [/]. *)
Definition to_Path (v : pyval) : result PurePath :=
  match v with
  | PStr s => Ok (Path s)
  | PPath s => Ok (Path s)
  | _ => Raise (mkExn TypeError "expected str, bytes or os.PathLike object")
  end.

(** [doc[p1]...[pn][k] = v]. *)
Fixpoint set_at (path : list string) (k : string) (v : pyval) (doc : pyval)
  : result pyval :=
  match doc with
  | PDict d =>
      match path with
      | [] => Ok (PDict (dict_set k v d))
      | p :: path' =>
          match dict_lookup p d with
          | Some inner =>
              (inner' <- set_at path' k v inner ;;
               Ok (PDict (dict_set p inner' d)))%result
          | None => Raise (mkExn KeyError p)
          end
      end
  | _ =>
      match path with
      | [] => Raise (mkExn TypeError
                       "object does not support item assignment")
      | _ => Raise (mkExn TypeError "object is not subscriptable")
      end
  end.

(** [del doc[p1]...[pn][k]]. *)
Fixpoint del_at (path : list string) (k : string) (doc : pyval)
  : result pyval :=
  match doc with
  | PDict d =>
      match path with
      | [] =>
          if dict_has k d then Ok (PDict (dict_del k d))
          else Raise (mkExn KeyError k)
      | p :: path' =>
          match dict_lookup p d with
          | Some inner =>
              (inner' <- del_at path' k inner ;;
               Ok (PDict (dict_set p inner' d)))%result
          | None => Raise (mkExn KeyError p)
          end
      end
  | _ =>
      match path with
      | [] => Raise (mkExn TypeError "object does not support item deletion")
      | _ => Raise (mkExn TypeError "object is not subscriptable")
      end
  end.

(** The strings of a list whose items [sorted] and [str.join] take: with
    an item that is no string, one of the two raises a [TypeError]. *)
Fixpoint as_strings (l : list pyval) : result (list string) :=
  match l with
  | [] => Ok []
  | PStr s :: l' => (ss <- as_strings l' ;; Ok (s :: ss))%result
  | _ :: _ => Raise (mkExn TypeError "expected str instance")
  end.

(** ** Type checks of overridden settings ([dataio.py], [_validate_variable]) *)

(** The classes the annotations of [ExportData] and [AggregatedData]
    mention. *)
Inductive pytype : Type :=
| T_bool
| T_int
| T_str
| T_dict
| T_list
| T_Path
| T_NoneType
| T_FmuContext.

(** An annotation after [eval], by what [valid_type.__args__] gives:
    no such attribute (a plain class), arguments that are all classes, or
    arguments whose [str] mentions [typing.]. *)
Inductive annotation : Type :=
| A_class (ty : pytype)
| A_args (tys : list pytype)
| A_typing.

(** [isinstance(v, ty)]; [bool] is a subclass of [int]. *)
Definition isinstance (v : pyval) (ty : pytype) : bool :=
  match ty, v with
  | T_bool, PBool _ => true
  | T_int, PInt _ => true
  | T_int, PBool _ => true
  | T_str, PStr _ => true
  | T_dict, PDict _ => true
  | T_list, PList _ => true
  | T_Path, PPath _ => true
  | T_NoneType, PNone => true
  | T_FmuContext, PCtx _ => true
  | _, _ => false
  end.

(** [str(cls)]. *)
Definition class_repr (ty : pytype) : string :=
  match ty with
  | T_bool => "<class 'bool'>"
  | T_int => "<class 'int'>"
  | T_str => "<class 'str'>"
  | T_dict => "<class 'dict'>"
  | T_list => "<class 'list'>"
  | T_Path => "<class 'pathlib.Path'>"
  | T_NoneType => "<class 'NoneType'>"
  | T_FmuContext => "<enum 'FmuContext'>"
  end.

(** [str(type(v))]. *)
Definition type_repr (v : pyval) : string :=
  match v with
  | PNone => "<class 'NoneType'>"
  | PBool _ => "<class 'bool'>"
  | PInt _ => "<class 'int'>"
  | PStr _ => "<class 'str'>"
  | PPath _ => "<class 'pathlib.PosixPath'>"
  | PCtx _ => "<enum 'FmuContext'>"
  | PList _ => "<class 'list'>"
  | PDict _ => "<class 'dict'>"
  end.

(** [str(validcheck)] for a tuple of classes. *)
Definition tuple_repr (tys : list pytype) : string :=
  match tys with
  | [ty] => "(" ++ class_repr ty ++ ",)"
  | _ => "(" ++ String.concat ", " (map class_repr tys) ++ ")"
  end.

Definition legals_t : Type := list (string * annotation).

Fixpoint legals_lookup (key : string) (legals : legals_t)
  : option annotation :=
  match legals with
  | [] => None
  | (k, a) :: legals' =>
      if String.eqb key k then Some a else legals_lookup key legals'
  end.

(** [_validate_variable]. *)
Definition _validate_variable (key : string) (value : pyval)
    (legals : legals_t) : result bool :=
  match legals_lookup key legals with
  | None =>
      Raise (mkExn ValidationError
               ("The input key '" ++ key ++ "' is not supported"))
  | Some A_typing => Ok true
  | Some (A_class ty) =>
      if isinstance value ty then Ok true
      else Raise (mkExn ValidationError
                    ("The value of '" ++ key ++ "' is of wrong type: "
                     ++ type_repr value ++ ". Allowed types are "
                     ++ class_repr ty))
  | Some (A_args tys) =>
      if existsb (isinstance value) tys then Ok true
      else Raise (mkExn ValidationError
                    ("The value of '" ++ key ++ "' is of wrong type: "
                     ++ type_repr value ++ ". Allowed types are "
                     ++ tuple_repr tys))
  end.

(** [{key: val for key, val in annots.items() if not key.startswith("_")}] *)
Definition public_annotations (annots : legals_t) : legals_t :=
  filter (fun kv => negb (startswith "_" (fst kv))) annots.

(** [del legals[key]] under [if key in legals]. *)
Fixpoint legals_del (key : string) (legals : legals_t) : legals_t :=
  match legals with
  | [] => []
  | (k, a) :: legals' =>
      if String.eqb key k then legals' else (k, a) :: legals_del key legals'
  end.

(** [key in newsettings], [key in os.environ]. *)
Definition key_in (key : string) (d : pydict) : bool := dict_has key d.

(** ** AggregatedData ([dataio.py]) *)

Module AggregatedData.

(** The attributes of an instance, with the types of their annotations;
    [meta_format] is the class attribute, which [setattr] shadows. *)
Record t : Type := mk {
  aggregation_id : pyval;
  casepath : pyval;
  source_metadata : list pyval;
  name : string;
  operation : string;
  tagname : string;
  verbosity : string;
  meta_format : pyval;
  _metadata : pyval }.

Record state : Type := mkState { self : t; world : World }.

(** [AggregatedData.__annotations__], in the order of the class body. *)
Definition __annotations__ : legals_t :=
  [ ("meta_format", A_typing);
    ("aggregation_id", A_args [T_str; T_NoneType]);
    ("casepath", A_args [T_str; T_Path; T_NoneType]);
    ("source_metadata", A_class T_list);
    ("name", A_class T_str);
    ("operation", A_class T_str);
    ("tagname", A_class T_str);
    ("verbosity", A_class T_str);
    ("_metadata", A_class T_dict);
    ("_metafile", A_class T_Path) ].

(** [setattr(self, key, value)] for a setting that has passed
    [_validate_variable]: a key of the public annotations with a value of
    the annotated type. *)
Definition setattr (key : string) (value : pyval) (i : t) : t :=
  if String.eqb key "meta_format"
  then mk (aggregation_id i) (casepath i) (source_metadata i) (name i)
          (operation i) (tagname i) (verbosity i) value (_metadata i)
  else if String.eqb key "aggregation_id"
  then mk value (casepath i) (source_metadata i) (name i) (operation i)
          (tagname i) (verbosity i) (meta_format i) (_metadata i)
  else if String.eqb key "casepath"
  then mk (aggregation_id i) value (source_metadata i) (name i)
          (operation i) (tagname i) (verbosity i) (meta_format i)
          (_metadata i)
  else
    match value with
    | PList l =>
        if String.eqb key "source_metadata"
        then mk (aggregation_id i) (casepath i) l (name i) (operation i)
                (tagname i) (verbosity i) (meta_format i) (_metadata i)
        else i
    | PStr x =>
        if String.eqb key "name"
        then mk (aggregation_id i) (casepath i) (source_metadata i) x
                (operation i) (tagname i) (verbosity i) (meta_format i)
                (_metadata i)
        else if String.eqb key "operation"
        then mk (aggregation_id i) (casepath i) (source_metadata i) (name i)
                x (tagname i) (verbosity i) (meta_format i) (_metadata i)
        else if String.eqb key "tagname"
        then mk (aggregation_id i) (casepath i) (source_metadata i) (name i)
                (operation i) x (verbosity i) (meta_format i) (_metadata i)
        else if String.eqb key "verbosity"
        then mk (aggregation_id i) (casepath i) (source_metadata i) (name i)
                (operation i) (tagname i) x (meta_format i) (_metadata i)
        else i
    | _ => i
    end.

(** [_update_settings]. *)
Definition _update_settings (newsettings : pydict) : M state unit :=
  let annots := __annotations__ in
  let legals := public_annotations annots in
  for_each newsettings
    (fun kv =>
       ok <- lift (_validate_variable (fst kv) (snd kv) legals) ;;
       when ok (modify (fun s =>
                          mkState (setattr (fst kv) (snd kv) (self s))
                                  (world s))))%M.

Section Methods.

(** [_utils.uuid_from_string] (not among the sources). *)
Variable uuid_from_string : string -> string.

(** [_generate_aggr_uuid]. *)
Definition _generate_aggr_uuid (uuids : list string) : string :=
  uuid_from_string (String.concat "" (sorted uuids)).

(** [_construct_filename]. *)
Definition _construct_filename (self : t) (template : pyval)
  : M World (PurePath * option PurePath) :=
  (realiname <- lift (fmu <- subscript template "fmu" ;;
                      realization <- subscript fmu "realization" ;;
                      subscript realization "name")%result ;;
   file <- lift (subscript template "file") ;;
   relpath <- lift (subscript file "relative_path") ;;
   given <- lift (get_method file "absolute_path") ;;
   let abspath := if truthy given then given else PNone in
   abspath <-
     (if truthy (casepath self)
      then
        casepath_ <- lift (to_Path (casepath self)) ;;
        w <- get_state ;;
        if negb (path_exists w casepath_)
        then throw ValueError
               ("The given casepath " ++ path_str casepath_
                ++ " does not exist. It must exist in advance!")
        else
          rel <- lift (to_Path relpath) ;;
          ret (PStr (path_str (path_join casepath_ rel)))
      else ret abspath) ;;
   rel_s <- lift (replace_receiver relpath) ;;
   old <- lift (plus_sep realiname) ;;
   let relpath := Path (str_replace old "" rel_s) in
   abspath <-
     (if truthy abspath
      then
        abs_s <- lift (replace_receiver abspath) ;;
        ret (Some (Path (str_replace old "" abs_s)))
      else ret None) ;;
   let suffix := path_suffix relpath in
   let stem := path_stem relpath in
   let usename := stem ++ "--" ++ operation self in
   usename <-
     (if negb (truthy (PStr (name self)))
      then
        warn "Input name is not given, will assume <usename>" UserWarning ;;
        ret usename
      else ret (name self)) ;;
   let usename :=
     if truthy (PStr (tagname self))
     then usename ++ "--" ++ tagname self
     else usename in
   relname <- lift (path_with_suffix
                      (path_join (path_parent relpath) (Path usename))
                      suffix) ;;
   absname <-
     match abspath with
     | Some abspath =>
         a <- lift (path_with_suffix
                      (path_join (path_parent abspath) (Path usename))
                      suffix) ;;
         ret (Some a)
     | None => ret None
     end ;;
   ret (relname, absname))%M.

(** [_utils.filter_validate_metadata] (not among the sources). *)
Variable filter_validate_metadata : pyval -> pyval.

(** The aggregated object, and the metadata the single-object assembler
    gives for it: [ExportData(config=fakeconfig, name=self.name,
    content=content).generate_metadata(obj, compute_md5=compute_md5)],
    whose assembler [_metadata.MetaData] is not among the sources. *)
Variable Obj : Type.
Variable export_metadata :
  pyval -> string -> pyval -> Obj -> bool -> M World pyval.

Definition in_world {A : Type} (m : M World A) : M state A :=
  fun s =>
    let '(r, w) := m (world s) in
    (r, mkState (self s) w).

Definition set_aggregation_id (id : pyval) : M state unit :=
  modify (fun s =>
            let i := self s in
            mkState (mk id (casepath i) (source_metadata i) (name i)
                        (operation i) (tagname i) (verbosity i)
                        (meta_format i) (_metadata i))
                    (world s)).

Definition set_metadata (doc : pyval) : M state unit :=
  modify (fun s =>
            let i := self s in
            mkState (mk (aggregation_id i) (casepath i) (source_metadata i)
                        (name i) (operation i) (tagname i) (verbosity i)
                        (meta_format i) doc)
                    (world s)).

(** [_generate_aggrd_metadata]. *)
Definition _generate_aggrd_metadata (obj : Obj) (real_ids : list pyval)
    (uuids : list pyval) (compute_md5 : bool) : M state unit :=
  (s <- get_state ;;
   match aggregation_id (self s) with
   | PNone =>
       us <- lift (as_strings uuids) ;;
       set_aggregation_id (PStr (_generate_aggr_uuid us))
   | PStr _ => ret tt
   | _ => throw ValueError "aggregation_id must be a string"
   end ;;
   s <- get_state ;;
   let self_ := self s in
   if negb (truthy (PStr (operation self_)))
   then throw ValueError "The 'operation' key has no value"
   else
     first <- lift (match source_metadata self_ with
                    | x :: _ => Ok x
                    | [] => Raise (mkExn IndexError "list index out of range")
                    end) ;;
     let template := filter_validate_metadata first in
     paths <- in_world (_construct_filename self_ template) ;;
     template <- lift (del_at ["fmu"] "realization" template) ;;
     template <- lift (set_at ["fmu"] "aggregation" (PDict []) template) ;;
     template <- lift (set_at ["fmu"; "aggregation"] "operation"
                         (PStr (operation self_)) template) ;;
     template <- lift (set_at ["fmu"; "aggregation"] "realization_ids"
                         (PList real_ids) template) ;;
     template <- lift (set_at ["fmu"; "aggregation"] "id"
                         (aggregation_id self_) template) ;;
     template <- lift (set_at ["fmu"; "context"] "stage" (PStr "iteration")
                         template) ;;
     access <- lift (subscript first "access") ;;
     masterdata <- lift (subscript first "masterdata") ;;
     model_ <- lift (fmu <- subscript first "fmu" ;;
                     subscript fmu "model")%result ;;
     let fakeconfig :=
       PDict [("access", access); ("masterdata", masterdata);
              ("model", model_)] in
     content <- lift (data <- subscript template "data" ;;
                      subscript data "content")%result ;;
     etempmeta <- in_world (export_metadata fakeconfig (name self_) content
                              obj compute_md5) ;;
     tracklog <- lift (subscript etempmeta "tracklog") ;;
     template <- lift (set_at [] "tracklog" tracklog template) ;;
     file <- lift (subscript etempmeta "file") ;;
     template <- lift (set_at [] "file" file template) ;;
     template <- lift (set_at ["file"] "relative_path"
                         (PStr (path_str (fst paths))) template) ;;
     template <- lift (set_at ["file"] "absolute_path"
                         match snd paths with
                         | Some abspath => PStr (path_str abspath)
                         | None => PNone
                         end template) ;;
     template <-
       (if truthy (PStr (name self_))
        then lift (set_at ["data"] "name" (PStr (name self_)) template)
        else ret template) ;;
     template <-
       (if truthy (PStr (tagname self_))
        then lift (set_at ["data"] "tagname" (PStr (tagname self_)) template)
        else ret template) ;;
     bbox <- lift (data <- subscript etempmeta "data" ;;
                   get_method data "bbox")%result ;;
     template <-
       (if truthy bbox
        then lift (set_at ["data"] "bbox" bbox template)
        else ret template) ;;
     set_metadata template)%M.

(** [_utils.drop_nones] (not among the sources). *)
Variable drop_nones : pyval -> pyval.

(** The loop of [generate_metadata] over the source documents: the ids
    and the UUIDs of their realizations. *)
Fixpoint realization_ids_uuids (confs : list pyval)
  : result (list pyval * list pyval) :=
  match confs with
  | [] => Ok ([], [])
  | conf :: confs' =>
      match (fmu <- subscript conf "fmu" ;;
             realization <- subscript fmu "realization" ;;
             rid <- subscript realization "id" ;;
             xuuid <- subscript realization "uuid" ;;
             Ok (rid, xuuid))%result with
      | Ok (rid, xuuid) =>
          (rest <- realization_ids_uuids confs' ;;
           Ok (rid :: fst rest, xuuid :: snd rest))%result
      | Raise e =>
          Raise (mkExn ValidationError
                   ("Seems that input config are not valid: " ++ exn_str e))
      end
  end.

(** [generate_metadata], with the keyword arguments [kwargs] beside
    [compute_md5] and [skip_null]. *)
Definition generate_metadata (obj : Obj) (compute_md5 skip_null : bool)
    (kwargs : pydict) : M state pyval :=
  (_update_settings kwargs ;;
   s <- get_state ;;
   ids <- lift (realization_ids_uuids (source_metadata (self s))) ;;
   _generate_aggrd_metadata obj (fst ids) (snd ids) compute_md5 ;;
   when skip_null
     (s <- get_state ;; set_metadata (drop_nones (_metadata (self s)))) ;;
   s <- get_state ;;
   ret (_metadata (self s)))%M.

End Methods.

End AggregatedData.

(** ** ExportData ([dataio.py]) *)

Module ExportData.

(** [ExportData.__annotations__], in the order of the class body. *)
Definition __annotations__ : legals_t :=
  [ ("allow_forcefolder_absolute", A_args [T_bool]);
    ("arrow_fformat", A_args [T_str]);
    ("case_folder", A_args [T_str]);
    ("createfolder", A_args [T_bool]);
    ("cube_fformat", A_args [T_str]);
    ("filename_timedata_reverse", A_args [T_bool]);
    ("grid_fformat", A_args [T_str]);
    ("include_ertjobs", A_args [T_bool]);
    ("legacy_time_format", A_args [T_bool]);
    ("meta_format", A_typing);
    ("polygons_fformat", A_args [T_str]);
    ("points_fformat", A_args [T_str]);
    ("surface_fformat", A_args [T_str]);
    ("table_fformat", A_args [T_str]);
    ("dict_fformat", A_args [T_str]);
    ("table_include_index", A_args [T_bool]);
    ("verifyfolder", A_args [T_bool]);
    ("_inside_rms", A_args [T_bool]);
    ("access_ssdl", A_class T_dict);
    ("aggregation", A_class T_bool);
    ("casepath", A_args [T_str; T_Path; T_NoneType]);
    ("config", A_class T_dict);
    ("content", A_args [T_dict; T_str; T_NoneType]);
    ("depth_reference", A_class T_str);
    ("description", A_args [T_str; T_list]);
    ("display_name", A_args [T_str; T_NoneType]);
    ("fmu_context", A_args [T_FmuContext; T_str]);
    ("forcefolder", A_class T_str);
    ("grid_model", A_args [T_str; T_NoneType]);
    ("is_observation", A_class T_bool);
    ("is_prediction", A_class T_bool);
    ("name", A_class T_str);
    ("undef_is_zero", A_class T_bool);
    ("parent", A_class T_str);
    ("realization", A_class T_int);
    ("reuse_metadata_rule", A_args [T_str; T_NoneType]);
    ("runpath", A_args [T_str; T_Path; T_NoneType]);
    ("subfolder", A_class T_str);
    ("tagname", A_class T_str);
    ("timedata", A_typing);
    ("unit", A_class T_str);
    ("verbosity", A_class T_str);
    ("vertical_domain", A_class T_dict);
    ("workflow", A_class T_str);
    ("table_index", A_args [T_list; T_NoneType]);
    ("_usecontent", A_args [T_dict; T_str]);
    ("_usefmtflag", A_class T_str);
    ("_metadata", A_class T_dict);
    ("_pwd", A_class T_Path);
    ("_config_is_valid", A_class T_bool);
    ("_rootpath", A_class T_Path) ].

(** The dataclass fields [__init__] takes, with their defaults. *)
Definition init_fields : pydict :=
  [ ("access_ssdl", PDict []);
    ("aggregation", PBool false);
    ("casepath", PNone);
    ("config", PDict []);
    ("content", PNone);
    ("depth_reference", PStr "msl");
    ("description", PStr "");
    ("display_name", PNone);
    ("fmu_context", PCtx REALIZATION);
    ("forcefolder", PStr "");
    ("grid_model", PNone);
    ("is_observation", PBool false);
    ("is_prediction", PBool true);
    ("name", PStr "");
    ("undef_is_zero", PBool false);
    ("parent", PStr "");
    ("realization", PInt (-999));
    ("reuse_metadata_rule", PNone);
    ("runpath", PNone);
    ("subfolder", PStr "");
    ("tagname", PStr "");
    ("timedata", PNone);
    ("unit", PStr "");
    ("verbosity", PStr "DEPRECATED");
    ("vertical_domain", PDict []);
    ("workflow", PStr "");
    ("table_index", PNone) ].

(** The fields with [init=False]. *)
Definition private_fields : pydict :=
  [ ("_usecontent", PDict []);
    ("_usefmtflag", PStr "");
    ("_metadata", PDict []);
    ("_pwd", PPath ".");
    ("_config_is_valid", PBool true);
    ("_rootpath", PPath ".") ].

(** The state a method runs in: the instance's attributes, the class
    attribute [ExportData._inside_rms], and the process environment. *)
Record state : Type := mkState {
  self : pydict;
  _inside_rms : bool;
  world : World }.

(** [getattr(self, name)] for a dataclass field. *)
Definition attr (name : string) (s : state) : pyval := dict_get name (self s).

(** [setattr(self, name, value)]. *)
Definition setattr (name : string) (value : pyval) : M state unit :=
  modify (fun s => mkState (dict_set name value (self s))
                           (_inside_rms s) (world s)).

Definition in_world {A : Type} (m : M World A) : M state A :=
  fun s =>
    let '(r, w) := m (world s) in
    (r, mkState (self s) (_inside_rms s) w).

(** The generated [__init__]: every keyword must name an init field;
    a field not given takes its default. *)
Definition __init__ (kwargs : pydict) : result pydict :=
  match find (fun kv => negb (dict_has (fst kv) init_fields)) kwargs with
  | Some (k, _) =>
      Raise (mkExn TypeError
               ("__init__() got an unexpected keyword argument '"
                ++ k ++ "'"))
  | None =>
      Ok (List.app
            (map (fun kv =>
                    (fst kv,
                     match dict_lookup (fst kv) kwargs with
                     | Some v => v
                     | None => snd kv
                     end)) init_fields)
            private_fields)
  end.

(** What the process environment holds for the two variables
    [FMU_DATAIO_CONFIG] and [FMU_GLOBAL_CONFIG]: [None] when the variable
    is not set, otherwise what [some_config_from_env] (not among the
    sources) gives for it; and the module constant [INSIDE_RMS]. *)
Record Env : Type := mkEnv {
  SETTINGS_ENV : option (result pyval);
  GLOBAL_ENV : option (result pyval);
  INSIDE_RMS : bool }.

Section Methods.

(** The content taxonomy, as for [_check_content]. *)
Variable model_fields : list string.
Variable requires_additional_input : string -> bool.
Variable AllowedContent_validate_dump : string -> pyval -> result pyval.

(** [FmuContext.get] ([_definitions], not among the sources). *)
Variable FmuContext_get : pyval -> result FmuContext.

(** [global_configuration.is_valid] and [global_configuration.roundtrip]
    ([datastructure/configuration], not among the sources). *)
Variable global_configuration_is_valid : pyval -> bool.
Variable global_configuration_roundtrip : pyval -> pyval.

(** [Path.resolve]: what the file system makes of [..] and links. *)
Variable resolve : World -> PurePath -> PurePath.

Variable env : Env.

(** [v != s] for a string literal [s]. *)
Definition differs_from (v : pyval) (s : string) : bool :=
  match v with
  | PStr x => negb (String.eqb x s)
  | _ => true
  end.

(** [k not in v]. *)
Definition not_in (k : string) (v : pyval) : result bool :=
  match v with
  | PDict d => Ok (negb (dict_has k d))
  | PStr s => Ok (negb (occurs k s))
  | PList l =>
      Ok (negb (existsb (fun x => negb (differs_from x k)) l))
  | _ =>
      Raise (mkExn TypeError
               ("argument of type '" ++ type_name v ++ "' is not iterable"))
  end.

(** [d[k1][k2] = v]. *)
Definition setitem2 (d : pyval) (k1 k2 : string) (v : pyval)
  : result pyval :=
  (inner <- subscript d k1 ;;
   match d, inner with
   | PDict kv, PDict kv' => Ok (PDict (dict_set k1 (PDict (dict_set k2 v kv')) kv))
   | _, _ => Raise (mkExn TypeError "object does not support item assignment")
   end)%result.

(** [v.items()]. *)
Definition items (v : pyval) : result pydict :=
  match v with
  | PDict d => Ok d
  | _ =>
      Raise (mkExn AttributeError
               ("'" ++ type_name v ++ "' object has no attribute 'items'"))
  end.

(** [_show_deprecations_or_notimplemented]. *)
Definition _show_deprecations_or_notimplemented : M state unit :=
  (s <- get_state ;;
   when (truthy (attr "runpath" s))
     (in_world (warn
        ("The 'runpath' key has currently no function. It will be evaluated for "
         ++ "removal in fmu-dataio version 2. Use 'casepath' instead!")
        PendingDeprecationWarning)) ;;
   when (truthy (attr "grid_model" s))
     (in_world (warn
        ("The 'grid_model' key has currently no function. It will be evaluated "
         ++ "for removal in fmu-dataio version 2.")
        PendingDeprecationWarning)))%M.

(** [_validate_content_key]. *)
Definition _validate_content_key : M state unit :=
  (s <- get_state ;;
   p <- lift (_check_content model_fields requires_additional_input
                AllowedContent_validate_dump (attr "content" s)) ;;
   setattr "_usecontent" (PStr (fst p)) ;;
   setattr "_content_specific" (snd p))%M.

(** [_validate_fmucontext_key]. *)
Definition _validate_fmucontext_key : M state unit :=
  (s <- get_state ;;
   if isinstance (attr "fmu_context" s) T_str
   then
     c <- lift (FmuContext_get (attr "fmu_context" s)) ;;
     setattr "fmu_context" (PCtx c)
   else ret tt)%M.

(** The loop shared by [__post_init__] and [_update_check_settings]:
    every setting is type-checked and then set. *)
Definition apply_settings (settings : pydict) (legals : legals_t)
  : M state unit :=
  for_each settings
    (fun kv =>
       ok <- lift (_validate_variable (fst kv) (snd kv) legals) ;;
       when ok (setattr (fst kv) (snd kv)))%M.

(** [_update_check_settings]. *)
Definition _update_check_settings (newsettings : pydict) : M state unit :=
  let annots := __annotations__ in
  let legals := public_annotations annots in
  let legals :=
    match legals_lookup "config" legals with
    | Some _ => legals_del "config" legals
    | None => legals
    end in
  if key_in "config" newsettings
  then throw ValueError "Cannot have 'config' outside instance initialization"
  else
    (apply_settings newsettings legals ;;
     _show_deprecations_or_notimplemented ;;
     _validate_content_key ;;
     _validate_fmucontext_key)%M.

(** [_update_globalconfig_from_settings]. *)
Definition _update_globalconfig_from_settings : M state unit :=
  (s <- get_state ;;
   let config := attr "config" s in
   let access_ssdl := attr "access_ssdl" s in
   newglobals <-
     (if truthy access_ssdl
      then
        access <- lift (subscript config "access") ;;
        absent <- lift (not_in "ssdl" access) ;;
        newglobals <-
          (if absent then lift (setitem2 config "access" "ssdl" (PDict []))
           else ret config) ;;
        lift (setitem2 newglobals "access" "ssdl" access_ssdl)
      else ret config) ;;
   setattr "config" newglobals)%M.

(** [_establish_pwd_rootpath]. *)
Definition _establish_pwd_rootpath : M state unit :=
  (s <- get_state ;;
   let cwd := w_cwd (world s) in
   let pwd := path_absolute cwd (Path ".") in
   setattr "_pwd" (PPath (path_str pwd)) ;;
   setattr "_rootpath" (PPath (path_str pwd)) ;;
   let casepath := attr "casepath" s in
   if truthy casepath
      && (isinstance casepath T_str || isinstance casepath T_Path)
   then
     p <- lift (to_Path casepath) ;;
     setattr "_rootpath" (PPath (path_str (path_absolute cwd p)))
   else if _inside_rms s || INSIDE_RMS env
   then
     setattr "_rootpath"
       (PPath (path_str
                 (resolve (world s)
                    (path_absolute cwd (path_join pwd (Path "../../."))))));;
     modify (fun s' => mkState (self s') true (world s'))
   else ret tt)%M.

(** [__post_init__]. *)
Definition __post_init__ : M state unit :=
  (s <- get_state ;;
   when (differs_from (attr "verbosity" s) "DEPRECATED")
     (in_world (warn
        ("Using the 'verbosity' key is now deprecated and will have no "
         ++ "effect and will be removed in near future. Please remove it from the "
         ++ "argument list. Set logging level from client script in the standard "
         ++ "manner instead.")
        UserWarning)) ;;
   c <- lift (FmuContext_get (attr "fmu_context" s)) ;;
   setattr "fmu_context" (PCtx c) ;;
   setattr "vertical_domain" (PDict [("depth", PStr "msl")]) ;;
   match SETTINGS_ENV env with
   | Some loaded =>
       external_input <- lift loaded ;;
       if truthy external_input
       then
         let annots := __annotations__ in
         let legals := public_annotations annots in
         settings <- lift (items external_input) ;;
         apply_settings settings legals
       else ret tt
   | None => ret tt
   end ;;
   match GLOBAL_ENV env with
   | Some loaded =>
       config <- lift loaded ;;
       setattr "config" (if truthy config then config else PDict [])
   | None => ret tt
   end ;;
   _validate_content_key ;;
   _update_globalconfig_from_settings ;;
   s <- get_state ;;
   let valid := global_configuration_is_valid (attr "config" s) in
   setattr "_config_is_valid" (PBool valid) ;;
   when valid
     (setattr "config" (global_configuration_roundtrip (attr "config" s))) ;;
   _establish_pwd_rootpath ;;
   _show_deprecations_or_notimplemented)%M.

(** Constructing an instance from keyword arguments: the generated
    [__init__], then [__post_init__]. *)
Definition construct (kwargs : pydict) (inside_rms : bool) (w : World)
  : result unit * state :=
  match __init__ kwargs with
  | Ok attrs => __post_init__ (mkState attrs inside_rms w)
  | Raise e => (Raise e, mkState [] inside_rms w)
  end.

(** [_utils.read_metadata_from_file] (not among the sources), which
    [read_metadata] passes its argument to: the metadata stored beside a
    data file. *)
Variable read_metadata_from_file : World -> PurePath -> result pyval.

(** [read_metadata]. *)
Definition read_metadata (w : World) (filename : PurePath) : result pyval :=
  read_metadata_from_file w filename.

(** One of the three steps at the end of [_check_obj_if_file]: the
    attribute [key] takes the value the preprocessed metadata has for it,
    when the attribute is not set and that value is. The metadata is
    read only when the attribute is not set; a missing key reads as a
    false value. *)
Definition take_preprocessed (key : string) (currentmeta : pyval)
  : M state unit :=
  (s <- get_state ;;
   if negb (truthy (attr key s))
   then
     pre <- lift (subscript currentmeta "_preprocessed") ;;
     given <- lift (get_method pre key) ;;
     if truthy given then setattr key given else ret tt
   else ret tt)%M.

(** [_check_obj_if_file]; a string or a path stands for a file, any other
    value for a data object. *)
Definition _check_obj_if_file (obj : pyval) : M state pyval :=
  if isinstance obj T_str || isinstance obj T_Path
  then
    (p <- lift (to_Path obj) ;;
     s <- get_state ;;
     if negb (path_exists (world s) p)
     then throw ValidationError
            ("The file " ++ path_str p ++ " does not exist.")
     else
       when (negb (truthy (attr "reuse_metadata_rule" s)))
         (setattr "reuse_metadata_rule" (PStr "preprocessed")) ;;
       currentmeta <- lift (read_metadata (world s) p) ;;
       absent <- lift (not_in "_preprocessed" currentmeta) ;;
       if absent
       then throw ValidationError
              ("The special entry for preprocessed data <_preprocessed> is"
               ++ "missing in the metadata. A possible solution is to rerun the"
               ++ "preprocessed export.")
       else
         take_preprocessed "name" currentmeta ;;
         take_preprocessed "tagname" currentmeta ;;
         take_preprocessed "subfolder" currentmeta ;;
         ret (if isinstance obj T_str then PPath (path_str p) else obj))%M
  else ret obj.

End Methods.

End ExportData.

(** ** InitializeCase ([dataio.py]) *)

Module InitializeCase.

Record t : Type := mk {
  config : pyval;
  rootfolder : pyval;
  casename : string;
  caseuser : string;
  description : pyval;
  _metadata : pyval;
  _metafile : PurePath;
  _pwd : PurePath;
  _casepath : PurePath }.

Record state : Type := mkState { self : t; world : World }.

Definition in_world {A : Type} (m : M World A) : M state A :=
  fun s =>
    let '(r, w) := m (world s) in
    (r, mkState (self s) w).

Definition set_metadata (doc : pyval) : M state unit :=
  modify (fun s =>
            let i := self s in
            mkState (mk (config i) (rootfolder i) (casename i) (caseuser i)
                        (description i) doc (_metafile i) (_pwd i)
                        (_casepath i))
                    (world s)).

Definition exists_warning : string :=
  "The case metadata file already exists and will not be overwritten. "
  ++ "To make new case metadata delete the old case or run on a different "
  ++ "runpath.".

(** Modelled from the spec: [_utils.export_metadata_file], which is not
    among the sources, persists the document at the given path. *)
Definition export_metadata_file (file : PurePath) (metadata : pyval)
  : M World unit :=
  write_file file metadata.

Section Methods.

(** What pydantic and the module [enums] (not among the sources) decide
    for the leaf types of [Masterdata] and [Access]. *)
Variables Classification UUID : Type.
Variable v_Classification : validator Classification.
Variable v_UUID : validator UUID.

(** [str(e)] of the [ValidationError] pydantic raises for a model and
    the errors of its fields. *)
Variable validation_error_str : string -> list verror -> string.

(** [cls.model_validate(value)]. *)
Definition model_validate {A : Type} (cls : string) (v : validator A)
    (value : pyval) : result A :=
  match v value with
  | Valid a => Ok a
  | Invalid errs =>
      Raise (mkExn PydanticValidationError (validation_error_str cls errs))
  | Crash e => Raise e
  end.

(** [global_configuration.GlobalConfiguration.model_validate] with the
    warning [validation_error_warning] issues when it fails (not among
    the sources). *)
Variable GlobalConfiguration_validate : pyval -> result unit.
Variable validation_error_warning : exn -> warning.

(** [_metadata.generate_meta_access] (not among the sources). *)
Variable generate_meta_access : pyval -> result pyval.

(** [global_configuration.Model] and its [model_validate]
    ([datastructure/configuration], not among the sources). *)
Variable GlobalModel : Type.
Variable GlobalModel_validate : pyval -> result GlobalModel.

(** The [CaseSchema(...).model_dump(...)] expression over its validated
    arguments ([datastructure/_internal] and the helpers of [_metadata]
    and [_utils] it calls are not among the sources): the document for
    the masterdata, the access block, the model, the case name, its UUID,
    the user and the description, with the tracklog the process
    environment gives. *)
Variable CaseSchema_dump :
  Masterdata UUID -> Access Classification -> GlobalModel ->
  string -> string -> User -> pyval -> World -> result pyval.

(** [_utils.drop_nones] (not among the sources). *)
Variable drop_nones : pyval -> pyval.

(** The dataclass constructor with [__post_init__]. *)
Definition construct (config rootfolder : pyval) (casename caseuser : string)
    (description : pyval) : M World t :=
  (w <- get_state ;;
   casepath <- lift (to_Path rootfolder) ;;
   let metafile := path_join casepath (Path "share/metadata/fmu_case.yml") in
   match GlobalConfiguration_validate config with
   | Ok _ =>
       ret (mk config rootfolder casename caseuser description (PDict [])
               metafile (path_absolute (w_cwd w) (Path ".")) casepath)
   | Raise e =>
       modify (fun w => set_warnings
                          (w_warnings w ++ [validation_error_warning e]) w) ;;
       lift (Raise e)
   end)%M.

(** [_establish_metadata_files]. *)
Definition _establish_metadata_files (self : t) : M World bool :=
  (w <- get_state ;;
   when (negb (path_exists w (path_parent (_metafile self))))
     (mkdir_parents (path_parent (_metafile self))) ;;
   w <- get_state ;;
   ret (negb (path_exists w (_metafile self))))%M.

(** [_case_uuid]. *)
Definition _case_uuid : M World string := uuid4.

(** [generate_metadata]. The arguments of [CaseSchema] are evaluated in
    the order they are written. *)
Definition generate_metadata : M state pyval :=
  (s <- get_state ;;
   established <- in_world (_establish_metadata_files (self s)) ;;
   if negb established
   then
     in_world (warn exists_warning UserWarning) ;;
     ret (PDict [])
   else
     masterdata <- lift (raw <- subscript (config (self s)) "masterdata" ;;
                         model_validate "Masterdata"
                           (Masterdata_validate UUID v_UUID) raw)%result ;;
     access <- lift (raw <- generate_meta_access (config (self s)) ;;
                     model_validate "Access"
                       (Access_validate Classification v_Classification)
                       raw)%result ;;
     model_ <- lift (raw <- subscript (config (self s)) "model" ;;
                     GlobalModel_validate raw)%result ;;
     uuid <- in_world _case_uuid ;;
     s' <- get_state ;;
     meta <- lift (CaseSchema_dump masterdata access model_
                     (casename (self s)) uuid (mkUser (caseuser (self s)))
                     (description (self s)) (world s')) ;;
     set_metadata (drop_nones meta) ;;
     ret (drop_nones meta))%M.

(** [export]. *)
Definition export : M state string :=
  (doc <- generate_metadata ;;
   s <- get_state ;;
   when (truthy doc)
     (in_world (export_metadata_file (_metafile (self s))
                                     (_metadata (self s)))) ;;
   ret (path_str (_metafile (self s))))%M.

End Methods.

End InitializeCase.

(** ** The JSON schema dump ([datastructure/meta/meta.py]) *)

(** [v == s] for a string literal [s]. *)
Definition equals_str (v : pyval) (s : string) : bool :=
  match v with
  | PStr x => String.eqb x s
  | _ => false
  end.

(** [_remove_discriminator_mapping]. *)
Definition _remove_discriminator_mapping (obj : pyval) : result pyval :=
  (obj <- del_at ["discriminator"] "mapping" obj ;;
   del_at ["$defs"; "AnyData"; "discriminator"] "mapping" obj)%result.

(** [_remove_format_path]. *)
Fixpoint _remove_format_path (obj : pyval) : pyval :=
  match obj with
  | PDict d =>
      PDict ((fix items (d : pydict) : pydict :=
                match d with
                | [] => []
                | (k, v) :: d' =>
                    if String.eqb k "format" && equals_str v "path"
                    then items d'
                    else (k, _remove_format_path v) :: items d'
                end) d)
  | PList l => PList (map _remove_format_path l)
  | _ => obj
  end.

(** The dict comprehension of [_remove_format_path], on the items of a
    dict. *)
Definition remove_format_path_items (d : pydict) : pydict :=
  match _remove_format_path (PDict d) with
  | PDict d' => d'
  | _ => []
  end.

(** [dict(ChainMap(a, b))]: the keys of [b] in their order, then the keys
    only [a] has; where both have a key, the value of [a]. *)
Definition ChainMap_dict (a b : pydict) : pydict :=
  List.app
    (map (fun kv => (fst kv,
                     match dict_lookup (fst kv) a with
                     | Some v => v
                     | None => snd kv
                     end)) b)
    (filter (fun kv => negb (dict_has (fst kv) b)) a).

(** The first argument of the [ChainMap] in [dump]. *)
Definition dump_header : pydict :=
  [("$contractual",
    PList (map PStr
      ["access"; "class"; "data.alias"; "data.bbox"; "data.content";
       "data.format"; "data.grid_model"; "data.is_observation";
       "data.is_prediction"; "data.name"; "data.offset";
       "data.seismic.attribute"; "data.spec.columns"; "data.stratigraphic";
       "data.stratigraphic_alias"; "data.tagname"; "data.time";
       "data.vertical_domain"; "file.checksum_md5"; "file.relative_path";
       "file.size_bytes"; "fmu.aggregation.operation";
       "fmu.aggregation.realization_ids"; "fmu.case"; "fmu.context.stage";
       "fmu.iteration.name"; "fmu.iteration.uuid"; "fmu.model";
       "fmu.realization.id"; "fmu.realization.name"; "fmu.realization.uuid";
       "fmu.workflow"; "masterdata"; "source"; "tracklog.datetime";
       "tracklog.event"; "tracklog.user.id"; "version"]));
   ("$schema", PStr "https://json-schema.org/draft/2020-12/schema");
   ("$id", PStr "fmu_meta.json")].

(** [dump], over what pydantic gives for [Root.model_json_schema()]. *)
Definition dump (Root_model_json_schema : pydict) : result pyval :=
  (schema <- _remove_discriminator_mapping
               (PDict (ChainMap_dict dump_header Root_model_json_schema)) ;;
   Ok (_remove_format_path schema))%result.

(** ** Predicates of the properties *)

(** The order [sorted] sorts by. *)
Definition str_le (x y : string) : Prop := String.leb x y = true.

(** A computation that never raises the given exception. *)
Definition never_raises {S A : Type} (e : exn) (m : M S A) : Prop :=
  forall s, fst (m s) <> Raise e.

(** A computation that keeps a property of the state, whether it returns
    or raises. *)
Definition preserves {S A : Type} (P : S -> Prop) (m : M S A) : Prop :=
  forall s, P s -> P (snd (m s)).

(** The instance attribute [name] has the value [v]. *)
Definition attr_is (name : string) (v : pyval) (s : ExportData.state)
  : Prop :=
  ExportData.attr name s = v.

(** No match of [old] starts within [pre], when [pre] is followed by
    [tail]. *)
Fixpoint no_match_within (old pre tail : string) : bool :=
  match pre with
  | EmptyString => true
  | String _ pre' =>
      negb (startswith old (pre ++ tail)) && no_match_within old pre' tail
  end.

(** A path component as [Path] leaves it: not empty, not [.], without
    a slash. *)
Definition clean_part (c : string) : bool :=
  negb (String.eqb c "") && negb (String.eqb c ".") && no_char "/" c.

(** The instance's [aggregation_id] is [v]. *)
Definition aggregation_id_is (v : pyval) (s : AggregatedData.state) : Prop :=
  AggregatedData.aggregation_id (AggregatedData.self s) = v.

(** [doc[p1]...[pn]]. *)
Fixpoint get_at (path : list string) (doc : pyval) : result pyval :=
  match path with
  | [] => Ok doc
  | p :: path' => (inner <- subscript doc p ;; get_at path' inner)%result
  end.

(** Two key paths part ways: at some depth they name different keys. *)
Fixpoint diverge (p q : list string) : bool :=
  match p, q with
  | a :: p', b :: q' => if String.eqb a b then diverge p' q' else true
  | _, _ => false
  end.

(** Every key of the association list is bound once, as in a Python
    dict. *)
Fixpoint keys_unique (d : pydict) : bool :=
  match d with
  | [] => true
  | (k, _) :: d' => negb (dict_has k d') && keys_unique d'
  end.

(** The document holds an entry ["format": "path"] at some depth. *)
Fixpoint has_format_path (v : pyval) : bool :=
  match v with
  | PDict d =>
      (fix any (d : pydict) : bool :=
         match d with
         | [] => false
         | (k, x) :: d' =>
             (String.eqb k "format" && equals_str x "path")
             || has_format_path x || any d'
         end) d
  | PList l => existsb has_format_path l
  | _ => false
  end.

(** A source document of an aggregation names its realization: it has
    [fmu.realization.id] and [fmu.realization.uuid]. *)
Definition names_realization (conf : pyval) : bool :=
  match get_at ["fmu"; "realization"; "id"] conf,
        get_at ["fmu"; "realization"; "uuid"] conf with
  | Ok _, Ok _ => true
  | _, _ => false
  end.

(** The instance with another [aggregation_id]. *)
Definition with_aggregation_id (id : pyval) (s : AggregatedData.state)
  : AggregatedData.state :=
  AggregatedData.mkState
    (AggregatedData.mk id
       (AggregatedData.casepath (AggregatedData.self s))
       (AggregatedData.source_metadata (AggregatedData.self s))
       (AggregatedData.name (AggregatedData.self s))
       (AggregatedData.operation (AggregatedData.self s))
       (AggregatedData.tagname (AggregatedData.self s))
       (AggregatedData.verbosity (AggregatedData.self s))
       (AggregatedData.meta_format (AggregatedData.self s))
       (AggregatedData._metadata (AggregatedData.self s)))
    (AggregatedData.world s).

(** The attributes after the settings are set one after the other. *)
Definition set_all (settings attrs : pydict) : pydict :=
  fold_left (fun d kv => dict_set (fst kv) (snd kv) d) settings attrs.

(** The setting passes the check of [_validate_variable]. *)
Definition legal_setting (legals : legals_t) (kv : string * pyval) : bool :=
  match _validate_variable (fst kv) (snd kv) legals with
  | Ok _ => true
  | Raise _ => false
  end.

(** The legal keys of [_update_check_settings]: the public annotations
    without [config]. *)
Definition update_legals : legals_t :=
  legals_del "config" (public_annotations ExportData.__annotations__).

(** The instance with other attributes. *)
Definition with_attrs (attrs : pydict) (s : ExportData.state)
  : ExportData.state :=
  ExportData.mkState attrs (ExportData._inside_rms s) (ExportData.world s).

(** The attributes the end of [__post_init__] computes. *)
Definition init_computed (name : string) : bool :=
  String.eqb name "config" || String.eqb name "_config_is_valid"
  || String.eqb name "_pwd" || String.eqb name "_rootpath".

(** The attributes a settings update computes itself. *)
Definition derived_attr (name : string) : bool :=
  String.eqb name "_usecontent" || String.eqb name "_content_specific"
  || String.eqb name "fmu_context".

(** ** Instances for concrete runs *)

(** Modelled from the spec: the part of the content taxonomy
    ([AllowedContent], not among the sources) that the spec names:
    "depth", "time" and "fluid_contact", of which the last takes extra
    fields, as in the example of the [ExportData] docstring. *)
Definition spec_model_fields : list string :=
  ["depth"; "time"; "fluid_contact"].

Definition spec_requires_additional_input (field : string) : bool :=
  String.eqb field "fluid_contact".

Definition spec_validate_dump (name : string) (fields : pyval)
  : result pyval :=
  Ok fields.

(** The name a content declaration resolves to, in the words of the
    contract of the content validator: the string itself, or the first key
    of a mapping. *)
Definition resolved_name (content : pyval) : option string :=
  match content with
  | PStr s => Some s
  | PDict ((k, _) :: _) => Some k
  | _ => None
  end.

(** The extra fields a mapping declares for its first key are themselves
    a mapping. *)
Definition payload_is_mapping (content : pyval) : bool :=
  match content with
  | PDict ((_, PDict _) :: _) => true
  | PDict _ => false
  | _ => true
  end.

(** Leaf validators for concrete runs. They take the values a document
    dumped with [mode="json"] holds for the leaf: an integer for [int], a
    boolean for [bool], and a string for a UUID, a date-time and the
    members of the enumerations. *)
Definition json_int : validator Z :=
  fun v =>
    match v with
    | PInt z => Valid z
    | _ => Invalid [mkVerror [] "Input should be a valid integer"]
    end.

Definition json_bool : validator bool :=
  fun v =>
    match v with
    | PBool b => Valid b
    | _ => Invalid [mkVerror [] "Input should be a valid boolean"]
    end.

(** Parameters as they are, when they are a dict. *)
Definition json_Parameters : validator pydict :=
  model "Parameters" (fun d => Valid d).

(** A data block as it is, when it is a dict; its [spec] is the value
    under that key, unless that is [None]. *)
Definition json_AnyData : validator pydict :=
  model "AnyData" (fun d => Valid d).

Definition json_spec (data : pydict) : option pyval :=
  match dict_lookup "spec" data with
  | Some PNone => None
  | other => other
  end.

Definition no_builtin_str (v : pyval) : string := "".

(** The two bytes of the letter a-with-ring in UTF-8: a string that is
    not ASCII. *)
Definition a_ring : string :=
  String (ascii_of_nat 195) (String (ascii_of_nat 165) EmptyString).

(** An object metadata document of class [surface], with the data block
    given. *)
Definition surface_fields (data : pyval) : pydict :=
    [("class", PStr "surface");
     ("masterdata",
      PDict [("smda",
        PDict [("coordinate_system",
                PDict [("identifier", PStr "ST_WGS84_UTM37N_P32637");
                       ("uuid", PStr "15ce3b84-766f-4c93-9050-b154861f9100")]);
               ("country",
                PList [PDict [("identifier", PStr "Norway");
                              ("uuid", PStr "ad214d85-8a1d-19da-e053-c918a4889309")]]);
               ("discovery",
                PList [PDict [("short_identifier", PStr "SomeDiscovery");
                              ("uuid", PStr "ad214d85-8a1d-19da-e053-c918a4889310")]]);
               ("field",
                PList [PDict [("identifier", PStr "OseFax");
                              ("uuid", PStr "ad214d85-8a1d-19da-e053-c918a4889311")]]);
               ("stratigraphic_column",
                PDict [("identifier", PStr "DROGON_2020");
                       ("uuid", PStr "ad214d85-8a1d-19da-e053-c918a4889312")])])]);
     ("tracklog",
      PList [PDict [("datetime", PStr "2020-10-28T14:28:02");
                    ("event", PStr "created");
                    ("user", PDict [("id", PStr "peesv")])]]);
     ("source", PStr "fmu");
     ("version", PStr "0.8.0");
     ("fmu",
      PDict [("case", PDict [("name", PStr "somecase");
                             ("user", PDict [("id", PStr "peesv")]);
                             ("uuid", PStr "15ce3b84-766f-4c93-9050-b154861f9100")]);
             ("model", PDict [("name", PStr "ff"); ("revision", PStr "21.0.0")]);
             ("context", PDict [("stage", PStr "realization")]);
             ("realization",
              PDict [("id", PInt 0); ("name", PStr "realization-0");
                     ("uuid", PStr "29b15b21-ce13-471b-9a4a-0f791b1a0d29")])]);
     ("access",
      PDict [("asset", PDict [("name", PStr "Drogon")]);
             ("ssdl", PDict [("access_level", PStr "internal");
                             ("rep_include", PBool false)])]);
     ("data", data);
     ("file",
      PDict [("relative_path",
              PStr "realization-0/iter-0/share/results/maps/x.gri");
             ("checksum_md5", PNone)]);
     ("display", PDict [("name", PStr "x")])].

Definition surface_document (data : pyval) : pyval :=
  PDict (surface_fields data).

(** The fmu block of an aggregation over realizations 0 and 1 of a case,
    with the entries given for [aggregation] and [realization], and a
    complete entry for each of the two. *)
Definition fmu_block (aggregation realization : pyval) : pydict :=
  [("case", PDict [("name", PStr "somecase");
                   ("user", PDict [("id", PStr "peesv")]);
                   ("uuid", PStr "15ce3b84-766f-4c93-9050-b154861f9100")]);
   ("model", PDict [("name", PStr "ff"); ("revision", PStr "21.0.0")]);
   ("context", PDict [("stage", PStr "iteration")]);
   ("aggregation", aggregation);
   ("realization", realization)].

Definition complete_aggregation : pyval :=
  PDict [("id", PStr "4aabe4f5-a8c5-4cb5-b9f1-5a0f4dc3e8a4");
         ("operation", PStr "mean");
         ("realization_ids", PList [PInt 0; PInt 1])].

Definition complete_realization : pyval :=
  PDict [("id", PInt 0); ("name", PStr "realization-0");
         ("uuid", PStr "29b15b21-ce13-471b-9a4a-0f791b1a0d29")].

(** Modelled from the spec: [FmuContext.get] ([_definitions], not among
    the sources) takes a member, or the name of one of the four contexts
    the spec lists. *)
Definition spec_FmuContext_get (key : pyval) : result FmuContext :=
  match key with
  | PCtx c => Ok c
  | PStr s =>
      if String.eqb s "realization" then Ok REALIZATION
      else if String.eqb s "case" then Ok CASE
      else if String.eqb s "case_symlink_realization"
      then Ok CASE_SYMLINK_REALIZATION
      else if String.eqb s "preprocessed" then Ok PREPROCESSED
      else Raise (mkExn KeyError ("Invalid key <" ++ s ++ ">"))
  | _ => Raise (mkExn ValidationError
                  "The input must be a str or FmuContext instance")
  end.

(** The error of [_update_check_settings] on the key [config]. *)
Definition config_error : exn :=
  mkExn ValueError "Cannot have 'config' outside instance initialization".

(** An instance as [__init__] leaves it for no keyword arguments, in a
    process started in [/scratch/f/case/realization-0/iter-0] on a file
    system that holds this directory and nothing else. *)
Definition empty_world : World :=
  mkWorld
    (mkFS ["/scratch"; "/scratch/f"; "/scratch/f/case";
           "/scratch/f/case/realization-0";
           "/scratch/f/case/realization-0/iter-0"] [])
    "/scratch/f/case/realization-0/iter-0" []
    (fun n => "uuid4-" ++ NilEmpty.string_of_uint (Nat.to_uint n)) 0.

Definition default_instance : ExportData.state :=
  ExportData.mkState
    (List.app ExportData.init_fields ExportData.private_fields)
    false empty_world.

(** The settings the file named by [FMU_DATAIO_CONFIG] supplies, when
    the variable is set and the file holds a mapping. *)
Definition external_settings (env : ExportData.Env) : pydict :=
  match ExportData.SETTINGS_ENV env with
  | Some (Ok (PDict d)) => d
  | _ => []
  end.

(** A process environment without the two variables, outside RMS. *)
Definition plain_env : ExportData.Env := ExportData.mkEnv None None false.

(** The same, with [FMU_DATAIO_CONFIG] naming a file that sets
    [vertical_domain]. *)
Definition settings_env : ExportData.Env :=
  ExportData.mkEnv
    (Some (Ok (PDict [("vertical_domain", PDict [("time", PStr "msl")])])))
    None false.

(** The first line of what pydantic shows for the errors of a model. *)
Definition spec_validation_error_str (cls : string) (errs : list verror)
  : string :=
  NilEmpty.string_of_uint (Nat.to_uint (List.length errs))
  ++ " validation error"
  ++ (match errs with [_] => "" | _ => "s" end)
  ++ " for " ++ cls.

(** Modelled from the spec: the case document ([CaseSchema] and the
    helpers of [_metadata] are not among the sources) is assembled "from
    the global configuration's masterdata/access/model blocks plus
    caller-supplied case name/user/description". The access block is
    the one of the configuration; the model of the configuration has a
    name and a revision, as the [Model] of [meta.py]; the document holds
    the validated blocks as [model_dump] shows them, without the values
    that are [None]. *)
Definition spec_generate_meta_access (config : pyval) : result pyval :=
  subscript config "access".

Definition spec_GlobalModel_validate (value : pyval) : result Model :=
  InitializeCase.model_validate spec_validation_error_str "Model"
    Model_validate value.

Definition dump_identified (key identifier uuid : string) : pyval :=
  PDict [(key, PStr identifier); ("uuid", PStr uuid)].

Definition spec_Masterdata_dump (m : Masterdata string) : pyval :=
  let smda := Masterdata_smda string m in
  PDict
    [("smda",
      PDict
        [("coordinate_system",
          dump_identified "identifier"
            (CoordinateSystem_identifier string
               (Smda_coordinate_system string smda))
            (CoordinateSystem_uuid string
               (Smda_coordinate_system string smda)));
         ("country",
          PList (map (fun c => dump_identified "identifier"
                                 (CountryItem_identifier string c)
                                 (CountryItem_uuid string c))
                     (Smda_country string smda)));
         ("discovery",
          PList (map (fun d => dump_identified "short_identifier"
                                 (DiscoveryItem_short_identifier string d)
                                 (DiscoveryItem_uuid string d))
                     (Smda_discovery string smda)));
         ("field",
          PList (map (fun f => dump_identified "identifier"
                                 (FieldItem_identifier string f)
                                 (FieldItem_uuid string f))
                     (Smda_field string smda)));
         ("stratigraphic_column",
          dump_identified "identifier"
            (StratigraphicColumn_identifier string
               (Smda_stratigraphic_column string smda))
            (StratigraphicColumn_uuid string
               (Smda_stratigraphic_column string smda)))])].

Definition spec_Access_dump (a : Access string) : pyval :=
  PDict
    (("asset", PDict [("name", PStr (Asset_name (Access_asset string a)))])
     :: match Access_classification string a with
        | Some c => [("classification", PStr c)]
        | None => []
        end).

Definition spec_Model_dump (m : Model) : pyval :=
  PDict
    (List.app
       match Model_description m with
       | Some lines => [("description", PList (map PStr lines))]
       | None => []
       end
       [("name", PStr (Model_name m)); ("revision", PStr (Model_revision m))]).

Definition spec_CaseSchema_dump (masterdata : Masterdata string)
    (access : Access string) (model_ : Model)
    (casename uuid : string) (user : User) (description : pyval) (w : World)
  : result pyval :=
  Ok (PDict [("class", PStr "case");
             ("masterdata", spec_Masterdata_dump masterdata);
             ("access", spec_Access_dump access);
             ("fmu",
              PDict [("model", spec_Model_dump model_);
                     ("case",
                      PDict [("name", PStr casename);
                             ("uuid", PStr uuid);
                             ("user", PDict [("id", PStr (User_id user))])])]);
             ("description", description)]).

(** Modelled from the spec: a global configuration is valid when its
    masterdata, access and model blocks are
    ([global_configuration.GlobalConfiguration] is not among the
    sources). *)
Definition spec_GlobalConfiguration_validate (config : pyval) : result unit :=
  (masterdata <- subscript config "masterdata" ;;
   _ <- InitializeCase.model_validate spec_validation_error_str "Masterdata"
          (Masterdata_validate string v_str) masterdata ;;
   access <- subscript config "access" ;;
   _ <- InitializeCase.model_validate spec_validation_error_str "Access"
          (Access_validate string v_str) access ;;
   model_ <- subscript config "model" ;;
   _ <- spec_GlobalModel_validate model_ ;;
   Ok tt)%result.

(** Modelled from the spec: [_utils.drop_nones] (not among the sources)
    leaves out the keys of a mapping whose value is [None]. *)
Definition spec_drop_nones (v : pyval) : pyval :=
  match v with
  | PDict d =>
      PDict (filter (fun kv => match snd kv with
                               | PNone => false
                               | _ => true
                               end) d)
  | _ => v
  end.

(** A global configuration with the masterdata of the Drogon field, and
    the same with a masterdata block that lacks what [Smda] requires. *)
Definition example_masterdata : pyval :=
  PDict [("smda",
    PDict [("coordinate_system",
            PDict [("identifier", PStr "ST_WGS84_UTM37N_P32637");
                   ("uuid", PStr "15ce3b84-766f-4c93-9050-b154861f9100")]);
           ("country",
            PList [PDict [("identifier", PStr "Norway");
                          ("uuid", PStr "ad214d85-8a1d-19da-e053-c918a4889309")]]);
           ("discovery",
            PList [PDict [("short_identifier", PStr "SomeDiscovery");
                          ("uuid", PStr "ad214d85-8a1d-19da-e053-c918a4889310")]]);
           ("field",
            PList [PDict [("identifier", PStr "OseFax");
                          ("uuid", PStr "ad214d85-8a1d-19da-e053-c918a4889311")]]);
           ("stratigraphic_column",
            PDict [("identifier", PStr "DROGON_2020");
                   ("uuid", PStr "ad214d85-8a1d-19da-e053-c918a4889312")])])].

Definition example_config_fields : pydict :=
  [("masterdata", example_masterdata);
   ("access", PDict [("asset", PDict [("name", PStr "Drogon")])]);
   ("model", PDict [("name", PStr "ff"); ("revision", PStr "21.0.0")])].

Definition example_config : pyval := PDict example_config_fields.

Definition incomplete_config : pyval :=
  PDict [("masterdata", PDict [("smda", PDict [])]);
         ("access", PDict [("asset", PDict [("name", PStr "Drogon")])]);
         ("model", PDict [("name", PStr "ff"); ("revision", PStr "21.0.0")])].

(** An initializer for the case root [/scratch/f/case], as its
    constructor leaves it, and one with the incomplete configuration. *)
Definition example_case : InitializeCase.t :=
  InitializeCase.mk example_config (PStr "/scratch/f/case") "somecase"
    "peesv" PNone (PDict [])
    (path_join (Path "/scratch/f/case") (Path "share/metadata/fmu_case.yml"))
    (Path "/scratch/f/case/realization-0/iter-0")
    (Path "/scratch/f/case").

Definition incomplete_case : InitializeCase.t :=
  InitializeCase.mk incomplete_config (PStr "/scratch/f/case") "somecase"
    "peesv" PNone (PDict [])
    (path_join (Path "/scratch/f/case") (Path "share/metadata/fmu_case.yml"))
    (Path "/scratch/f/case/realization-0/iter-0")
    (Path "/scratch/f/case").

(** The document [example_case] gets with the case UUID given. *)
Definition example_case_document (uuid : string) : pyval :=
  PDict [("class", PStr "case");
         ("masterdata", example_masterdata);
         ("access", PDict [("asset", PDict [("name", PStr "Drogon")])]);
         ("fmu",
          PDict [("model",
                  PDict [("name", PStr "ff"); ("revision", PStr "21.0.0")]);
                 ("case",
                  PDict [("name", PStr "somecase"); ("uuid", PStr uuid);
                         ("user", PDict [("id", PStr "peesv")])])])].

Definition example_case_state : InitializeCase.state :=
  InitializeCase.mkState example_case empty_world.

(** A process in which [share/metadata] under the case root is a
    regular file. *)
Definition blocked_world : World :=
  set_fs (mkFS (fs_dirs (add_dir "/scratch/f/case/share" (w_fs empty_world)))
               [("/scratch/f/case/share/metadata", PNone)])
         empty_world.

(** What [_construct_filename] reads from a template: the name of the
    realization, the relative path, and the absolute path ([None] when
    the file block has none). *)
Definition template_paths (template : pyval) (realiname relpath : string)
    (abspath : pyval) : Prop :=
  exists fmu realization file,
    subscript template "fmu" = Ok fmu
    /\ subscript fmu "realization" = Ok realization
    /\ subscript realization "name" = Ok (PStr realiname)
    /\ subscript template "file" = Ok (PDict file)
    /\ dict_lookup "relative_path" file = Some (PStr relpath)
    /\ dict_get "absolute_path" file = abspath.

(** The new file name without its suffix, in the words of the contract
    of the aggregation merger, with the instance's own name taking the
    place of [<stem>--<operation>] when it is set. *)
Definition aggregated_name (self : AggregatedData.t) (stem : string)
  : string :=
  (if String.eqb (AggregatedData.name self) ""
   then stem ++ "--" ++ AggregatedData.operation self
   else AggregatedData.name self)
  ++ (if String.eqb (AggregatedData.tagname self) "" then ""
      else "--" ++ AggregatedData.tagname self).


(** The environment after the warning on a missing name, if it is
    given. *)
Definition name_warned (self : AggregatedData.t) (w : World) : World :=
  if String.eqb (AggregatedData.name self) ""
  then set_warnings
         (List.app (w_warnings w)
            [mkWarning UserWarning
               "Input name is not given, will assume <usename>"]) w
  else w.

(** The absolute path of a template below the directories [pre], when it
    has one. *)
Definition template_abspath (pre : option (list string)) (r rest : string)
  : pyval :=
  match pre with
  | Some pre => PStr (("/" ++ String.concat "/" pre ++ "/") ++ (r ++ "/") ++ rest)
  | None => PNone
  end.

(** The directories above the realization folder are clean parts, and
    the realization folder followed by a slash does not occur before its
    own place. *)
Definition abspath_ok (pre : option (list string)) (r rest : string) : Prop :=
  match pre with
  | Some pre =>
      pre <> []
      /\ forallb clean_part pre = true
      /\ no_match_within (r ++ "/") ("/" ++ String.concat "/" pre ++ "/")
            ((r ++ "/") ++ rest) = true
  | None => True
  end.

(** The template of the docstring of [_construct_filename]. *)
Definition example_template : pyval :=
  PDict
    [("fmu",
      PDict [("realization",
              PDict [("id", PInt 33); ("name", PStr "realization-33")])]);
     ("file",
      PDict [("relative_path",
              PStr "realization-33/iter-0/share/results/maps/x.gri");
             ("absolute_path",
              PStr "/scratch/f/case/realization-33/iter-0/share/results/maps/x.gri")])].

(** A JSON schema of the shape pydantic gives for [Root]: a discriminator
    with its mapping at the top and under [$defs.AnyData], a path-typed
    property, and an [$id] of its own. *)
Definition example_schema : pydict :=
  [("$defs",
    PDict [("AnyData",
            PDict [("discriminator",
                    PDict [("mapping", PDict [("depth", PStr "#/$defs/Depth")]);
                           ("propertyName", PStr "content")])]);
           ("File",
            PDict [("properties",
                    PDict [("relative_path",
                            PDict [("format", PStr "path");
                                   ("type", PStr "string")])])])]);
   ("discriminator",
    PDict [("mapping", PDict [("case", PStr "#/$defs/CaseMetadata")]);
           ("propertyName", PStr "class")]);
   ("$id", PStr "Root");
   ("title", PStr "Root")].

(** An instance with an [access_ssdl] and a configuration that has an
    [access] block, and the same with the empty configuration. *)
Definition ssdl_instance : ExportData.state :=
  with_attrs
    (set_all [("access_ssdl",
               PDict [("access_level", PStr "internal");
                      ("rep_include", PBool false)]);
              ("config", example_config)]
       (ExportData.self default_instance))
    default_instance.

Definition ssdl_instance_no_config : ExportData.state :=
  with_attrs
    (set_all [("access_ssdl",
               PDict [("access_level", PStr "internal");
                      ("rep_include", PBool false)])]
       (ExportData.self default_instance))
    default_instance.

(** A process environment whose [FMU_DATAIO_CONFIG] names a file that
    sets [fmu_context]. *)
Definition context_env : ExportData.Env :=
  ExportData.mkEnv (Some (Ok (PDict [("fmu_context", PStr "case")]))) None
    false.

(** A process that sees the case root [/scratch/f/othercase]. *)
Definition othercase_world : World :=
  set_fs (add_dir "/scratch/f/othercase" (w_fs empty_world)) empty_world.

(** A preprocessed surface file with its metadata, as
    [read_metadata_from_file] finds it, and an instance that has a name
    of its own in a process that sees the file. *)
Definition preprocessed_file : string :=
  "/scratch/f/case/share/preprocessed/maps/x.gri".

Definition read_preprocessed (w : World) (filename : PurePath)
  : result pyval :=
  Ok (PDict [("_preprocessed",
              PDict [("name", PStr "stored"); ("tagname", PStr "depth")])]).

Definition named_instance : ExportData.state :=
  ExportData.mkState
    (set_all [("name", PStr "given")] (ExportData.self default_instance))
    false
    (set_fs (mkFS (fs_dirs
                     (add_dir "/scratch/f/case/share/preprocessed/maps"
                        (add_dir "/scratch/f/case/share/preprocessed"
                           (add_dir "/scratch/f/case/share"
                              (w_fs empty_world)))))
                  [(preprocessed_file, PNone)])
            empty_world).

(** An assembler of single-object metadata for concrete runs: a document
    with the blocks [_generate_aggrd_metadata] reads from it. *)
Definition example_export_metadata (config : pyval) (name : string)
    (content : pyval) (obj : unit) (compute_md5 : bool) : M World pyval :=
  ret (PDict [("tracklog", PList []);
              ("file", PDict [("checksum_md5", PNone)]);
              ("data", PDict [("content", content)])]).

(** An aggregation over one surface document, without an id of its
    own, and the same without a source document. *)
Definition example_aggregation : AggregatedData.state :=
  AggregatedData.mkState
    (AggregatedData.mk PNone PNone
       [surface_document (PDict [("content", PStr "depth")])]
       "" "mean" "" "DEPRECATED" (PStr "yaml") (PDict []))
    empty_world.

(** An aggregation whose only source document has an empty [fmu] block,
    and the aggregation over one surface document before its operation
    is set. *)
Definition nameless_aggregation : AggregatedData.state :=
  AggregatedData.mkState
    (AggregatedData.mk PNone PNone [PDict [("fmu", PDict [])]] "" "mean" ""
       "DEPRECATED" (PStr "yaml") (PDict []))
    empty_world.

Definition unset_aggregation : AggregatedData.state :=
  AggregatedData.mkState
    (AggregatedData.mk PNone PNone
       [surface_document (PDict [("content", PStr "depth")])]
       "" "" "" "DEPRECATED" (PStr "yaml") (PDict []))
    empty_world.

Definition empty_aggregation : AggregatedData.state :=
  AggregatedData.mkState
    (AggregatedData.mk PNone PNone [] "" "mean" ""
       "DEPRECATED" (PStr "yaml") (PDict []))
    empty_world.

(** * Properties *)

Lemma str_in_In (x : string) (xs : list string) :
  str_in x xs = true <-> In x xs.
Proof.
  unfold str_in. rewrite existsb_exists. split.
  - intros [y [Hy Heq]]. apply String.eqb_eq in Heq. now subst.
  - intros H. exists x. split; [assumption | apply String.eqb_refl].
Qed.

Lemma str_in_false (x : string) (xs : list string) :
  str_in x xs = false <-> ~ In x xs.
Proof.
  rewrite <- str_in_In. destruct (str_in x xs); split; intros H;
    try reflexivity; try discriminate.
  exfalso. apply H. reflexivity.
Qed.

Lemma dict_get_head (k : string) (v : pyval) (d : pydict) :
  dict_get k ((k, v) :: d) = v.
Proof. unfold dict_get. simpl. now rewrite String.eqb_refl. Qed.

(** ** The state-and-exception monad *)

(** Two results that differ by a constructor. *)
Ltac differ := let H := fresh "H" in intros H; discriminate H.

Lemma never_raises_ret {S A : Type} (e : exn) (a : A) :
  never_raises e (ret a : M S A).
Proof. intros s. discriminate. Qed.

Lemma never_raises_modify {S : Type} (e : exn) (f : S -> S) :
  never_raises e (modify f).
Proof. intros s. discriminate. Qed.

Lemma never_raises_get_state {S : Type} (e : exn) :
  never_raises e (get_state : M S S).
Proof. intros s. discriminate. Qed.

Lemma never_raises_bind {S A B : Type} (e : exn) (m : M S A)
    (f : A -> M S B) :
  never_raises e m -> (forall a, never_raises e (f a)) ->
  never_raises e (bind m f).
Proof.
  intros Hm Hf s. unfold bind. specialize (Hm s).
  destruct (m s) as [[a | e'] s']; simpl in *.
  - apply Hf.
  - intros H. apply Hm. injection H as ->. reflexivity.
Qed.

Lemma never_raises_lift {S A : Type} (e : exn) (r : result A) :
  r <> Raise e -> never_raises e (lift r : M S A).
Proof. intros H s. exact H. Qed.

Lemma never_raises_when {S : Type} (e : exn) (b : bool) (m : M S unit) :
  never_raises e m -> never_raises e (when b m).
Proof. destruct b; [auto | intros _; apply never_raises_ret]. Qed.

Lemma never_raises_for_each {S A : Type} (e : exn) (l : list A)
    (body : A -> M S unit) :
  (forall a, never_raises e (body a)) -> never_raises e (for_each l body).
Proof.
  intros H. induction l as [| a l IH]; simpl.
  - apply never_raises_ret.
  - apply never_raises_bind; auto.
Qed.

Lemma preserves_ret {S A : Type} (P : S -> Prop) (a : A) :
  preserves P (ret a).
Proof. intros s H. exact H. Qed.

Lemma preserves_lift {S A : Type} (P : S -> Prop) (r : result A) :
  preserves P (lift r).
Proof. intros s H. exact H. Qed.

Lemma preserves_get_state {S : Type} (P : S -> Prop) :
  preserves P (get_state : M S S).
Proof. intros s H. exact H. Qed.

Lemma preserves_bind {S A B : Type} (P : S -> Prop) (m : M S A)
    (f : A -> M S B) :
  preserves P m -> (forall a, preserves P (f a)) -> preserves P (bind m f).
Proof.
  intros Hm Hf s H. unfold bind. specialize (Hm s H).
  destruct (m s) as [[a | e] s1]; simpl in *.
  - now apply Hf.
  - exact Hm.
Qed.

Lemma preserves_when {S : Type} (P : S -> Prop) (b : bool) (m : M S unit) :
  preserves P m -> preserves P (when b m).
Proof. destruct b; [auto | intros _; apply preserves_ret]. Qed.

Lemma preserves_for_each {S A : Type} (P : S -> Prop) (l : list A)
    (body : A -> M S unit) :
  Forall (fun a => preserves P (body a)) l -> preserves P (for_each l body).
Proof.
  induction 1 as [| a l Ha Hl IH]; simpl.
  - apply preserves_ret.
  - apply preserves_bind; auto.
Qed.

Lemma bind_ok_inv {S A B : Type} (m : M S A) (f : A -> M S B) (s s' : S)
    (b : B) :
  bind m f s = (Ok b, s') ->
  exists a s1, m s = (Ok a, s1) /\ f a s1 = (Ok b, s').
Proof.
  unfold bind. destruct (m s) as [[a | e] s1]; intros H.
  - eauto.
  - discriminate H.
Qed.

Lemma preserves_bind_lift {S A B : Type} (P : S -> Prop) (r : result A)
    (f : A -> M S B) :
  (forall a, r = Ok a -> preserves P (f a)) -> preserves P (bind (lift r) f).
Proof.
  intros Hf s H. unfold bind, lift. destruct r as [a | e]; simpl.
  - now apply (Hf a eq_refl).
  - exact H.
Qed.

Lemma preserves_throw {S A : Type} (P : S -> Prop) (c : exn_class)
    (msg : string) :
  preserves P (throw c msg : M S A).
Proof. intros s H. exact H. Qed.

(** ** The content validator *)

Section ContentFacts.

Variable model_fields : list string.
Variable requires_additional_input : string -> bool.
Variable AllowedContent_validate_dump : string -> pyval -> result pyval.

Local Abbreviation check :=
  (_check_content model_fields requires_additional_input
                  AllowedContent_validate_dump).

Lemma check_content_absent : check PNone = Ok ("unset", PNone).
Proof. reflexivity. Qed.

Lemma check_content_string (s : string) :
  requires_additional_input s = false ->
  (s = "unset" \/ In s model_fields) ->
  check (PStr s) = Ok (s, PNone).
Proof.
  intros Hreq Hs. unfold _check_content, resolve_content. rewrite Hreq.
  cbn [rbind].
  assert (Hguard : negb (String.eqb s "unset") && negb (str_in s model_fields)
                   = false).
  { destruct Hs as [-> | Hin].
    - reflexivity.
    - apply str_in_In in Hin. rewrite Hin. apply andb_false_r. }
  rewrite Hguard. reflexivity.
Qed.

(** C2, as the validator has it: a string of the content taxonomy is
    returned unchanged, with no extra fields, unless the taxonomy says that
    this content requires additional input; then the validator raises a
    [ValidationError] naming the content. *)
Theorem check_content_taxonomy_string (content : string) :
  In content model_fields ->
  _check_content model_fields requires_additional_input
                 AllowedContent_validate_dump (PStr content)
  = if requires_additional_input content
    then Raise (mkExn ValidationError
                  ("content " ++ content ++ " requires additional input"))
    else Ok (content, PNone).
Proof.
  intros Hin. destruct (requires_additional_input content) eqn:Hreq.
  - unfold _check_content, resolve_content. rewrite Hreq. reflexivity.
  - apply check_content_string; auto.
Qed.

(** C3, as the validator has it: a declaration whose resolved name is
    neither "unset" nor in the taxonomy, and whose extra fields (when it is
    a mapping) are a mapping, raises a [ValidationError]; an absent
    declaration resolves to "unset" with no extra fields. *)
Theorem check_content_unknown_name (content : pyval) (name : string) :
  resolved_name content = Some name ->
  name <> "unset" ->
  ~ In name model_fields ->
  payload_is_mapping content = true ->
  raises (_check_content model_fields requires_additional_input
                         AllowedContent_validate_dump content)
         ValidationError
  /\ _check_content model_fields requires_additional_input
                    AllowedContent_validate_dump PNone
     = Ok ("unset", PNone).
Proof.
  intros Hname Hunset Hnotin Hpayload. split; [| reflexivity].
  assert (Hguard : negb (String.eqb name "unset")
                   && negb (str_in name model_fields) = true).
  { apply String.eqb_neq in Hunset. rewrite Hunset.
    apply str_in_false in Hnotin. now rewrite Hnotin. }
  destruct content as [| | | s | | | | kv]; try discriminate Hname.
  - injection Hname as ->.
    unfold _check_content, resolve_content.
    destruct (requires_additional_input name).
    + eexists. reflexivity.
    + cbn [rbind]. rewrite Hguard. eexists. reflexivity.
  - destruct kv as [| [k v] kv]; [discriminate Hname |].
    injection Hname as ->.
    destruct v; try discriminate Hpayload.
    unfold _check_content, resolve_content.
    rewrite dict_get_head. cbn [rbind]. rewrite Hguard.
    eexists. reflexivity.
Qed.

End ContentFacts.

Lemma check_content_taxonomy_string_witness :
  _check_content spec_model_fields spec_requires_additional_input
                 spec_validate_dump (PStr "depth")
  = Ok ("depth", PNone).
Proof.
  exact (check_content_taxonomy_string spec_model_fields
           spec_requires_additional_input spec_validate_dump "depth"
           (or_introl eq_refl)).
Defined.

(** The claim C2 as stated fails at "fluid_contact": a name of the
    taxonomy, for which the validator raises instead of returning. *)
Lemma check_content_requires_input_counterexample :
  In "fluid_contact" spec_model_fields
  /\ _check_content spec_model_fields spec_requires_additional_input
                    spec_validate_dump (PStr "fluid_contact")
     <> Ok ("fluid_contact", PNone).
Proof.
  split.
  - simpl. auto.
  - vm_compute. discriminate.
Qed.

Lemma check_content_unknown_name_witness :
  raises (_check_content spec_model_fields spec_requires_additional_input
                         spec_validate_dump
                         (PDict [("bogus", PDict [("a", PInt 1)])]))
         ValidationError
  /\ _check_content spec_model_fields spec_requires_additional_input
                    spec_validate_dump PNone
     = Ok ("unset", PNone).
Proof.
  apply (check_content_unknown_name spec_model_fields
           spec_requires_additional_input spec_validate_dump
           (PDict [("bogus", PDict [("a", PInt 1)])]) "bogus").
  - reflexivity.
  - discriminate.
  - simpl. intuition discriminate.
  - reflexivity.
Defined.

(** The claim C3 as stated fails at a mapping whose extra fields are not
    a mapping: the name "bogus" is not in the taxonomy, and the validator
    raises the [ValueError] on the format, not a [ValidationError]. It
    fails as well at the string "unset", which is returned as it is. *)
Lemma check_content_unknown_name_counterexample :
  (resolved_name (PDict [("bogus", PInt 5)]) = Some "bogus"
   /\ ~ In "bogus" spec_model_fields
   /\ ~ raises (_check_content spec_model_fields
                  spec_requires_additional_input spec_validate_dump
                  (PDict [("bogus", PInt 5)]))
               ValidationError)
  /\ (resolved_name (PStr "unset") = Some "unset"
      /\ ~ In "unset" spec_model_fields
      /\ _check_content spec_model_fields spec_requires_additional_input
                        spec_validate_dump (PStr "unset")
         = Ok ("unset", PNone)).
Proof.
  repeat split.
  - simpl. intuition discriminate.
  - intros [msg H]. vm_compute in H. discriminate H.
  - simpl. intuition discriminate.
Qed.

(** ** The aggregation id *)

Lemma ascii_compare_refl (a : ascii) : Ascii.compare a a = Eq.
Proof. unfold Ascii.compare. apply N.compare_refl. Qed.

Lemma ascii_compare_lt_trans (a b c : ascii) :
  Ascii.compare a b = Lt -> Ascii.compare b c = Lt -> Ascii.compare a c = Lt.
Proof.
  unfold Ascii.compare. rewrite !N.compare_lt_iff. apply N.lt_trans.
Qed.

Lemma string_compare_lt_trans (x y z : string) :
  String.compare x y = Lt -> String.compare y z = Lt ->
  String.compare x z = Lt.
Proof.
  revert y z. induction x as [| a x IH]; intros [| b y] [| c z]; simpl;
    try discriminate; auto.
  destruct (Ascii.compare a b) eqn:Hab; try discriminate;
    destruct (Ascii.compare b c) eqn:Hbc; try discriminate; intros Hxy Hyz.
  - apply Ascii.compare_eq_iff in Hab, Hbc. subst.
    rewrite ascii_compare_refl. eauto.
  - apply Ascii.compare_eq_iff in Hab. subst. now rewrite Hbc.
  - apply Ascii.compare_eq_iff in Hbc. subst. now rewrite Hab.
  - now rewrite (ascii_compare_lt_trans a b c Hab Hbc).
Qed.

Lemma string_leb_trans (x y z : string) :
  String.leb x y = true -> String.leb y z = true -> String.leb x z = true.
Proof.
  unfold String.leb.
  destruct (String.compare x y) eqn:Hxy; try discriminate;
    destruct (String.compare y z) eqn:Hyz; try discriminate; intros _ _.
  - apply String.compare_eq_iff in Hxy. subst. now rewrite Hyz.
  - apply String.compare_eq_iff in Hxy. subst. now rewrite Hyz.
  - apply String.compare_eq_iff in Hyz. subst. now rewrite Hxy.
  - now rewrite (string_compare_lt_trans x y z Hxy Hyz).
Qed.

Lemma insert_sorted_perm (x : string) (l : list string) :
  Permutation (insert_sorted x l) (x :: l).
Proof.
  induction l as [| y l IH]; simpl.
  - apply Permutation_refl.
  - destruct (String.leb x y).
    + apply Permutation_refl.
    + eapply perm_trans; [apply perm_skip, IH | apply perm_swap].
Qed.

Lemma sorted_perm (l : list string) : Permutation (sorted l) l.
Proof.
  induction l as [| x l IH]; simpl.
  - apply perm_nil.
  - eapply perm_trans; [apply insert_sorted_perm | now apply perm_skip].
Qed.

Lemma insert_sorted_ordered (x : string) (l : list string) :
  StronglySorted str_le l -> StronglySorted str_le (insert_sorted x l).
Proof.
  induction 1 as [| y l Hsorted IH Hall]; simpl.
  - repeat constructor.
  - destruct (String.leb x y) eqn:Hxy.
    + constructor; [now constructor |].
      constructor; [exact Hxy |].
      eapply Forall_impl; [| exact Hall].
      intros z Hyz. exact (string_leb_trans x y z Hxy Hyz).
    + constructor; [exact IH |].
      eapply Permutation_Forall;
        [apply Permutation_sym, insert_sorted_perm |].
      constructor; [| exact Hall].
      destruct (String.leb_total x y) as [H | H]; [congruence | exact H].
Qed.

Lemma sorted_ordered (l : list string) : StronglySorted str_le (sorted l).
Proof.
  induction l as [| x l IH]; simpl.
  - constructor.
  - now apply insert_sorted_ordered.
Qed.

Lemma ordered_perm_unique (l1 l2 : list string) :
  StronglySorted str_le l1 -> StronglySorted str_le l2 ->
  Permutation l1 l2 -> l1 = l2.
Proof.
  intros H1. revert l2.
  induction H1 as [| a l1 Hs1 IH Hall1]; intros l2 H2 Hperm.
  - now apply Permutation_nil in Hperm.
  - destruct H2 as [| b l2 Hs2 Hall2].
    + apply Permutation_sym, Permutation_nil in Hperm. discriminate.
    + assert (Hab : a = b).
      { assert (Ha : In a (b :: l2))
          by (eapply Permutation_in; [exact Hperm | now left]).
        assert (Hb : In b (a :: l1))
          by (eapply Permutation_in;
              [apply Permutation_sym; exact Hperm | now left]).
        destruct Ha as [Ha | Ha]; [now symmetry |].
        destruct Hb as [Hb | Hb]; [assumption |].
        rewrite Forall_forall in Hall1, Hall2.
        apply String.leb_antisym; [apply Hall1 | apply Hall2]; assumption. }
      subst b. f_equal. apply IH; [assumption |].
      eapply Permutation_cons_inv. exact Hperm.
Qed.

Lemma sorted_permutation (l l' : list string) :
  Permutation l l' -> sorted l = sorted l'.
Proof.
  intros Hperm. apply ordered_perm_unique; try apply sorted_ordered.
  eapply perm_trans; [apply sorted_perm |].
  eapply perm_trans; [exact Hperm | apply Permutation_sym, sorted_perm].
Qed.

Lemma as_strings_strings (l : list string) :
  as_strings (map PStr l) = Ok l.
Proof.
  induction l as [| x l IH]; simpl; [reflexivity |]. now rewrite IH.
Qed.

(** The instance's [aggregation_id] is [v]. *)
Lemma aggregated_in_world_keeps {A : Type} (v : pyval) (m : M World A) :
  preserves (aggregation_id_is v) (AggregatedData.in_world m).
Proof.
  intros s H. unfold AggregatedData.in_world.
  destruct (m (AggregatedData.world s)) as [r w]. exact H.
Qed.

Lemma aggregated_set_metadata_keeps (v doc : pyval) :
  preserves (aggregation_id_is v) (AggregatedData.set_metadata doc).
Proof. intros s H. exact H. Qed.

(** The routine steps of a proof that [aggregation_id] is kept. *)
Ltac keep_id :=
  repeat first
    [ apply preserves_ret
    | apply preserves_lift
    | apply preserves_throw
    | apply preserves_get_state
    | apply aggregated_in_world_keeps
    | apply aggregated_set_metadata_keeps
    | apply preserves_bind; [| intros ?]
    | match goal with
      | |- preserves _ (if ?b then _ else _) => destruct b
      end ].

Section AggregationIdFacts.

Variable uuid_from_string : string -> string.
Variable filter_validate_metadata : pyval -> pyval.
Variable Obj : Type.
Variable export_metadata :
  pyval -> string -> pyval -> Obj -> bool -> M World pyval.

(** With no explicit id, [_generate_aggrd_metadata] leaves the hash of
    the sorted concatenation of the UUIDs in [self.aggregation_id],
    whether the rest of it returns or raises. *)
Lemma generated_aggregation_id (obj : Obj) (real_ids : list pyval)
    (uuids : list string) (compute_md5 : bool) (s : AggregatedData.state) :
  AggregatedData.aggregation_id (AggregatedData.self s) = PNone ->
  AggregatedData.aggregation_id
    (AggregatedData.self
       (snd (AggregatedData._generate_aggrd_metadata uuid_from_string
               filter_validate_metadata Obj export_metadata obj real_ids
               (map PStr uuids) compute_md5 s)))
  = PStr (uuid_from_string (String.concat "" (sorted uuids))).
Proof.
  intros Hnone. unfold AggregatedData._generate_aggrd_metadata.
  unfold bind at 1. cbn [get_state]. rewrite Hnone.
  unfold bind at 1. unfold bind at 1. rewrite as_strings_strings.
  cbn [lift]. unfold AggregatedData.set_aggregation_id at 1.
  cbn [modify].
  match goal with
  | |- AggregatedData.aggregation_id
         (AggregatedData.self (snd (?rest ?s1))) = ?v =>
      assert (Hkeep : preserves (aggregation_id_is v) rest)
  end.
  { keep_id. }
  apply Hkeep. reflexivity.
Qed.

(** C4: with no explicit [aggregation_id], the id
    [_generate_aggrd_metadata] derives is the hash of the sorted
    concatenation of the realization UUIDs, so every permutation of the
    list of UUIDs gives the same id, whatever else differs between the
    two calls. *)
Theorem aggregation_id_permutation (obj obj' : Obj)
    (real_ids real_ids' : list pyval) (uuids uuids' : list string)
    (compute_md5 compute_md5' : bool) (s : AggregatedData.state) :
  AggregatedData.aggregation_id (AggregatedData.self s) = PNone ->
  Permutation uuids uuids' ->
  AggregatedData.aggregation_id
    (AggregatedData.self
       (snd (AggregatedData._generate_aggrd_metadata uuid_from_string
               filter_validate_metadata Obj export_metadata obj' real_ids'
               (map PStr uuids') compute_md5' s)))
  = AggregatedData.aggregation_id
      (AggregatedData.self
         (snd (AggregatedData._generate_aggrd_metadata uuid_from_string
                 filter_validate_metadata Obj export_metadata obj real_ids
                 (map PStr uuids) compute_md5 s)))
  /\ AggregatedData.aggregation_id
       (AggregatedData.self
          (snd (AggregatedData._generate_aggrd_metadata uuid_from_string
                  filter_validate_metadata Obj export_metadata obj real_ids
                  (map PStr uuids) compute_md5 s)))
     = PStr (AggregatedData._generate_aggr_uuid uuid_from_string uuids).
Proof.
  intros Hnone Hperm. rewrite !generated_aggregation_id by exact Hnone.
  unfold AggregatedData._generate_aggr_uuid.
  now rewrite (sorted_permutation uuids uuids' Hperm).
Qed.

End AggregationIdFacts.

Lemma aggregation_id_permutation_witness :
  AggregatedData.aggregation_id
    (AggregatedData.self
       (snd (AggregatedData._generate_aggrd_metadata (fun s => s)
               (fun doc => doc) unit (fun _ _ _ _ _ => ret (PDict []))
               tt [PInt 2; PInt 0; PInt 1]
               (map PStr ["c3"; "a1"; "b2"]) false
               (AggregatedData.mkState
                  (AggregatedData.mk PNone PNone [example_template] ""
                     "mean" "" "DEPRECATED" (PStr "yaml") (PDict []))
                  empty_world))))
  = AggregatedData.aggregation_id
      (AggregatedData.self
         (snd (AggregatedData._generate_aggrd_metadata (fun s => s)
                 (fun doc => doc) unit (fun _ _ _ _ _ => ret (PDict []))
                 tt [PInt 0; PInt 1; PInt 2]
                 (map PStr ["a1"; "b2"; "c3"]) true
                 (AggregatedData.mkState
                    (AggregatedData.mk PNone PNone [example_template] ""
                       "mean" "" "DEPRECATED" (PStr "yaml") (PDict []))
                    empty_world))))
  /\ AggregatedData.aggregation_id
       (AggregatedData.self
          (snd (AggregatedData._generate_aggrd_metadata (fun s => s)
                  (fun doc => doc) unit (fun _ _ _ _ _ => ret (PDict []))
                  tt [PInt 0; PInt 1; PInt 2]
                  (map PStr ["a1"; "b2"; "c3"]) true
                  (AggregatedData.mkState
                     (AggregatedData.mk PNone PNone [example_template] ""
                        "mean" "" "DEPRECATED" (PStr "yaml") (PDict []))
                     empty_world))))
     = PStr "a1b2c3".
Proof.
  apply (aggregation_id_permutation (fun s => s) (fun doc => doc) unit
           (fun _ _ _ _ _ => ret (PDict [])) tt tt
           [PInt 0; PInt 1; PInt 2] [PInt 2; PInt 0; PInt 1]
           ["a1"; "b2"; "c3"] ["c3"; "a1"; "b2"] true false
           (AggregatedData.mkState
              (AggregatedData.mk PNone PNone [example_template] ""
                 "mean" "" "DEPRECATED" (PStr "yaml") (PDict []))
              empty_world)).
  - reflexivity.
  - change (Permutation (List.app ["a1"; "b2"] ["c3"]) ("c3" :: ["a1"; "b2"])).
    apply Permutation_sym, Permutation_cons_append.
Defined.

(** ** Schema validation *)

Lemma omap_valid_inv {A B : Type} (f : A -> B) (o : outcome A) (b : B) :
  omap f o = Valid b -> exists a, o = Valid a /\ b = f a.
Proof.
  destruct o; simpl; intros H; try discriminate.
  injection H as <-. eauto.
Qed.

Lemma oap_valid_inv {A B : Type} (f : outcome (A -> B)) (x : outcome A)
    (b : B) :
  oap f x = Valid b -> exists g a, f = Valid g /\ x = Valid a /\ b = g a.
Proof.
  destruct f as [g | es | e]; simpl.
  - intros H. apply omap_valid_inv in H. destruct H as [a [Hx Hb]]. eauto.
  - destruct x; discriminate.
  - discriminate.
Qed.

Lemma obind_valid_inv {A B : Type} (o : outcome A) (f : A -> outcome B)
    (b : B) :
  obind o f = Valid b -> exists a, o = Valid a /\ f a = Valid b.
Proof. destruct o; simpl; intros H; try discriminate. eauto. Qed.

Lemma at_loc_valid_inv {A : Type} (l : loc_item) (o : outcome A) (a : A) :
  at_loc l o = Valid a -> o = Valid a.
Proof. destruct o; simpl; intros H; try discriminate. exact H. Qed.

(** Peel the last field off a chain of [<*>] known to be valid. *)
Ltac peel H a Ha :=
  let g := fresh "g" in
  let Hg := fresh "Hg" in
  let E := fresh "E" in
  apply oap_valid_inv in H; destruct H as (g & a & Hg & Ha & E);
  rewrite E in *; clear E; rename Hg into H.

Lemma optional_valid_inv {A : Type} (name : string) (v : validator A)
    (d : pydict) (o : option A) :
  optional name v d = Valid o ->
  match o with
  | Some a =>
      exists x, dict_lookup name d = Some x /\ x <> PNone /\ v x = Valid a
  | None => dict_get name d = PNone
  end.
Proof.
  unfold optional, dict_get.
  destruct (dict_lookup name d) as [x |] eqn:Hx.
  - destruct x; intros H;
      try (apply at_loc_valid_inv, omap_valid_inv in H;
           destruct H as [a [Hv ->]]; eexists; repeat split;
           [discriminate | exact Hv]).
    injection H as <-. reflexivity.
  - intros H. injection H as <-. reflexivity.
Qed.

Lemma required_valid_inv {A : Type} (name : string) (v : validator A)
    (d : pydict) (a : A) :
  required name v d = Valid a ->
  exists x, dict_lookup name d = Some x /\ v x = Valid a.
Proof.
  unfold required. destruct (dict_lookup name d) as [x |]; intros H.
  - apply at_loc_valid_inv in H. eauto.
  - discriminate.
Qed.

Lemma model_valid_inv {A : Type} (cls : string)
    (fields : pydict -> outcome A) (v : pyval) (a : A) :
  model cls fields v = Valid a -> exists d, v = PDict d /\ fields d = Valid a.
Proof. destruct v; simpl; intros H; try discriminate. eauto. Qed.

Section SchemaFacts.

Variables Classification FMUContextStage UUID Datetime Parameters : Type.
Variable v_Classification : validator Classification.
Variable v_FMUContext : validator FMUContextStage.
Variable v_UUID : validator UUID.
Variable v_datetime : validator Datetime.
Variable Parameters_validate : validator Parameters.
Variable v_int : validator Z.
Variable v_bool : validator bool.
Variables AnyData Spec : Type.
Variable AnyData_validate : validator AnyData.
Variable AnyData_spec : AnyData -> option Spec.
Variable builtin_str : pyval -> string.

(** A value the [Aggregation] model accepts is a dict with the key [id],
    hence true. *)
Lemma Aggregation_valid_truthy (x : pyval) (a : Aggregation UUID Parameters) :
  Aggregation_validate v_UUID Parameters_validate v_int x = Valid a ->
  truthy x = true.
Proof.
  intros H. apply model_valid_inv in H. destruct H as [d [-> H]].
  destruct d as [| kv d]; [| reflexivity].
  vm_compute in H. discriminate H.
Qed.

Lemma Realization_valid_truthy (x : pyval) (r : Realization UUID Parameters) :
  Realization_validate v_UUID Parameters_validate v_int x = Valid r ->
  truthy x = true.
Proof.
  intros H. apply model_valid_inv in H. destruct H as [d [-> H]].
  destruct d as [| kv d]; [| reflexivity].
  vm_compute in H. discriminate H.
Qed.

Lemma optional_present_inv {A : Type} (name : string) (v : validator A)
    (d : pydict) (o : option A) :
  optional name v d = Valid o ->
  dict_get name d <> PNone ->
  exists a, o = Some a /\ v (dict_get name d) = Valid a.
Proof.
  intros H Hpresent. apply optional_valid_inv in H. destruct o as [a |].
  - destruct H as [x [Hx [_ Hv]]]. exists a. split; [reflexivity |].
    unfold dict_get. now rewrite Hx.
  - contradiction.
Qed.

Lemma optional_some_get {A : Type} (name : string) (v : validator A)
    (d : pydict) (a : A) :
  optional name v d = Valid (Some a) ->
  dict_get name d <> PNone /\ v (dict_get name d) = Valid a.
Proof.
  intros H. apply optional_valid_inv in H. destruct H as [x [Hx [Hne Hv]]].
  unfold dict_get. rewrite Hx. now split.
Qed.

(** A dict the [FMUAttributes] model accepts does not hold both an
    [aggregation] and a [realization] (one of the two is absent or
    [None]), and the fmu block it validates to has at most one of them
    set. *)
Lemma FMUAttributes_valid_exclusive (d : pydict)
    (m : FMUAttributes FMUContextStage UUID Parameters) :
  FMUAttributes_validate v_FMUContext v_UUID Parameters_validate v_int
    (PDict d) = Valid m ->
  (dict_get "aggregation" d = PNone \/ dict_get "realization" d = PNone)
  /\ (FMUAttributes_aggregation m = None
      \/ FMUAttributes_realization m = None).
Proof.
  unfold FMUAttributes_validate. intros H.
  apply obind_valid_inv in H. destruct H as [d' [Hbefore Hfields]].
  simpl in Hbefore.
  destruct (truthy (dict_get "aggregation" d)
            && truthy (dict_get "realization" d)) eqn:Hboth;
    [discriminate Hbefore |].
  injection Hbefore as <-.
  unfold FMUAttributes_fields in Hfields.
  peel Hfields realization Hreal. peel Hfields aggregation Haggr.
  peel Hfields workflow Hworkflow. peel Hfields iteration Hiteration.
  peel Hfields ctx Hcontext. peel Hfields model_ Hmodel.
  peel Hfields case Hcase.
  injection Hfields as <-.
  assert (Hin : dict_get "aggregation" d = PNone
                \/ dict_get "realization" d = PNone).
  { destruct (dict_get "aggregation" d) eqn:Ha; auto;
      destruct (dict_get "realization" d) eqn:Hr; auto; exfalso;
      (assert (Hta : truthy (dict_get "aggregation" d) = true)
         by (destruct (optional_present_inv _ _ _ _ Haggr) as [a [_ Hv]];
             [rewrite Ha; discriminate
             | exact (Aggregation_valid_truthy _ _ Hv)]));
      (assert (Htr : truthy (dict_get "realization" d) = true)
         by (destruct (optional_present_inv _ _ _ _ Hreal) as [r [_ Hv]];
             [rewrite Hr; discriminate
             | exact (Realization_valid_truthy _ _ Hv)]));
      rewrite <- Ha, <- Hr in Hboth; rewrite Hta, Htr in Hboth;
      discriminate Hboth. }
  split; [exact Hin |].
  simpl. destruct aggregation as [a |]; [| now left].
  destruct realization as [r |]; [| now right].
  exfalso.
  apply optional_some_get in Haggr, Hreal.
  destruct Haggr as [Ha _], Hreal as [Hr _].
  destruct Hin; contradiction.
Qed.

End SchemaFacts.

Lemma FMUClass_eqb_eq (a b : FMUClass) : FMUClass_eqb a b = true <-> a = b.
Proof.
  split.
  - destruct a, b; intros H; try reflexivity; vm_compute in H; discriminate H.
  - intros ->. unfold FMUClass_eqb. apply String.eqb_refl.
Qed.

Lemma v_FMUClass_valid_inv (allowed : list FMUClass) (x : pyval)
    (c : FMUClass) :
  v_FMUClass allowed x = Valid c ->
  x = PStr (FMUClass_value c) /\ In c allowed.
Proof.
  unfold v_FMUClass. destruct x as [| | | tag | | | |]; try discriminate.
  destruct (find _ allowed) as [c' |] eqn:Hfind; intros H; [| discriminate].
  injection H as <-. apply find_some in Hfind. destruct Hfind as [Hin Heq].
  apply String.eqb_eq in Heq. subst tag. now split.
Qed.

Section RootFacts.

Variables Classification FMUContextStage UUID Datetime Parameters : Type.
Variable v_Classification : validator Classification.
Variable v_FMUContext : validator FMUContextStage.
Variable v_UUID : validator UUID.
Variable v_datetime : validator Datetime.
Variable Parameters_validate : validator Parameters.
Variable v_int : validator Z.
Variable v_bool : validator bool.
Variables AnyData Spec : Type.
Variable AnyData_validate : validator AnyData.
Variable AnyData_spec : AnyData -> option Spec.
Variable builtin_str : pyval -> string.

Lemma CaseMetadata_valid_class (d : pydict)
    (m : CaseMetadata Classification UUID Datetime) :
  CaseMetadata_validate v_Classification v_UUID v_datetime (PDict d)
  = Valid m ->
  CaseMetadata_class_ m = FMUClass_case
  /\ dict_lookup "class" d = Some (PStr "case").
Proof.
  intros H. unfold CaseMetadata_validate, model in H.
  peel H access Haccess. peel H fmu Hfmu. peel H version Hversion.
  peel H source Hsource. peel H tracklog Htracklog.
  peel H masterdata Hmasterdata. peel H class_ Hclass.
  injection H as <-. simpl.
  apply required_valid_inv in Hclass. destruct Hclass as [x [Hx Hv]].
  apply v_FMUClass_valid_inv in Hv. destruct Hv as [-> [<- | []]].
  now split.
Qed.

Lemma ObjectMetadata_valid_class (d : pydict)
    (m : ObjectMetadata Classification FMUContextStage UUID Datetime
           Parameters AnyData) :
  ObjectMetadata_validate v_Classification v_FMUContext v_UUID v_datetime
    Parameters_validate v_int v_bool AnyData_validate builtin_str (PDict d)
  = Valid m ->
  dict_lookup "class" d = Some (PStr (FMUClass_value (ObjectMetadata_class_ m))).
Proof.
  intros H. unfold ObjectMetadata_validate, model in H.
  peel H display Hdisplay. peel H file Hfile. peel H data Hdata.
  peel H access Haccess. peel H fmu Hfmu. peel H version Hversion.
  peel H source Hsource. peel H tracklog Htracklog.
  peel H masterdata Hmasterdata. peel H class_ Hclass.
  injection H as <-. simpl.
  apply required_valid_inv in Hclass. destruct Hclass as [x [Hx Hv]].
  apply v_FMUClass_valid_inv in Hv. destruct Hv as [-> _]. exact Hx.
Qed.

(** What the union of [Root] accepts: the document's [class] names the
    class of the value, and a case document has the class [case]. *)
Lemma Root_union_valid_inv (d : pydict)
    (root : RootValue Classification FMUContextStage UUID Datetime
              Parameters AnyData) :
  Root_union v_Classification v_FMUContext v_UUID v_datetime
    Parameters_validate v_int v_bool AnyData_validate builtin_str (PDict d)
  = Valid root ->
  dict_lookup "class" d = Some (PStr (FMUClass_value (Root_class_ root)))
  /\ (Root_data root = None -> Root_class_ root = FMUClass_case).
Proof.
  unfold Root_union.
  destruct (dict_lookup "class" d) as [x |] eqn:Hclass; [| discriminate].
  destruct x as [| | | tag | | | |]; try discriminate.
  destruct (FMUClass_of_tag tag) as [c |]; [| discriminate].
  destruct c; intros H; apply at_loc_valid_inv, omap_valid_inv in H;
    destruct H as [m [Hm ->]]; simpl.
  1: { apply CaseMetadata_valid_class in Hm. destruct Hm as [Hcase Hd].
       rewrite Hclass in Hd. rewrite Hcase, Hd. now split. }
  all: apply ObjectMetadata_valid_class in Hm; rewrite Hclass in Hm;
    rewrite Hm; split; [reflexivity | discriminate].
Qed.

Lemma table_or_surface (c : FMUClass) :
  existsb (FMUClass_eqb c) [FMUClass_table; FMUClass_surface] = true
  <-> c = FMUClass_table \/ c = FMUClass_surface.
Proof.
  simpl. rewrite orb_false_r, orb_true_iff, !FMUClass_eqb_eq. tauto.
Qed.

(** C5: for a document the union of [Root] accepts, whose [class] is the
    class of the value, the root model is valid exactly when a class
    [table] or [surface] comes with a data block whose [spec] is not
    [None]; otherwise validation fails with the error of
    [_check_class_data_spec]. Documents of the other classes pass whatever
    their [spec] is. *)
Theorem root_table_surface_requires_spec (d : pydict)
    (root : RootValue Classification FMUContextStage UUID Datetime
              Parameters AnyData) :
  Root_union v_Classification v_FMUContext v_UUID v_datetime
    Parameters_validate v_int v_bool AnyData_validate builtin_str (PDict d)
  = Valid root ->
  dict_lookup "class" d = Some (PStr (FMUClass_value (Root_class_ root)))
  /\ (Root_validate v_Classification v_FMUContext v_UUID v_datetime
        Parameters_validate v_int v_bool AnyData_validate AnyData_spec
        builtin_str (PDict d) = Valid root
      <-> (Root_class_ root = FMUClass_table
           \/ Root_class_ root = FMUClass_surface ->
           exists data sp,
             Root_data root = Some data /\ AnyData_spec data = Some sp))
  /\ (Root_validate v_Classification v_FMUContext v_UUID v_datetime
        Parameters_validate v_int v_bool AnyData_validate AnyData_spec
        builtin_str (PDict d) <> Valid root ->
      Root_validate v_Classification v_FMUContext v_UUID v_datetime
        Parameters_validate v_int v_bool AnyData_validate AnyData_spec
        builtin_str (PDict d)
      = value_error ("When 'class' is 'table' or 'surface', "
                     ++ "'data' must contain the 'spec' field.")).
Proof.
  intros Hunion.
  destruct (Root_union_valid_inv _ _ Hunion) as [Hclass Hcase].
  split; [exact Hclass |].
  unfold Root_validate. rewrite Hunion. cbn [obind].
  unfold _check_class_data_spec.
  destruct (existsb (FMUClass_eqb (Root_class_ root))
                    [FMUClass_table; FMUClass_surface]) eqn:Hts.
  - apply table_or_surface in Hts. cbn [andb].
    destruct (Root_data root) as [data |] eqn:Hdata.
    + destruct (AnyData_spec data) as [sp |] eqn:Hspec.
      * split; [| intros Hne; now contradiction Hne].
        split; [intros _ _; eauto | reflexivity].
      * split; [| reflexivity].
        split; [discriminate |].
        intros H. destruct (H Hts) as [data' [sp [Hd Hs]]].
        injection Hd as <-. congruence.
    + specialize (Hcase eq_refl). rewrite Hcase in Hts.
      destruct Hts; discriminate.
  - cbn [andb]. split; [| intros Hne; now contradiction Hne].
    split; [| reflexivity].
    intros _ Hc. apply table_or_surface in Hc. congruence.
Qed.

Lemma Root_validate_union (v : pyval)
    (root : RootValue Classification FMUContextStage UUID Datetime
              Parameters AnyData) :
  Root_validate v_Classification v_FMUContext v_UUID v_datetime
    Parameters_validate v_int v_bool AnyData_validate AnyData_spec
    builtin_str v = Valid root ->
  Root_union v_Classification v_FMUContext v_UUID v_datetime
    Parameters_validate v_int v_bool AnyData_validate builtin_str v
  = Valid root.
Proof.
  unfold Root_validate. intros H. apply obind_valid_inv in H.
  destruct H as [root' [Hunion Hcheck]]. unfold _check_class_data_spec in Hcheck.
  destruct (existsb _ _ && _); [discriminate Hcheck |].
  injection Hcheck as <-. exact Hunion.
Qed.

Lemma Root_union_object_inv (d : pydict)
    (om : ObjectMetadata Classification FMUContextStage UUID Datetime
            Parameters AnyData) :
  Root_union v_Classification v_FMUContext v_UUID v_datetime
    Parameters_validate v_int v_bool AnyData_validate builtin_str (PDict d)
  = Valid (Root_Object om) ->
  ObjectMetadata_validate v_Classification v_FMUContext v_UUID v_datetime
    Parameters_validate v_int v_bool AnyData_validate builtin_str (PDict d)
  = Valid om.
Proof.
  unfold Root_union.
  destruct (dict_lookup "class" d) as [x |]; [| discriminate].
  destruct x as [| | | tag | | | |]; try discriminate.
  destruct (FMUClass_of_tag tag) as [c |]; [| discriminate].
  destruct c; intros H; apply at_loc_valid_inv, omap_valid_inv in H;
    destruct H as [m [Hm E]]; try discriminate E;
    injection E as ->; exact Hm.
Qed.

(** The fmu block of a valid object document is a dict the
    [FMUAttributes] model accepts. *)
Lemma ObjectMetadata_valid_fmu (d : pydict)
    (om : ObjectMetadata Classification FMUContextStage UUID Datetime
            Parameters AnyData) :
  ObjectMetadata_validate v_Classification v_FMUContext v_UUID v_datetime
    Parameters_validate v_int v_bool AnyData_validate builtin_str (PDict d)
  = Valid om ->
  exists fmu,
    dict_lookup "fmu" d = Some (PDict fmu)
    /\ FMUAttributes_validate v_FMUContext v_UUID Parameters_validate v_int
         (PDict fmu)
       = Valid (ObjectMetadata_fmu om).
Proof.
  intros H. unfold ObjectMetadata_validate, model in H.
  peel H display Hdisplay. peel H file Hfile. peel H data Hdata.
  peel H access Haccess. peel H fmu Hfmu. peel H version Hversion.
  peel H source Hsource. peel H tracklog Htracklog.
  peel H masterdata Hmasterdata. peel H class_ Hclass.
  injection H as <-. cbn [ObjectMetadata_fmu].
  apply required_valid_inv in Hfmu. destruct Hfmu as [x [Hx Hv]].
  destruct x as [| | | | | | | fmu_]; try discriminate Hv.
  exists fmu_. now split.
Qed.

(** C1: the fmu block of an object metadata document that schema
    validation accepts has at most one of [aggregation] and [realization]
    set, and so has the document itself; validating an fmu block in which
    both are present (not [None]) fails. *)
Theorem fmu_aggregation_realization_exclusive (doc block : pydict)
    (om : ObjectMetadata Classification FMUContextStage UUID Datetime
            Parameters AnyData) :
  (Root_validate v_Classification v_FMUContext v_UUID v_datetime
     Parameters_validate v_int v_bool AnyData_validate AnyData_spec
     builtin_str (PDict doc) = Valid (Root_Object om) ->
   (FMUAttributes_aggregation (ObjectMetadata_fmu om) = None
    \/ FMUAttributes_realization (ObjectMetadata_fmu om) = None)
   /\ exists fmu,
        dict_lookup "fmu" doc = Some (PDict fmu)
        /\ (dict_get "aggregation" fmu = PNone
            \/ dict_get "realization" fmu = PNone))
  /\ (dict_get "aggregation" block <> PNone ->
      dict_get "realization" block <> PNone ->
      is_valid (FMUAttributes_validate v_FMUContext v_UUID
                  Parameters_validate v_int (PDict block)) = false).
Proof.
  split.
  - intros H. apply Root_validate_union, Root_union_object_inv in H.
    apply ObjectMetadata_valid_fmu in H. destruct H as [fmu [Hfmu Hvalid]].
    apply FMUAttributes_valid_exclusive in Hvalid.
    destruct Hvalid as [Hin Hout]. split; [exact Hout |].
    exists fmu. now split.
  - intros Haggr Hreal.
    destruct (FMUAttributes_validate v_FMUContext v_UUID Parameters_validate
                v_int (PDict block)) as [m | es | e] eqn:Hvalid;
      try reflexivity.
    apply FMUAttributes_valid_exclusive in Hvalid.
    destruct Hvalid as [[H | H] _]; contradiction.
Qed.

End RootFacts.

Lemma fmu_aggregation_realization_exclusive_witness :
  (exists om,
     Root_validate v_str v_str v_str v_str json_Parameters json_int
       json_bool json_AnyData json_spec no_builtin_str
       (PDict (surface_fields
          (PDict [("content", PStr "depth");
                  ("spec", PDict [("ncol", PInt 3); ("nrow", PInt 4)])])))
     = Valid (Root_Object om)
     /\ (FMUAttributes_aggregation (ObjectMetadata_fmu om) = None
         \/ FMUAttributes_realization (ObjectMetadata_fmu om) = None))
  /\ is_valid (FMUAttributes_validate v_str v_str json_Parameters json_int
                 (PDict (fmu_block complete_aggregation
                           complete_realization)))
     = false.
Proof.
  assert (Hvalid : { om | Root_validate v_str v_str v_str v_str
                            json_Parameters json_int json_bool json_AnyData
                            json_spec no_builtin_str
                            (PDict (surface_fields
                               (PDict [("content", PStr "depth");
                                       ("spec", PDict [("ncol", PInt 3);
                                                       ("nrow", PInt 4)])])))
                          = Valid (Root_Object om) })
    by (eexists; vm_compute; reflexivity).
  destruct Hvalid as [om Hom].
  destruct (fmu_aggregation_realization_exclusive _ _ _ _ _
              v_str v_str v_str v_str json_Parameters json_int json_bool
              _ _ json_AnyData json_spec no_builtin_str
              (surface_fields
                 (PDict [("content", PStr "depth");
                         ("spec", PDict [("ncol", PInt 3);
                                         ("nrow", PInt 4)])]))
              (fmu_block complete_aggregation complete_realization) om)
    as [Hdoc Hblock].
  split.
  - exists om. split; [exact Hom | exact (proj1 (Hdoc Hom))].
  - apply Hblock; vm_compute; discriminate.
Defined.

(** The block of the run above is complete: with one of the two entries
    left out or [None] it is accepted, and with both it is rejected by
    [_dependencies_aggregation_realization] and by nothing else. *)
Example fmu_block_one_of_two :
  is_valid (FMUAttributes_validate v_str v_str json_Parameters json_int
              (PDict (fmu_block complete_aggregation PNone))) = true
  /\ is_valid (FMUAttributes_validate v_str v_str json_Parameters json_int
                 (PDict (fmu_block PNone complete_realization))) = true
  /\ FMUAttributes_validate v_str v_str json_Parameters json_int
       (PDict (fmu_block complete_aggregation complete_realization))
     = value_error ("Both 'aggregation' and 'realization' cannot be set "
                    ++ "at the same time. Please set only one.").
Proof. repeat split; vm_compute; reflexivity. Qed.

Lemma root_table_surface_requires_spec_witness :
  exists root,
    Root_union v_str v_str v_str v_str json_Parameters json_int json_bool
      json_AnyData no_builtin_str
      (PDict (surface_fields
         (PDict [("content", PStr "depth");
                 ("spec", PDict [("ncol", PInt 3); ("nrow", PInt 4)])])))
    = Valid root
    /\ Root_validate v_str v_str v_str v_str json_Parameters json_int
         json_bool json_AnyData json_spec no_builtin_str
         (PDict (surface_fields
            (PDict [("content", PStr "depth");
                    ("spec", PDict [("ncol", PInt 3); ("nrow", PInt 4)])])))
       = Valid root.
Proof.
  eexists. split; [vm_compute; reflexivity |].
  refine (proj2 (proj1 (proj2 (root_table_surface_requires_spec _ _ _ _ _
            v_str v_str v_str v_str json_Parameters json_int json_bool
            _ _ json_AnyData json_spec no_builtin_str
            (surface_fields
               (PDict [("content", PStr "depth");
                       ("spec", PDict [("ncol", PInt 3); ("nrow", PInt 4)])]))
            _ _))) _).
  - vm_compute. reflexivity.
  - intros _. eexists. eexists. split; vm_compute; reflexivity.
Defined.

(** The same document without a [spec] in its data block is rejected. *)
Example surface_without_spec_rejected :
  Root_validate v_str v_str v_str v_str json_Parameters json_int
    json_bool json_AnyData json_spec no_builtin_str
    (surface_document (PDict [("content", PStr "depth")]))
  = value_error ("When 'class' is 'table' or 'surface', "
                 ++ "'data' must contain the 'spec' field.").
Proof. vm_compute. reflexivity. Qed.

(** ** The settings resolver *)

Lemma never_raises_warn (e : exn) (msg : string) (c : warning_category) :
  never_raises e (ExportData.in_world (warn msg c)).
Proof. intros s. discriminate. Qed.

Lemma never_raises_setattr (e : exn) (k : string) (v : pyval) :
  never_raises e (ExportData.setattr k v).
Proof. apply never_raises_modify. Qed.

Lemma validate_variable_class (key : string) (value : pyval)
    (legals : legals_t) (e : exn) :
  _validate_variable key value legals = Raise e ->
  exn_cls e = ValidationError.
Proof.
  unfold _validate_variable.
  destruct (legals_lookup key legals) as [[ty | tys |] |].
  - destruct (isinstance value ty); [discriminate |].
    intros H. injection H as <-. reflexivity.
  - destruct (existsb (isinstance value) tys); [discriminate |].
    intros H. injection H as <-. reflexivity.
  - discriminate.
  - intros H. injection H as <-. reflexivity.
Qed.

Section SettingsFacts.

Variable model_fields : list string.
Variable requires_additional_input : string -> bool.
Variable AllowedContent_validate_dump : string -> pyval -> result pyval.
Variable FmuContext_get : pyval -> result FmuContext.

(** The collaborators that are not among the sources do not raise the
    error on [config] themselves. *)
Hypothesis validate_dump_other :
  forall name fields, AllowedContent_validate_dump name fields
                      <> Raise config_error.
Hypothesis FmuContext_get_other :
  forall key, FmuContext_get key <> Raise config_error.

Lemma resolve_content_not_config (content : pyval) :
  resolve_content requires_additional_input content <> Raise config_error.
Proof.
  unfold config_error.
  destruct content as [| | | s | | | | kv]; simpl; try differ.
  - destruct (requires_additional_input s); differ.
  - destruct kv as [| [k v] kv]; [differ |].
    destruct (dict_get k ((k, v) :: kv)); try differ;
      intros H; injection H as H; vm_compute in H; discriminate H.
Qed.

Lemma check_content_not_config (content : pyval) :
  _check_content model_fields requires_additional_input
                 AllowedContent_validate_dump content
  <> Raise config_error.
Proof.
  unfold _check_content.
  pose proof (resolve_content_not_config content) as Hres.
  unfold config_error in *.
  destruct (resolve_content requires_additional_input content)
    as [[usecontent content_specific] | e]; cbn [rbind].
  - destruct (negb (String.eqb usecontent "unset")
              && negb (str_in usecontent model_fields)); [differ |].
    destruct (truthy content_specific); [| differ].
    unfold _content_validate.
    pose proof (validate_dump_other usecontent content_specific) as Hdump.
    unfold config_error in Hdump.
    destruct (AllowedContent_validate_dump usecontent content_specific)
      as [v | e] eqn:Edump; cbn [rbind]; [differ |].
    destruct (exn_cls e);
      first [differ
            | intros H; apply Hdump; injection H as ->; reflexivity].
  - exact Hres.
Qed.

Lemma show_deprecations_not_config :
  never_raises config_error ExportData._show_deprecations_or_notimplemented.
Proof.
  unfold ExportData._show_deprecations_or_notimplemented.
  apply never_raises_bind; [apply never_raises_get_state | intros s].
  apply never_raises_bind; intros;
    apply never_raises_when, never_raises_warn.
Qed.

Lemma validate_content_key_not_config :
  never_raises config_error
    (ExportData._validate_content_key model_fields requires_additional_input
       AllowedContent_validate_dump).
Proof.
  unfold ExportData._validate_content_key.
  apply never_raises_bind; [apply never_raises_get_state | intros s].
  apply never_raises_bind;
    [apply never_raises_lift, check_content_not_config | intros p].
  apply never_raises_bind; intros; apply never_raises_setattr.
Qed.

Lemma validate_fmucontext_key_not_config :
  never_raises config_error
    (ExportData._validate_fmucontext_key FmuContext_get).
Proof.
  unfold ExportData._validate_fmucontext_key.
  apply never_raises_bind; [apply never_raises_get_state | intros s].
  destruct (isinstance (ExportData.attr "fmu_context" s) T_str).
  - apply never_raises_bind;
      [apply never_raises_lift, FmuContext_get_other | intros c].
    apply never_raises_setattr.
  - apply never_raises_ret.
Qed.

Lemma apply_settings_not_config (settings : pydict) (legals : legals_t) :
  never_raises config_error (ExportData.apply_settings settings legals).
Proof.
  unfold ExportData.apply_settings. apply never_raises_for_each. intros kv.
  apply never_raises_bind.
  - apply never_raises_lift. intros H.
    apply validate_variable_class in H. discriminate H.
  - intros ok. apply never_raises_when, never_raises_setattr.
Qed.

(** C6: an update that holds the key [config] raises the [ValueError]
    saying so, before any setting is touched; an update without that key
    does not raise this error. *)
Theorem update_check_settings_config (newsettings : pydict)
    (s : ExportData.state) :
  (key_in "config" newsettings = true ->
   ExportData._update_check_settings model_fields requires_additional_input
     AllowedContent_validate_dump FmuContext_get newsettings s
   = (Raise config_error, s))
  /\ (key_in "config" newsettings = false ->
      fst (ExportData._update_check_settings model_fields
             requires_additional_input AllowedContent_validate_dump
             FmuContext_get newsettings s)
      <> Raise config_error).
Proof.
  unfold ExportData._update_check_settings. split; intros Hkey;
    rewrite Hkey.
  - reflexivity.
  - revert s.
    apply never_raises_bind; [apply apply_settings_not_config | intros _].
    apply never_raises_bind; [apply show_deprecations_not_config | intros _].
    apply never_raises_bind;
      [apply validate_content_key_not_config | intros _].
    apply validate_fmucontext_key_not_config.
Qed.

End SettingsFacts.

Lemma spec_validate_dump_other (name : string) (fields : pyval) :
  spec_validate_dump name fields <> Raise config_error.
Proof. differ. Qed.

Lemma spec_FmuContext_get_other (key : pyval) :
  spec_FmuContext_get key <> Raise config_error.
Proof.
  unfold config_error. destruct key; simpl; try differ.
  repeat match goal with
         | |- context [if ?b then _ else _] => destruct b
         end; differ.
Qed.

Lemma update_check_settings_config_witness :
  ExportData._update_check_settings spec_model_fields
    spec_requires_additional_input spec_validate_dump spec_FmuContext_get
    [("config", PDict [])] default_instance
  = (Raise config_error, default_instance)
  /\ fst (ExportData._update_check_settings spec_model_fields
            spec_requires_additional_input spec_validate_dump
            spec_FmuContext_get
            [("name", PStr "TopVolantis"); ("content", PStr "depth")]
            default_instance)
     <> Raise config_error.
Proof.
  split.
  - apply (proj1 (update_check_settings_config spec_model_fields
             spec_requires_additional_input spec_validate_dump
             spec_FmuContext_get spec_validate_dump_other
             spec_FmuContext_get_other [("config", PDict [])]
             default_instance)).
    reflexivity.
  - apply (proj2 (update_check_settings_config spec_model_fields
             spec_requires_additional_input spec_validate_dump
             spec_FmuContext_get spec_validate_dump_other
             spec_FmuContext_get_other
             [("name", PStr "TopVolantis"); ("content", PStr "depth")]
             default_instance)).
    reflexivity.
Defined.

(** An update without [config] runs: the settings are set and the
    content is validated. *)
Example update_check_settings_run :
  let (r, s) :=
    ExportData._update_check_settings spec_model_fields
      spec_requires_additional_input spec_validate_dump spec_FmuContext_get
      [("name", PStr "TopVolantis"); ("content", PStr "depth")]
      default_instance in
  r = Ok tt
  /\ ExportData.attr "name" s = PStr "TopVolantis"
  /\ ExportData.attr "_usecontent" s = PStr "depth".
Proof. vm_compute. repeat split. Qed.

(** ** Initialization of [ExportData] *)

Lemma dict_get_set_same (k : string) (v : pyval) (d : pydict) :
  dict_get k (dict_set k v d) = v.
Proof.
  unfold dict_get. induction d as [| [k' v'] d IH]; simpl.
  - now rewrite String.eqb_refl.
  - destruct (String.eqb k k') eqn:Hk; simpl; rewrite Hk; [reflexivity |].
    exact IH.
Qed.

Lemma dict_get_set_other (k k' : string) (v : pyval) (d : pydict) :
  k <> k' -> dict_get k (dict_set k' v d) = dict_get k d.
Proof.
  intros Hne. unfold dict_get. induction d as [| [k0 v0] d IH]; simpl.
  - apply String.eqb_neq in Hne. now rewrite Hne.
  - destruct (String.eqb k' k0) eqn:Hk'; simpl.
    + apply String.eqb_eq in Hk'. subst k0.
      apply String.eqb_neq in Hne. now rewrite Hne.
    + destruct (String.eqb k k0); [reflexivity | exact IH].
Qed.

Lemma dict_has_false_keys (k : string) (d : pydict) :
  dict_has k d = false -> Forall (fun kv => fst kv <> k) d.
Proof.
  unfold dict_has. induction d as [| [k' v'] d IH]; simpl; intros H.
  - constructor.
  - destruct (String.eqb k k') eqn:Hk; [discriminate H |].
    constructor; [| exact (IH H)].
    simpl. apply String.eqb_neq in Hk. congruence.
Qed.

Lemma preserves_setattr_other (name k : string) (v x : pyval) :
  name <> k -> preserves (attr_is name v) (ExportData.setattr k x).
Proof.
  intros Hne s H. unfold attr_is, ExportData.attr in *. simpl.
  now rewrite dict_get_set_other.
Qed.

Lemma preserves_in_world {A : Type} (name : string) (v : pyval)
    (m : M World A) :
  preserves (attr_is name v) (ExportData.in_world m).
Proof.
  intros s H. unfold ExportData.in_world.
  destruct (m (ExportData.world s)) as [r w]. exact H.
Qed.

Lemma setattr_establishes (name : string) (v : pyval) (s : ExportData.state) :
  attr_is name v (snd (ExportData.setattr name v s)).
Proof. unfold attr_is, ExportData.attr. simpl. apply dict_get_set_same. Qed.

Lemma preserves_modify_self (name : string) (v : pyval)
    (f : ExportData.state -> ExportData.state) :
  (forall s, ExportData.self (f s) = ExportData.self s) ->
  preserves (attr_is name v) (modify f).
Proof.
  intros Hf s H. unfold attr_is, ExportData.attr in *. simpl.
  now rewrite Hf.
Qed.

(** The routine steps of a proof that an attribute is kept. *)
Ltac keep :=
  repeat first
    [ apply preserves_ret
    | apply preserves_lift
    | apply preserves_get_state
    | apply preserves_in_world
    | apply preserves_setattr_other; differ
    | apply preserves_modify_self; reflexivity
    | apply preserves_when
    | apply preserves_bind; [| intros ?] ].

Section PostInitFacts.

Variable model_fields : list string.
Variable requires_additional_input : string -> bool.
Variable AllowedContent_validate_dump : string -> pyval -> result pyval.
Variable FmuContext_get : pyval -> result FmuContext.
Variable global_configuration_is_valid : pyval -> bool.
Variable global_configuration_roundtrip : pyval -> pyval.
Variable resolve : World -> PurePath -> PurePath.
Variable env : ExportData.Env.

Lemma apply_settings_keeps (name : string) (v : pyval) (settings : pydict)
    (legals : legals_t) :
  dict_has name settings = false ->
  preserves (attr_is name v) (ExportData.apply_settings settings legals).
Proof.
  intros Hkeys. unfold ExportData.apply_settings.
  apply preserves_for_each.
  eapply Forall_impl; [| exact (dict_has_false_keys _ _ Hkeys)].
  intros kv Hne. keep.
  apply preserves_setattr_other. congruence.
Qed.

Lemma validate_content_key_keeps (v : pyval) :
  preserves (attr_is "vertical_domain" v)
    (ExportData._validate_content_key model_fields requires_additional_input
       AllowedContent_validate_dump).
Proof. unfold ExportData._validate_content_key. keep. Qed.

Lemma update_globalconfig_keeps (v : pyval) :
  preserves (attr_is "vertical_domain" v)
    ExportData._update_globalconfig_from_settings.
Proof.
  unfold ExportData._update_globalconfig_from_settings. keep.
  destruct (truthy (ExportData.attr "access_ssdl" a)); keep.
  destruct a1; keep.
Qed.

Lemma establish_pwd_rootpath_keeps (v : pyval) :
  preserves (attr_is "vertical_domain" v)
    (ExportData._establish_pwd_rootpath resolve env).
Proof.
  unfold ExportData._establish_pwd_rootpath. keep.
  destruct (truthy (ExportData.attr "casepath" a)
            && (isinstance (ExportData.attr "casepath" a) T_str
                || isinstance (ExportData.attr "casepath" a) T_Path)); keep.
Qed.

Lemma show_deprecations_keeps (v : pyval) :
  preserves (attr_is "vertical_domain" v)
    ExportData._show_deprecations_or_notimplemented.
Proof. unfold ExportData._show_deprecations_or_notimplemented. keep. Qed.

Lemma post_init_tail_keeps (v : pyval) :
  dict_has "vertical_domain" (external_settings env) = false ->
  preserves (attr_is "vertical_domain" v)
    (match ExportData.SETTINGS_ENV env with
     | Some loaded =>
         external_input <- lift loaded ;;
         if truthy external_input
         then
           settings <- lift (ExportData.items external_input) ;;
           ExportData.apply_settings settings
             (public_annotations ExportData.__annotations__)
         else ret tt
     | None => ret tt
     end)%M.
Proof.
  intros Hkeys. unfold external_settings in Hkeys.
  destruct (ExportData.SETTINGS_ENV env) as [loaded |]; [| keep].
  apply preserves_bind_lift. intros external_input ->.
  destruct (truthy external_input); [| keep].
  apply preserves_bind_lift. intros settings Hitems.
  destruct external_input; try discriminate Hitems.
  injection Hitems as ->. now apply apply_settings_keeps.
Qed.

End PostInitFacts.

(** ** The case initializer *)


Lemma dict_has_set_mono (k k' : string) (v : pyval) (d : pydict) :
  dict_has k d = true -> dict_has k (dict_set k' v d) = true.
Proof.
  unfold dict_has. induction d as [| [k0 v0] d IH]; simpl.
  - discriminate.
  - destruct (String.eqb k' k0) eqn:Hk'; simpl;
      destruct (String.eqb k k0); auto.
Qed.

Lemma dict_lookup_set_same (k : string) (v : pyval) (d : pydict) :
  dict_lookup k (dict_set k v d) = Some v.
Proof.
  induction d as [| [k' v'] d IH]; simpl.
  - now rewrite String.eqb_refl.
  - destruct (String.eqb k k') eqn:Hk; simpl; rewrite Hk; [reflexivity |].
    exact IH.
Qed.






Lemma namei_app (fs : FileSystem) (place a b : list string) :
  namei fs place (List.app a b)
  = match namei fs place a with
    | Found k => namei fs k b
    | Failed e => Failed e
    end.
Proof.
  revert place. induction a as [| c a IH]; intros place; [reflexivity |].
  cbn [List.app namei]. destruct (is_directory fs place); [apply IH |].
  now destruct (is_regular_file fs place).
Qed.




(** The walk to a path whose last part is a name goes through its
    parent, which must be a directory. *)
Lemma locate_child (w : World) (p : PurePath) (init : list string)
    (c : string) :
  path_parts p = List.app init [c] ->
  String.eqb c ".." = false ->
  locate w p
  = match locate w (path_parent p) with
    | Found k =>
        if is_directory (w_fs w) k then Found (List.app k [c])
        else if is_regular_file (w_fs w) k then Failed ENOTDIR
        else Failed ENOENT
    | Failed e => Failed e
    end.
Proof.
  intros Hparts Hc. unfold locate, start_place, path_parent.
  cbn [path_root path_parts]. rewrite Hparts, removelast_last, namei_app.
  destruct (namei (w_fs w) _ init) as [k | e]; [| reflexivity].
  cbn [namei]. now rewrite Hc.
Qed.

Lemma exists_is_dir_or_file (w : World) (p : PurePath) :
  path_exists w p = path_is_dir w p || path_is_file w p.
Proof.
  unfold path_exists, path_is_dir, path_is_file.
  now destruct (locate w p).
Qed.

(** What exists at a path whose last part is a name lies in a
    directory. *)
Lemma exists_in_directory (w : World) (p : PurePath) (init : list string)
    (c : string) :
  path_parts p = List.app init [c] ->
  String.eqb c ".." = false ->
  path_exists w p = true ->
  path_is_dir w (path_parent p) = true.
Proof.
  intros Hparts Hc. unfold path_exists, path_is_dir.
  rewrite (locate_child w p init c Hparts Hc).
  destruct (locate w (path_parent p)) as [k | e]; [| discriminate].
  destruct (is_directory (w_fs w) k); [reflexivity |].
  destruct (is_regular_file (w_fs w) k); discriminate.
Qed.

(** The parts of the case metadata file below the case root. *)
Lemma metafile_parts (cp : PurePath) :
  path_parts (path_join cp (Path "share/metadata/fmu_case.yml"))
  = List.app (List.app (path_parts cp) ["share"; "metadata"])
             ["fmu_case.yml"].
Proof.
  change (Path "share/metadata/fmu_case.yml")
    with (mkPath "" ["share"; "metadata"; "fmu_case.yml"]).
  unfold path_join. cbn [path_root path_parts].
  now rewrite <- app_assoc.
Qed.


Lemma case_in_world_inv {A : Type} (m : M World A)
    (s s' : InitializeCase.state) (r : result A) :
  InitializeCase.in_world m s = (r, s') ->
  exists w', m (InitializeCase.world s) = (r, w')
             /\ s' = InitializeCase.mkState (InitializeCase.self s) w'.
Proof.
  unfold InitializeCase.in_world.
  destruct (m (InitializeCase.world s)) as [r' w']. intros H.
  injection H as <- <-. eauto.
Qed.





Lemma establish_metadata_files_existing (self : InitializeCase.t) (w : World) :
  path_exists w (path_parent (InitializeCase._metafile self)) = true ->
  InitializeCase._establish_metadata_files self w
  = (Ok (negb (path_exists w (InitializeCase._metafile self))), w).
Proof.
  intros Hparent. unfold InitializeCase._establish_metadata_files.
  unfold bind, get_state, when, ret. now rewrite Hparent.
Qed.

Section CaseFacts.

Variables Classification UUID : Type.
Variable v_Classification : validator Classification.
Variable v_UUID : validator UUID.
Variable validation_error_str : string -> list verror -> string.
Variable generate_meta_access : pyval -> result pyval.
Variable GlobalModel : Type.
Variable GlobalModel_validate : pyval -> result GlobalModel.
Variable CaseSchema_dump :
  Masterdata UUID -> Access Classification -> GlobalModel ->
  string -> string -> User -> pyval -> World -> result pyval.
Variable drop_nones : pyval -> pyval.

(** With the case metadata file in place, [generate_metadata] returns the
    empty mapping and warns; nothing else changes. *)
Lemma generate_metadata_existing (s : InitializeCase.state) :
  path_exists (InitializeCase.world s)
    (path_parent (InitializeCase._metafile (InitializeCase.self s))) = true ->
  path_exists (InitializeCase.world s)
    (InitializeCase._metafile (InitializeCase.self s)) = true ->
  InitializeCase.generate_metadata Classification UUID v_Classification
    v_UUID validation_error_str generate_meta_access GlobalModel
    GlobalModel_validate CaseSchema_dump drop_nones s
  = (Ok (PDict []),
     InitializeCase.mkState (InitializeCase.self s)
       (set_warnings
          (List.app (w_warnings (InitializeCase.world s))
                    [mkWarning UserWarning InitializeCase.exists_warning])
          (InitializeCase.world s))).
Proof.
  intros Hparent Hfile. unfold InitializeCase.generate_metadata.
  unfold bind at 1. cbn [get_state].
  unfold bind at 1. unfold InitializeCase.in_world at 1.
  rewrite (establish_metadata_files_existing _ _ Hparent), Hfile.
  reflexivity.
Qed.

(** A call of [generate_metadata] that returns, by what
    [_establish_metadata_files] gave: the empty mapping and a warning
    when the file is there; otherwise a document that the instance
    keeps, with the file system and the warnings as
    [_establish_metadata_files] left them. *)
Lemma generate_metadata_inv (s sg : InitializeCase.state) (doc : pyval) :
  InitializeCase.generate_metadata Classification UUID v_Classification
    v_UUID validation_error_str generate_meta_access GlobalModel
    GlobalModel_validate CaseSchema_dump drop_nones s
  = (Ok doc, sg) ->
  exists b w1,
    InitializeCase._establish_metadata_files (InitializeCase.self s)
      (InitializeCase.world s) = (Ok b, w1)
    /\ InitializeCase._metafile (InitializeCase.self sg)
       = InitializeCase._metafile (InitializeCase.self s)
    /\ w_fs (InitializeCase.world sg) = w_fs w1
    /\ w_cwd (InitializeCase.world sg) = w_cwd w1
    /\ if b
       then InitializeCase._metadata (InitializeCase.self sg) = doc
            /\ w_warnings (InitializeCase.world sg) = w_warnings w1
       else doc = PDict [] /\ InitializeCase.self sg = InitializeCase.self s.
Proof.
  intros Hrun. unfold InitializeCase.generate_metadata in Hrun.
  apply bind_ok_inv in Hrun. destruct Hrun as (s0 & s0' & Hget & Hrun).
  injection Hget as <- <-.
  apply bind_ok_inv in Hrun. destruct Hrun as (b & s1 & Hest & Hrun).
  apply case_in_world_inv in Hest. destruct Hest as (w1 & Hest & ->).
  exists b, w1. split; [exact Hest |].
  destruct b; cbn [negb] in Hrun.
  - apply bind_ok_inv in Hrun.
    destruct Hrun as (masterdata & s2 & Hmasterdata & Hrun).
    injection Hmasterdata as _ <-.
    apply bind_ok_inv in Hrun. destruct Hrun as (access & s2 & Haccess & Hrun).
    injection Haccess as _ <-.
    apply bind_ok_inv in Hrun. destruct Hrun as (model_ & s2 & Hmodel & Hrun).
    injection Hmodel as _ <-.
    apply bind_ok_inv in Hrun. destruct Hrun as (uuid & s3 & Huuid & Hrun).
    injection Huuid as _ <-.
    apply bind_ok_inv in Hrun. destruct Hrun as (s4 & s4' & Hget & Hrun).
    injection Hget as <- <-.
    apply bind_ok_inv in Hrun. destruct Hrun as (meta & s5 & Hmeta & Hrun).
    injection Hmeta as _ <-.
    apply bind_ok_inv in Hrun. destruct Hrun as ([] & s6 & Hset & Hrun).
    injection Hset as <-. injection Hrun as <- <-.
    repeat split.
  - apply bind_ok_inv in Hrun. destruct Hrun as ([] & s2 & Hwarned & Hrun).
    injection Hrun as <- <-.
    apply case_in_world_inv in Hwarned.
    destruct Hwarned as (w2 & Hwarned & ->).
    unfold warn, modify in Hwarned. injection Hwarned as <-.
    repeat split.
Qed.



(** Exporting a case a second time writes nothing: once [export] has
    returned and the case metadata file is there, a further [export]
    returns the same path, adds the warning that the file exists, and
    leaves the instance and the file system as they are. *)
Theorem case_export_twice (s s1 : InitializeCase.state) (path : string)
    (casepath : PurePath) :
  InitializeCase._metafile (InitializeCase.self s)
  = path_join casepath (Path "share/metadata/fmu_case.yml") ->
  InitializeCase.export Classification UUID v_Classification v_UUID
    validation_error_str generate_meta_access GlobalModel
    GlobalModel_validate CaseSchema_dump drop_nones s
  = (Ok path, s1) ->
  path_exists (InitializeCase.world s1)
    (InitializeCase._metafile (InitializeCase.self s)) = true ->
  InitializeCase.export Classification UUID v_Classification v_UUID
    validation_error_str generate_meta_access GlobalModel
    GlobalModel_validate CaseSchema_dump drop_nones s1
  = (Ok path,
     InitializeCase.mkState (InitializeCase.self s1)
       (set_warnings
          (List.app (w_warnings (InitializeCase.world s1))
                    [mkWarning UserWarning InitializeCase.exists_warning])
          (InitializeCase.world s1))).
Proof.
  intros Hmetafile Hrun Hfile.
  assert (Hparts := metafile_parts casepath). rewrite <- Hmetafile in Hparts.
  unfold InitializeCase.export in Hrun.
  apply bind_ok_inv in Hrun. destruct Hrun as (doc & sg & Hgen & Hrun).
  destruct (generate_metadata_inv _ _ _ Hgen)
    as (b & w1 & _ & Hsame & _).
  apply bind_ok_inv in Hrun. destruct Hrun as (s2 & s2' & Hget & Hrun).
  injection Hget as <- <-.
  apply bind_ok_inv in Hrun. destruct Hrun as (u & s3 & Hwrite & Hrun).
  injection Hrun as <- <-.
  assert (Hself : InitializeCase.self s3 = InitializeCase.self sg).
  { destruct (truthy doc); cbn [when] in Hwrite.
    - apply case_in_world_inv in Hwrite.
      destruct Hwrite as (w3 & _ & ->). reflexivity.
    - now injection Hwrite as _ <-. }
  assert (Hmeta3 : InitializeCase._metafile (InitializeCase.self s3)
                   = InitializeCase._metafile (InitializeCase.self s))
    by (now rewrite Hself).
  unfold InitializeCase.export. unfold bind at 1.
  rewrite generate_metadata_existing.
  - unfold bind, get_state, ret. cbn [truthy when InitializeCase.self].
    unfold ret. now rewrite Hself.
  - rewrite Hmeta3, exists_is_dir_or_file.
    now rewrite (exists_in_directory _ _ _ _ Hparts eq_refl Hfile).
  - now rewrite Hmeta3.
Qed.

End CaseFacts.



(** The configuration of the runs above is one the constructor accepts,
    and [example_case] is the instance it gives. *)
Example example_case_constructed :
  InitializeCase.construct spec_GlobalConfiguration_validate
    (fun e => mkWarning UserWarning (exn_msg e))
    example_config (PStr "/scratch/f/case") "somecase" "peesv" PNone
    empty_world
  = (Ok example_case, empty_world).
Proof. vm_compute. reflexivity. Qed.

(** With a masterdata block that lacks what [Smda] requires,
    [generate_metadata] raises the error of [Masterdata.model_validate]
    and draws no UUID. *)
Example generate_metadata_incomplete_masterdata :
  let run :=
    InitializeCase.generate_metadata string string v_str v_str
      spec_validation_error_str spec_generate_meta_access Model
      spec_GlobalModel_validate spec_CaseSchema_dump spec_drop_nones
      (InitializeCase.mkState incomplete_case empty_world) in
  fst run
  = Raise (mkExn PydanticValidationError
             "5 validation errors for Masterdata")
  /\ w_uuid4_drawn (InitializeCase.world (snd run)) = 0.
Proof. split; vm_compute; reflexivity. Qed.

(** Where [share/metadata] under the case root is a regular file,
    [generate_metadata] returns a document and [export] fails to write
    it. *)
Example export_metadata_directory_is_file :
  fst (InitializeCase.generate_metadata string string v_str v_str
      spec_validation_error_str spec_generate_meta_access Model
      spec_GlobalModel_validate spec_CaseSchema_dump spec_drop_nones
         (InitializeCase.mkState example_case blocked_world))
  = Ok (example_case_document "uuid4-0")
  /\ fst (InitializeCase.export string string v_str v_str
      spec_validation_error_str spec_generate_meta_access Model
      spec_GlobalModel_validate spec_CaseSchema_dump spec_drop_nones
            (InitializeCase.mkState example_case blocked_world))
     = Raise (mkExn NotADirectoryError
                ("[Errno 20] Not a directory: "
                 ++ "'/scratch/f/case/share/metadata/fmu_case.yml'")).
Proof. split; vm_compute; reflexivity. Qed.

Lemma case_export_twice_witness :
  exists s1,
    InitializeCase.export string string v_str v_str
      spec_validation_error_str spec_generate_meta_access Model
      spec_GlobalModel_validate spec_CaseSchema_dump spec_drop_nones example_case_state
    = (Ok "/scratch/f/case/share/metadata/fmu_case.yml", s1)
    /\ fst (InitializeCase.export string string v_str v_str
      spec_validation_error_str spec_generate_meta_access Model
      spec_GlobalModel_validate spec_CaseSchema_dump spec_drop_nones s1)
       = Ok "/scratch/f/case/share/metadata/fmu_case.yml"
    /\ w_fs (InitializeCase.world
               (snd (InitializeCase.export string string v_str v_str
      spec_validation_error_str spec_generate_meta_access Model
      spec_GlobalModel_validate spec_CaseSchema_dump spec_drop_nones s1)))
       = w_fs (InitializeCase.world s1).
Proof.
  eexists.
  assert (Hrun : InitializeCase.export string string v_str v_str
      spec_validation_error_str spec_generate_meta_access Model
      spec_GlobalModel_validate spec_CaseSchema_dump spec_drop_nones example_case_state
                 = (Ok "/scratch/f/case/share/metadata/fmu_case.yml", _))
    by (vm_compute; reflexivity).
  split; [exact Hrun |].
  rewrite (case_export_twice string string v_str v_str
             spec_validation_error_str spec_generate_meta_access Model
             spec_GlobalModel_validate spec_CaseSchema_dump spec_drop_nones
             example_case_state _ _ (Path "/scratch/f/case")
             eq_refl Hrun ltac:(vm_compute; reflexivity)).
  split; reflexivity.
Defined.

(** The walk to a path follows [..] through the directories that are
    there: from the working directory [/scratch/f/case/realization-0/iter-0],
    three steps up and [case] name the case root; a [..] after a
    directory that is missing leads nowhere. *)
Example path_exists_parent_steps :
  path_exists empty_world (Path "../../../case") = true
  /\ path_exists empty_world (Path "/scratch/f/case/../case") = true
  /\ path_exists empty_world (Path "/scratch/nowhere/../f/case") = false
  /\ path_exists empty_world (Path "share") = false.
Proof. repeat split; vm_compute; reflexivity. Qed.

(** ** Strings and paths *)

Lemma append_assoc (a b c : string) : (a ++ b) ++ c = a ++ (b ++ c).
Proof. induction a as [| x a IH]; simpl; [reflexivity | now rewrite IH]. Qed.

Lemma append_empty_r (a : string) : a ++ "" = a.
Proof. induction a as [| x a IH]; simpl; [reflexivity | now rewrite IH]. Qed.

Lemma length_append (a b : string) :
  String.length (a ++ b) = String.length a + String.length b.
Proof. induction a as [| x a IH]; simpl; [reflexivity | now rewrite IH]. Qed.

Lemma startswith_append (p rest : string) : startswith p (p ++ rest) = true.
Proof.
  induction p as [| a p IH]; simpl; [reflexivity |].
  now rewrite Ascii.eqb_refl.
Qed.

Lemma replace_from_skip (old new t rest : string) :
  replace_from old new (String.length t) (t ++ rest)
  = replace_from old new 0 rest.
Proof. induction t as [| a t IH]; simpl; [reflexivity | exact IH]. Qed.

(** A match at the start is replaced, and the scan goes on after it. *)
Lemma str_replace_prefix (old new rest : string) :
  old <> "" ->
  str_replace old new (old ++ rest) = new ++ str_replace old new rest.
Proof.
  destruct old as [| c old]; [congruence |]. intros _.
  unfold str_replace.
  change (String c old ++ rest) with (String c (old ++ rest)).
  cbn [replace_from].
  change (String c (old ++ rest)) with (String c old ++ rest).
  rewrite startswith_append.
  replace (String.length (String c old) - 1) with (String.length old)
    by (cbn [String.length]; lia).
  now rewrite replace_from_skip.
Qed.

(** Without a match, the string is returned as it is. *)
Lemma str_replace_absent (old new s : string) :
  occurs old s = false -> str_replace old new s = s.
Proof.
  destruct old as [| c old].
  - destruct s; discriminate.
  - unfold str_replace. induction s as [| a s IH]; [reflexivity |].
    intros H. cbn [occurs] in H. apply orb_false_iff in H.
    destruct H as [Hstart Hrest]. cbn [replace_from]. rewrite Hstart.
    now rewrite (IH Hrest).
Qed.

(** The scan copies what comes before the first match. *)
Lemma str_replace_first (old new pre rest : string) :
  old <> "" ->
  no_match_within old pre (old ++ rest) = true ->
  str_replace old new (pre ++ old ++ rest)
  = pre ++ new ++ str_replace old new rest.
Proof.
  intros Hold. induction pre as [| a pre IH]; intros Hpre.
  - cbn [append]. now apply str_replace_prefix.
  - cbn [no_match_within] in Hpre. apply andb_true_iff in Hpre.
    destruct Hpre as [Hhere Hlater]. apply negb_true_iff in Hhere.
    specialize (IH Hlater).
    destruct old as [| c old]; [congruence |].
    unfold str_replace in *.
    change (String a pre ++ String c old ++ rest)
      with (String a (pre ++ String c old ++ rest)) in *.
    cbn [replace_from]. rewrite Hhere. now rewrite IH.
Qed.

Lemma occurs_char (c : ascii) (s : string) :
  occurs (String c EmptyString) s = negb (no_char c s).
Proof.
  induction s as [| a s IH]; [reflexivity |].
  cbn [occurs no_char startswith]. rewrite IH, andb_true_r, negb_andb,
    negb_involutive.
  now rewrite Ascii.eqb_sym.
Qed.

Lemma str_split_no_sep (sep : ascii) (c : string) :
  no_char sep c = true -> str_split sep c = [c].
Proof.
  induction c as [| a c IH]; [reflexivity |].
  cbn [no_char str_split]. intros H. apply andb_true_iff in H.
  destruct H as [Ha Hc]. apply negb_true_iff in Ha. rewrite Ha.
  now rewrite (IH Hc).
Qed.

Lemma str_split_app_sep (sep : ascii) (c rest : string) :
  no_char sep c = true ->
  str_split sep (c ++ String sep rest) = c :: str_split sep rest.
Proof.
  induction c as [| a c IH]; intros H.
  - cbn [append str_split]. now rewrite Ascii.eqb_refl.
  - cbn [no_char] in H. apply andb_true_iff in H. destruct H as [Ha Hc].
    apply negb_true_iff in Ha.
    change (String a c ++ String sep rest)
      with (String a (c ++ String sep rest)).
    cbn [str_split]. rewrite Ha. now rewrite (IH Hc).
Qed.

Lemma concat_cons2 (sep c c' : string) (l : list string) :
  String.concat sep (c :: c' :: l) = c ++ sep ++ String.concat sep (c' :: l).
Proof. reflexivity. Qed.

Lemma str_split_concat (comps : list string) :
  comps <> [] ->
  forallb (no_char "/") comps = true ->
  str_split "/" (String.concat "/" comps) = comps.
Proof.
  induction comps as [| c comps IH]; [congruence |]. intros _ H.
  cbn [forallb] in H. apply andb_true_iff in H. destruct H as [Hc Hcomps].
  destruct comps as [| c' comps].
  - cbn [String.concat]. now apply str_split_no_sep.
  - rewrite concat_cons2.
    change ("/" ++ String.concat "/" (c' :: comps))
      with (String "/" (String.concat "/" (c' :: comps))).
    rewrite (str_split_app_sep "/" c _ Hc). f_equal.
    apply IH; [discriminate | exact Hcomps].
Qed.

Lemma clean_part_no_sep (c : string) :
  clean_part c = true -> no_char "/" c = true.
Proof. unfold clean_part. intros H. now apply andb_true_iff in H. Qed.

Lemma clean_parts_no_sep (comps : list string) :
  forallb clean_part comps = true -> forallb (no_char "/") comps = true.
Proof.
  induction comps as [| c comps IH]; [reflexivity |]. cbn [forallb].
  intros H. apply andb_true_iff in H. destruct H as [Hc Hcomps].
  now rewrite (clean_part_no_sep c Hc), (IH Hcomps).
Qed.

Lemma filter_clean_parts (comps : list string) :
  forallb clean_part comps = true ->
  filter (fun p => negb (String.eqb p "") && negb (String.eqb p ".")) comps
  = comps.
Proof.
  induction comps as [| c comps IH]; [reflexivity |]. cbn [forallb filter].
  intros H. apply andb_true_iff in H. destruct H as [Hc Hcomps].
  unfold clean_part in Hc. apply andb_true_iff in Hc. destruct Hc as [Hc _].
  now rewrite Hc, (IH Hcomps).
Qed.

Lemma clean_part_head (c rest : string) :
  clean_part c = true -> startswith "/" (c ++ rest) = false.
Proof.
  unfold clean_part. destruct c as [| a c]; [discriminate |].
  intros H. apply andb_true_iff in H. destruct H as [_ H].
  cbn [no_char] in H. apply andb_true_iff in H. destruct H as [Ha _].
  apply negb_true_iff in Ha.
  cbn [append startswith]. now rewrite Ascii.eqb_sym, Ha.
Qed.

Lemma concat_head (c : string) (l : list string) :
  exists rest, String.concat "/" (c :: l) = c ++ rest.
Proof.
  destruct l as [| c' l].
  - exists "". cbn [String.concat]. now rewrite append_empty_r.
  - eexists. apply concat_cons2.
Qed.

Lemma concat_not_rooted (comps : list string) :
  forallb clean_part comps = true ->
  startswith "/" (String.concat "/" comps) = false.
Proof.
  destruct comps as [| c comps]; [reflexivity |]. cbn [forallb].
  intros H. apply andb_true_iff in H. destruct H as [Hc _].
  destruct (concat_head c comps) as [rest ->].
  now apply clean_part_head.
Qed.

Lemma not_rooted_twice (s : string) :
  startswith "/" s = false -> startswith "//" s = false.
Proof.
  destruct s as [| a s]; [reflexivity |]. cbn [startswith].
  intros H. rewrite andb_true_r in H. now rewrite H.
Qed.

Lemma split_clean_parts (comps : list string) :
  forallb clean_part comps = true ->
  filter (fun p => negb (String.eqb p "") && negb (String.eqb p "."))
         (str_split path_sep (String.concat "/" comps))
  = comps.
Proof.
  intros H. destruct comps as [| c comps]; [reflexivity |].
  unfold path_sep.
  rewrite str_split_concat;
    [now apply filter_clean_parts | discriminate
    | now apply clean_parts_no_sep].
Qed.

(** Parsing the string of a relative path gives its parts back. *)
Lemma Path_relative (comps : list string) :
  forallb clean_part comps = true ->
  Path (String.concat "/" comps) = mkPath "" comps.
Proof.
  intros H. unfold Path.
  rewrite (not_rooted_twice _ (concat_not_rooted comps H)).
  rewrite (concat_not_rooted comps H). cbn [andb].
  now rewrite split_clean_parts.
Qed.

(** The same for an absolute path. *)
Lemma Path_absolute (comps : list string) :
  forallb clean_part comps = true ->
  Path ("/" ++ String.concat "/" comps) = mkPath "/" comps.
Proof.
  intros H. unfold Path.
  change ("/" ++ String.concat "/" comps)
    with (String "/" (String.concat "/" comps)).
  assert (Hroot : startswith "//" (String "/" (String.concat "/" comps))
                  = false).
  { cbn [startswith]. rewrite Ascii.eqb_refl. cbn [andb].
    pose proof (concat_not_rooted comps H) as Hc.
    destruct (String.concat "/" comps); [reflexivity |].
    cbn [startswith] in *. exact Hc. }
  rewrite Hroot. cbn [andb startswith]. rewrite Ascii.eqb_refl. cbn [andb].
  unfold path_sep. cbn [str_split]. rewrite Ascii.eqb_refl.
  cbn [filter String.eqb negb andb].
  f_equal. now apply split_clean_parts.
Qed.

Lemma concat_app (l1 l2 : list string) :
  l1 <> [] -> l2 <> [] ->
  String.concat "/" (List.app l1 l2)
  = String.concat "/" l1 ++ "/" ++ String.concat "/" l2.
Proof.
  intros H1 H2. induction l1 as [| c l1 IH]; [congruence |].
  destruct l1 as [| c' l1].
  - destruct l2 as [| d l2]; [congruence |]. reflexivity.
  - change (List.app (c :: c' :: l1) l2)
      with (c :: c' :: List.app l1 l2).
    rewrite !concat_cons2.
    change (c' :: List.app l1 l2) with (List.app (c' :: l1) l2).
    rewrite IH by discriminate. now rewrite !append_assoc.
Qed.

Lemma rfind_none (c : ascii) (s : string) :
  no_char c s = true -> rfind c s = None.
Proof.
  induction s as [| a s IH]; [reflexivity |]. cbn [no_char rfind].
  intros H. apply andb_true_iff in H. destruct H as [Ha Hs].
  apply negb_true_iff in Ha. now rewrite (IH Hs), Ha.
Qed.

Lemma rfind_last (c : ascii) (a b : string) :
  no_char c b = true -> rfind c (a ++ String c b) = Some (String.length a).
Proof.
  intros Hb. induction a as [| x a IH].
  - cbn [append rfind String.length]. rewrite (rfind_none c b Hb).
    now rewrite Ascii.eqb_refl.
  - change (String x a ++ String c b) with (String x (a ++ String c b)).
    cbn [rfind String.length]. now rewrite IH.
Qed.

Lemma substring_all (s : string) : substring 0 (String.length s) s = s.
Proof. induction s as [| a s IH]; simpl; [reflexivity | now rewrite IH]. Qed.

Lemma substring_head (a b : string) : substring 0 (String.length a) (a ++ b) = a.
Proof.
  induction a as [| x a IH]; simpl.
  - now destruct b.
  - now rewrite IH.
Qed.

Lemma substring_tail (a b : string) :
  substring (String.length a) (String.length b) (a ++ b) = b.
Proof.
  induction a as [| x a IH]; simpl.
  - apply substring_all.
  - exact IH.
Qed.

Lemma string_nonempty_length (s : string) : s <> "" -> 0 < String.length s.
Proof. destruct s; [congruence | simpl; lia]. Qed.

Lemma path_name_last (root : string) (dirs : list string) (file : string) :
  path_name (mkPath root (List.app dirs [file])) = file.
Proof. unfold path_name. simpl. apply last_last. Qed.

Lemma path_parent_last (root : string) (dirs : list string) (file : string) :
  path_parent (mkPath root (List.app dirs [file])) = mkPath root dirs.
Proof. unfold path_parent. simpl. now rewrite removelast_last. Qed.

(** The suffix and the stem of a file name [stem.ext]. *)
Lemma suffix_stem_of_name (root : string) (dirs : list string)
    (stem ext : string) :
  stem <> "" -> ext <> "" -> no_char "." ext = true ->
  path_suffix (mkPath root (List.app dirs [stem ++ "." ++ ext])) = "." ++ ext
  /\ path_stem (mkPath root (List.app dirs [stem ++ "." ++ ext])) = stem.
Proof.
  intros Hstem Hext Hdot. unfold path_suffix, path_stem.
  rewrite path_name_last.
  change (stem ++ "." ++ ext) with (stem ++ String "." ext).
  rewrite (rfind_last "." stem ext Hdot).
  apply string_nonempty_length in Hstem, Hext.
  assert (Hlen : String.length (stem ++ String "." ext)
                 = String.length stem + S (String.length ext))
    by (rewrite length_append; reflexivity).
  assert (Hcond : Nat.ltb 0 (String.length stem)
                  && Nat.ltb (String.length stem)
                       (String.length (stem ++ String "." ext) - 1) = true).
  { apply andb_true_iff. split; apply Nat.ltb_lt; lia. }
  rewrite Hcond. split.
  - replace (String.length (stem ++ String "." ext) - String.length stem)
      with (String.length (String "." ext)) by (cbn [String.length]; lia).
    apply substring_tail.
  - apply substring_head.
Qed.

Lemma suffix_of_plain_name (root : string) (dirs : list string)
    (name : string) :
  no_char "." name = true ->
  path_suffix (mkPath root (List.app dirs [name])) = "".
Proof.
  intros Hdot. unfold path_suffix. rewrite path_name_last.
  now rewrite (rfind_none "." name Hdot).
Qed.

(** A name without a dot gets the suffix appended. *)
Lemma with_suffix_plain_name (root : string) (dirs : list string)
    (name ext : string) :
  name <> "" -> no_char "." name = true ->
  ext <> "" -> no_char "/" ext = true ->
  path_with_suffix (mkPath root (List.app dirs [name])) ("." ++ ext)
  = Ok (mkPath root (List.app dirs [name ++ "." ++ ext])).
Proof.
  intros Hname Hdot Hext Hsep. unfold path_with_suffix.
  assert (Hocc : occurs "/" ("." ++ ext) = false).
  { rewrite occurs_char. cbn [append no_char]. rewrite Hsep. reflexivity. }
  rewrite Hocc.
  assert (Hvalid : (negb (String.eqb ("." ++ ext) "")
                    && negb (startswith "." ("." ++ ext)))
                   || String.eqb ("." ++ ext) "." = false).
  { cbn [append startswith String.eqb]. rewrite Ascii.eqb_refl.
    destruct ext; [congruence | reflexivity]. }
  rewrite Hvalid. rewrite path_name_last.
  apply String.eqb_neq in Hname. rewrite Hname.
  rewrite (suffix_of_plain_name root dirs name Hdot). cbn [String.eqb].
  cbn [path_root path_parts]. now rewrite removelast_last.
Qed.

(** A clean name is a path of one part. *)
Lemma Path_single (name : string) :
  clean_part name = true -> Path name = mkPath "" [name].
Proof.
  intros H. change name with (String.concat "/" [name]) at 1.
  apply Path_relative. cbn [forallb]. now rewrite H.
Qed.

Lemma no_dot_clean (name : string) :
  name <> "" -> no_char "." name = true -> no_char "/" name = true ->
  clean_part name = true.
Proof.
  intros Hname Hdot Hsep. unfold clean_part. rewrite Hsep.
  apply String.eqb_neq in Hname. rewrite Hname.
  destruct name as [| a name]; [discriminate |].
  cbn [no_char] in Hdot. apply andb_true_iff in Hdot. destruct Hdot as [Ha _].
  apply negb_true_iff in Ha. cbn [String.eqb]. now rewrite Ha.
Qed.

(** The last steps of [_construct_filename]: the new name replaces the
    file name and gets the file's suffix. *)
Lemma rename_in_path (root : string) (dirs : list string)
    (stem ext usename : string) :
  usename <> "" -> no_char "." usename = true -> no_char "/" usename = true ->
  ext <> "" -> no_char "/" ext = true ->
  path_with_suffix
    (path_join (path_parent (mkPath root (List.app dirs [stem ++ "." ++ ext])))
               (Path usename))
    ("." ++ ext)
  = Ok (mkPath root (List.app dirs [usename ++ "." ++ ext])).
Proof.
  intros Hname Hdot Hsep Hext Hextsep.
  rewrite path_parent_last, (Path_single usename)
    by (now apply no_dot_clean).
  unfold path_join. cbn [path_root path_parts].
  now apply with_suffix_plain_name.
Qed.

(** ** The file name of an aggregation *)

Lemma forallb_app_true {A : Type} (f : A -> bool) (l1 l2 : list A) :
  forallb f l1 = true -> forallb f l2 = true ->
  forallb f (List.app l1 l2) = true.
Proof. intros H1 H2. rewrite forallb_app. now rewrite H1, H2. Qed.

Lemma no_char_append (c : ascii) (a b : string) :
  no_char c (a ++ b) = no_char c a && no_char c b.
Proof.
  induction a as [| x a IH]; [reflexivity |]. cbn [append no_char].
  now rewrite IH, andb_assoc.
Qed.

Lemma clean_file_name (stem ext : string) :
  stem <> "" -> no_char "/" stem = true -> no_char "/" ext = true ->
  clean_part (stem ++ "." ++ ext) = true.
Proof.
  intros Hstem Hs He. unfold clean_part.
  rewrite no_char_append, Hs. cbn [append no_char]. rewrite He.
  destruct stem as [| a stem]; [congruence |].
  cbn [append String.eqb].
  destruct (Ascii.eqb a "."); [destruct stem |]; reflexivity.
Qed.

Lemma aggregated_name_nonempty (self : AggregatedData.t) (stem : string) :
  stem <> "" -> aggregated_name self stem <> "".
Proof.
  intros Hstem. unfold aggregated_name.
  destruct (String.eqb (AggregatedData.name self) "") eqn:Hname.
  - destruct stem; [congruence | discriminate].
  - apply String.eqb_neq in Hname.
    destruct (AggregatedData.name self); [congruence | discriminate].
Qed.

(** The name [_construct_filename] computes is [aggregated_name]. *)
Lemma usename_steps (self : AggregatedData.t) (stem : string) :
  (if truthy (PStr (AggregatedData.tagname self))
   then (if negb (truthy (PStr (AggregatedData.name self)))
         then stem ++ "--" ++ AggregatedData.operation self
         else AggregatedData.name self)
        ++ "--" ++ AggregatedData.tagname self
   else (if negb (truthy (PStr (AggregatedData.name self)))
         then stem ++ "--" ++ AggregatedData.operation self
         else AggregatedData.name self))
  = aggregated_name self stem.
Proof.
  unfold aggregated_name. cbn [truthy]. rewrite !negb_involutive.
  destruct (String.eqb (AggregatedData.tagname self) ""); cbn [negb];
    [now rewrite append_empty_r | reflexivity].
Qed.

Section FilenameFacts.

Variable self : AggregatedData.t.
Variable template : pyval.
Variable w : World.
Variable r : string.
Variables dirs : list string.
Variables stem ext : string.

Hypothesis dirs_clean : forallb clean_part dirs = true.
Hypothesis stem_nonempty : stem <> "".
Hypothesis stem_no_sep : no_char "/" stem = true.
Hypothesis ext_nonempty : ext <> "".
Hypothesis ext_no_dot : no_char "." ext = true.
Hypothesis ext_no_sep : no_char "/" ext = true.
Hypothesis rest_no_match :
  occurs (r ++ "/")
    (String.concat "/" (List.app dirs [stem ++ "." ++ ext])) = false.
Hypothesis name_no_dot : no_char "." (aggregated_name self stem) = true.
Hypothesis name_no_sep : no_char "/" (aggregated_name self stem) = true.

Lemma file_parts_clean :
  forallb clean_part (List.app dirs [stem ++ "." ++ ext]) = true.
Proof.
  apply forallb_app_true; [exact dirs_clean |]. cbn [forallb].
  now rewrite clean_file_name.
Qed.

Lemma realization_folder_stripped :
  Path (str_replace (r ++ "/") ""
          ((r ++ "/")
           ++ String.concat "/" (List.app dirs [stem ++ "." ++ ext])))
  = mkPath "" (List.app dirs [stem ++ "." ++ ext]).
Proof.
  rewrite str_replace_prefix by (destruct r; discriminate).
  rewrite str_replace_absent by exact rest_no_match.
  apply Path_relative, file_parts_clean.
Qed.

Lemma realization_folder_stripped_abs (pre : list string) :
  pre <> [] -> forallb clean_part pre = true ->
  no_match_within (r ++ "/") ("/" ++ String.concat "/" pre ++ "/")
    ((r ++ "/") ++ String.concat "/" (List.app dirs [stem ++ "." ++ ext]))
  = true ->
  Path (str_replace (r ++ "/") ""
          (("/" ++ String.concat "/" pre ++ "/") ++ (r ++ "/")
           ++ String.concat "/" (List.app dirs [stem ++ "." ++ ext])))
  = mkPath "/" (List.app pre (List.app dirs [stem ++ "." ++ ext])).
Proof.
  intros Hpre Hclean Hfirst.
  rewrite str_replace_first by (try assumption; destruct r; discriminate).
  rewrite str_replace_absent by exact rest_no_match.
  rewrite <- Path_absolute
    by (apply forallb_app_true; [exact Hclean | exact file_parts_clean]).
  rewrite (concat_app pre _ Hpre) by (now destruct dirs).
  cbn [append]. now rewrite !append_assoc.
Qed.

(** The steps of [_construct_filename] after the paths are parsed. *)
Lemma construct_filename_tail (pre : option (list string)) :
  (usename <-
     (if negb (truthy (PStr (AggregatedData.name self)))
      then
        warn "Input name is not given, will assume <usename>" UserWarning ;;
        ret (stem ++ "--" ++ AggregatedData.operation self)
      else ret (AggregatedData.name self)) ;;
   relname <-
     lift (path_with_suffix
             (path_join
                (path_parent
                   (mkPath "" (List.app dirs [stem ++ "." ++ ext])))
                (Path (if truthy (PStr (AggregatedData.tagname self))
                       then usename ++ "--" ++ AggregatedData.tagname self
                       else usename)))
             ("." ++ ext)) ;;
   absname <-
     match option_map
             (fun pre =>
                mkPath "/" (List.app pre
                              (List.app dirs [stem ++ "." ++ ext]))) pre
     with
     | Some abspath =>
         a <- lift (path_with_suffix
                      (path_join (path_parent abspath)
                         (Path (if truthy
                                     (PStr (AggregatedData.tagname self))
                                then usename ++ "--"
                                     ++ AggregatedData.tagname self
                                else usename)))
                      ("." ++ ext)) ;;
         ret (Some a)
     | None => ret None
     end ;;
   ret (relname, absname))%M w
  = (Ok (mkPath ""
           (List.app dirs [aggregated_name self stem ++ "." ++ ext]),
         option_map
           (fun pre =>
              mkPath "/"
                (List.app pre
                   (List.app dirs
                      [aggregated_name self stem ++ "." ++ ext]))) pre),
     name_warned self w).
Proof.
  pose proof (aggregated_name_nonempty self stem stem_nonempty) as Hu.
  pose proof (rename_in_path "" dirs stem ext _ Hu name_no_dot name_no_sep
                ext_nonempty ext_no_sep) as Hrelname.
  assert (Habsname :
            forall pre,
              path_with_suffix
                (path_join
                   (path_parent
                      (mkPath "/"
                         (List.app pre
                            (List.app dirs [stem ++ "." ++ ext]))))
                   (Path (aggregated_name self stem)))
                ("." ++ ext)
              = Ok (mkPath "/"
                      (List.app pre
                         (List.app dirs
                            [aggregated_name self stem ++ "." ++ ext])))).
  { intros pre'. rewrite !app_assoc.
    exact (rename_in_path "/" (List.app pre' dirs) stem ext _ Hu name_no_dot
             name_no_sep ext_nonempty ext_no_sep). }
  unfold aggregated_name, name_warned in *. cbn [truthy].
  destruct pre as [pre |]; cbn [option_map];
    destruct (String.eqb (AggregatedData.name self) "");
    destruct (String.eqb (AggregatedData.tagname self) "");
    cbn [negb]; rewrite ?append_empty_r in *;
    unfold bind, warn, modify, ret, lift; rewrite Hrelname, ?Habsname;
    reflexivity.
Qed.


(** With a casepath that exists, given as the string of an absolute
    path in normal form in which the realization folder followed by a
    slash does not occur, the absolute path of the aggregation is the
    derived relative path below the casepath: the absolute path of the
    template, whatever it is, is not used. *)
Theorem construct_filename_casepath (pre : list string) (abspath : pyval) :
  template_paths template r
    ((r ++ "/") ++ String.concat "/" (List.app dirs [stem ++ "." ++ ext]))
    abspath ->
  AggregatedData.casepath self = PStr ("/" ++ String.concat "/" pre) ->
  abspath_ok (Some pre) r
    (String.concat "/" (List.app dirs [stem ++ "." ++ ext])) ->
  clean_part r = true ->
  path_exists w (mkPath "/" pre) = true ->
  AggregatedData._construct_filename self template w
  = (Ok (mkPath ""
           (List.app dirs [aggregated_name self stem ++ "." ++ ext]),
         Some (mkPath "/"
                 (List.app pre
                    (List.app dirs
                       [aggregated_name self stem ++ "." ++ ext])))),
     name_warned self w).
Proof.
  intros (fmu & realization & file & Hfmu & Hreal & Hname & Hfile & Hrel
          & Habs) Hcase (Hne & Hclean & Hfirst) Hr Hexists.
  assert (Hparts : List.app dirs [stem ++ "." ++ ext] <> [])
    by (now destruct dirs).
  assert (Hrelpath :
            Path ((r ++ "/")
                  ++ String.concat "/" (List.app dirs [stem ++ "." ++ ext]))
            = mkPath "" (r :: List.app dirs [stem ++ "." ++ ext])).
  { rewrite <- Path_relative
      by (cbn [forallb]; rewrite Hr; exact file_parts_clean).
    f_equal. destruct (List.app dirs [stem ++ "." ++ ext]) as [| c l];
      [congruence |].
    rewrite concat_cons2. now rewrite append_assoc. }
  assert (Hjoined :
            path_str (mkPath "/"
                        (List.app pre
                           (r :: List.app dirs [stem ++ "." ++ ext])))
            = ("/" ++ String.concat "/" pre ++ "/") ++ (r ++ "/")
              ++ String.concat "/" (List.app dirs [stem ++ "." ++ ext])).
  { unfold path_str. cbn [path_root path_parts].
    rewrite (concat_app pre _ Hne) by discriminate.
    destruct (List.app dirs [stem ++ "." ++ ext]) as [| c l];
      [congruence |].
    rewrite concat_cons2. cbn [append]. now rewrite !append_assoc. }
  unfold AggregatedData._construct_filename.
  rewrite Hfmu. cbn [rbind]. rewrite Hreal. cbn [rbind]. rewrite Hname.
  unfold bind at 1. cbn [lift].
  rewrite Hfile. unfold bind at 1. cbn [lift].
  unfold bind at 1. unfold subscript at 1. rewrite Hrel. cbn [lift].
  unfold bind at 1. cbn [lift get_method]. rewrite Hcase.
  assert (Htruthy : truthy (PStr ("/" ++ String.concat "/" pre)) = true)
    by reflexivity.
  rewrite Htruthy.
  unfold bind at 1. unfold bind at 1. cbn [lift to_Path].
  rewrite (Path_absolute pre Hclean).
  unfold bind at 1. cbn [get_state]. rewrite Hexists. cbn [negb].
  unfold bind at 1. cbn [lift to_Path]. rewrite Hrelpath.
  unfold path_join at 1. cbn [path_root path_parts ret].
  rewrite Hjoined.
  unfold bind at 1. cbn [lift replace_receiver].
  unfold bind at 1. cbn [lift plus_sep].
  rewrite realization_folder_stripped.
  destruct (suffix_stem_of_name "" dirs stem ext stem_nonempty
              ext_nonempty ext_no_dot) as [Hsuffix Hstem].
  rewrite Hsuffix, Hstem.
  assert (Habspath :
            truthy (PStr (("/" ++ String.concat "/" pre ++ "/")
                          ++ (r ++ "/")
                          ++ String.concat "/"
                               (List.app dirs [stem ++ "." ++ ext])))
            = true) by reflexivity.
  rewrite Habspath.
  unfold bind at 1. unfold bind at 1. cbn [lift replace_receiver].
  unfold ret at 1.
  rewrite (realization_folder_stripped_abs pre Hne Hclean Hfirst).
  exact (construct_filename_tail (Some pre)).
Qed.

End FilenameFacts.

Lemma example_template_paths :
  template_paths example_template "realization-33"
    (("realization-33" ++ "/")
     ++ String.concat "/"
          (List.app ["iter-0"; "share"; "results"; "maps"]
                    ["x" ++ "." ++ "gri"]))
    (template_abspath (Some ["scratch"; "f"; "case"]) "realization-33"
       (String.concat "/"
          (List.app ["iter-0"; "share"; "results"; "maps"]
                    ["x" ++ "." ++ "gri"]))).
Proof.
  unfold template_paths. do 3 eexists.
  repeat split; vm_compute; reflexivity.
Qed.



Lemma example_casepath_ok :
  abspath_ok (Some ["scratch"; "f"; "othercase"]) "realization-33"
    (String.concat "/"
       (List.app ["iter-0"; "share"; "results"; "maps"]
                 ["x" ++ "." ++ "gri"])).
Proof. repeat split. discriminate. Qed.

Lemma construct_filename_casepath_witness :
  AggregatedData._construct_filename
    (AggregatedData.mk PNone (PStr "/scratch/f/othercase") [] "aggr" "mean"
       "" "DEPRECATED" (PStr "yaml") (PDict []))
    example_template othercase_world
  = (Ok (mkPath "" ["iter-0"; "share"; "results"; "maps"; "aggr.gri"],
         Some (mkPath "/" ["scratch"; "f"; "othercase"; "iter-0"; "share";
                           "results"; "maps"; "aggr.gri"])),
     othercase_world).
Proof.
  apply (construct_filename_casepath
           (AggregatedData.mk PNone (PStr "/scratch/f/othercase") [] "aggr"
              "mean" "" "DEPRECATED" (PStr "yaml") (PDict []))
           example_template othercase_world "realization-33"
           ["iter-0"; "share"; "results"; "maps"] "x" "gri"
           eq_refl ltac:(discriminate) eq_refl ltac:(discriminate)
           eq_refl eq_refl eq_refl eq_refl eq_refl
           ["scratch"; "f"; "othercase"] _
           example_template_paths eq_refl example_casepath_ok eq_refl
           eq_refl).
Defined.

(** A casepath that holds the name of the realization folder as one of
    its directories loses it with the realization folder of the relative
    path: the absolute path derived is not below the casepath. *)
Example construct_filename_casepath_segment :
  fst (AggregatedData._construct_filename
         (AggregatedData.mk PNone (PStr "/scratch/realization-33/othercase")
            [] "aggr" "mean" "" "DEPRECATED" (PStr "yaml") (PDict []))
         example_template
         (set_fs (add_dir "/scratch/realization-33/othercase"
                    (add_dir "/scratch/realization-33" (w_fs empty_world)))
                 empty_world))
  = Ok (mkPath "" ["iter-0"; "share"; "results"; "maps"; "aggr.gri"],
        Some (mkPath "/" ["scratch"; "othercase"; "iter-0"; "share";
                          "results"; "maps"; "aggr.gri"])).
Proof. vm_compute. reflexivity. Qed.


(** An operation with a dot in it: [with_suffix] takes what follows the
    dot for a suffix and replaces it. The theorem above leaves such names
    out. *)
Example construct_filename_dotted_operation :
  fst (AggregatedData._construct_filename
         (AggregatedData.mk PNone PNone [] "" "p10.5" ""
            "DEPRECATED" (PStr "yaml") (PDict []))
         example_template empty_world)
  = Ok (mkPath "" ["iter-0"; "share"; "results"; "maps"; "x--p10.gri"],
        Some (mkPath "/" ["scratch"; "f"; "case"; "iter-0"; "share";
                          "results"; "maps"; "x--p10.gri"])).
Proof. vm_compute. reflexivity. Qed.

(** ** Documents read and written at a key path *)

(** Induction on a Python value, with the items of a list and the values
    of a dict as smaller values. *)
Lemma pyval_nested_ind (P : pyval -> Prop) :
  P PNone ->
  (forall b, P (PBool b)) ->
  (forall z, P (PInt z)) ->
  (forall s, P (PStr s)) ->
  (forall s, P (PPath s)) ->
  (forall c, P (PCtx c)) ->
  (forall l, Forall P l -> P (PList l)) ->
  (forall d, Forall (fun kv => P (snd kv)) d -> P (PDict d)) ->
  forall v, P v.
Proof.
  intros HNone HBool HInt HStr HPath HCtx HList HDict.
  fix IH 1.
  intros [| b | z | s | s | c | l | d];
    [ exact HNone | apply HBool | apply HInt | apply HStr | apply HPath
    | apply HCtx | | ].
  - apply HList.
    refine ((fix items (l : list pyval) : Forall P l :=
               match l with
               | [] => Forall_nil P
               | x :: l' => Forall_cons x (IH x) (items l')
               end) l).
  - apply HDict.
    refine ((fix items (d : pydict) : Forall (fun kv => P (snd kv)) d :=
               match d with
               | [] => Forall_nil _
               | (k, x) :: d' => Forall_cons (k, x) (IH x) (items d')
               end) d).
Qed.

Lemma dict_lookup_set_other (k k' : string) (v : pyval) (d : pydict) :
  k <> k' -> dict_lookup k (dict_set k' v d) = dict_lookup k d.
Proof.
  intros Hne. induction d as [| [k0 v0] d IH]; simpl.
  - apply String.eqb_neq in Hne. now rewrite Hne.
  - destruct (String.eqb k' k0) eqn:Hk'; simpl.
    + apply String.eqb_eq in Hk'. subst k0.
      apply String.eqb_neq in Hne. now rewrite Hne.
    + destruct (String.eqb k k0); [reflexivity | exact IH].
Qed.

Lemma dict_lookup_del_other (k k' : string) (d : pydict) :
  k <> k' -> dict_lookup k (dict_del k' d) = dict_lookup k d.
Proof.
  intros Hne. induction d as [| [k0 v0] d IH]; simpl; [reflexivity |].
  destruct (String.eqb k' k0) eqn:Hk'; simpl.
  - apply String.eqb_eq in Hk'. subst k0.
    apply String.eqb_neq in Hne. now rewrite Hne.
  - destruct (String.eqb k k0); [reflexivity | exact IH].
Qed.

Lemma dict_has_del_unique (k : string) (d : pydict) :
  keys_unique d = true -> dict_has k (dict_del k d) = false.
Proof.
  unfold dict_has. induction d as [| [k0 v0] d IH]; simpl; [reflexivity |].
  intros Hu. apply andb_true_iff in Hu. destruct Hu as [Hfresh Hu].
  destruct (String.eqb k k0) eqn:Hk.
  - apply String.eqb_eq in Hk. subst k0.
    unfold dict_has in Hfresh. now destruct (dict_lookup k d).
  - simpl. rewrite Hk. now apply IH.
Qed.

Lemma subscript_dict (k : string) (d : pydict) (v : pyval) :
  subscript (PDict d) k = Ok v <-> dict_lookup k d = Some v.
Proof.
  simpl. destruct (dict_lookup k d) as [x |]; split; intros H;
    try discriminate H; injection H as ->; reflexivity.
Qed.

(** An assignment at a key path succeeds where the path leads to a dict,
    and sets the key there. *)
Lemma set_at_inner (path : list string) (k : string) (v doc doc' : pyval) :
  set_at path k v doc = Ok doc' ->
  exists d, get_at path doc = Ok (PDict d)
            /\ get_at path doc' = Ok (PDict (dict_set k v d)).
Proof.
  revert doc doc'. induction path as [| p path IH]; intros doc doc' H.
  - destruct doc; simpl in H; try discriminate H.
    injection H as <-. eexists. split; reflexivity.
  - destruct doc as [| | | | | | | d]; simpl in H; try discriminate H.
    destruct (dict_lookup p d) as [inner |] eqn:Hp; [| discriminate H].
    destruct (set_at path k v inner) as [inner' |] eqn:Hin;
      [| discriminate H].
    injection H as <-. destruct (IH _ _ Hin) as (d0 & Hget & Hget').
    exists d0. simpl. rewrite Hp, dict_lookup_set_same. now split.
Qed.

(** It changes nothing that is read along a path that parts ways with
    the path of the assignment. *)
Lemma set_at_frame (path : list string) (k : string) (v doc doc' : pyval)
    (q : list string) :
  set_at path k v doc = Ok doc' ->
  diverge (List.app path [k]) q = true ->
  get_at q doc' = get_at q doc.
Proof.
  revert doc doc' q. induction path as [| p path IH]; intros doc doc' q H Hq.
  - destruct doc as [| | | | | | | d]; simpl in H; try discriminate H.
    injection H as <-. destruct q as [| b q]; [discriminate Hq |].
    simpl in Hq. destruct (String.eqb k b) eqn:Hk.
    + destruct q; discriminate Hq.
    + simpl. rewrite dict_lookup_set_other; [reflexivity |].
      apply String.eqb_neq in Hk. congruence.
  - destruct doc as [| | | | | | | d]; simpl in H; try discriminate H.
    destruct (dict_lookup p d) as [inner |] eqn:Hp; [| discriminate H].
    destruct (set_at path k v inner) as [inner' |] eqn:Hin;
      [| discriminate H].
    injection H as <-. destruct q as [| b q]; [discriminate Hq |].
    simpl in Hq. destruct (String.eqb p b) eqn:Hpb.
    + apply String.eqb_eq in Hpb. subst b. simpl.
      rewrite Hp, dict_lookup_set_same. simpl. now apply (IH inner).
    + simpl. rewrite dict_lookup_set_other; [reflexivity |].
      apply String.eqb_neq in Hpb. congruence.
Qed.

(** A deletion at a key path succeeds where the path leads to a dict
    with the key, and deletes the key there. *)
Lemma del_at_inner (path : list string) (k : string) (doc doc' : pyval) :
  del_at path k doc = Ok doc' ->
  exists d, get_at path doc = Ok (PDict d)
            /\ dict_has k d = true
            /\ get_at path doc' = Ok (PDict (dict_del k d)).
Proof.
  revert doc doc'. induction path as [| p path IH]; intros doc doc' H.
  - destruct doc as [| | | | | | | d]; simpl in H; try discriminate H.
    destruct (dict_has k d) eqn:Hk; [| discriminate H].
    injection H as <-. exists d. repeat split. exact Hk.
  - destruct doc as [| | | | | | | d]; simpl in H; try discriminate H.
    destruct (dict_lookup p d) as [inner |] eqn:Hp; [| discriminate H].
    destruct (del_at path k inner) as [inner' |] eqn:Hin;
      [| discriminate H].
    injection H as <-. destruct (IH _ _ Hin) as (d0 & Hget & Hhas & Hget').
    exists d0. simpl. rewrite Hp, dict_lookup_set_same. now repeat split.
Qed.

Lemma del_at_frame (path : list string) (k : string) (doc doc' : pyval)
    (q : list string) :
  del_at path k doc = Ok doc' ->
  diverge (List.app path [k]) q = true ->
  get_at q doc' = get_at q doc.
Proof.
  revert doc doc' q. induction path as [| p path IH]; intros doc doc' q H Hq.
  - destruct doc as [| | | | | | | d]; simpl in H; try discriminate H.
    destruct (dict_has k d); [| discriminate H].
    injection H as <-. destruct q as [| b q]; [discriminate Hq |].
    simpl in Hq. destruct (String.eqb k b) eqn:Hk.
    + destruct q; discriminate Hq.
    + simpl. rewrite dict_lookup_del_other; [reflexivity |].
      apply String.eqb_neq in Hk. congruence.
  - destruct doc as [| | | | | | | d]; simpl in H; try discriminate H.
    destruct (dict_lookup p d) as [inner |] eqn:Hp; [| discriminate H].
    destruct (del_at path k inner) as [inner' |] eqn:Hin;
      [| discriminate H].
    injection H as <-. destruct q as [| b q]; [discriminate Hq |].
    simpl in Hq. destruct (String.eqb p b) eqn:Hpb.
    + apply String.eqb_eq in Hpb. subst b. simpl.
      rewrite Hp, dict_lookup_set_same. simpl. now apply (IH inner).
    + simpl. rewrite dict_lookup_set_other; [reflexivity |].
      apply String.eqb_neq in Hpb. congruence.
Qed.

Lemma del_at_missing (path : list string) (k : string) (doc : pyval)
    (d : pydict) :
  get_at path doc = Ok (PDict d) ->
  dict_has k d = false ->
  del_at path k doc = Raise (mkExn KeyError k).
Proof.
  revert doc. induction path as [| p path IH]; intros doc Hget Hk.
  - injection Hget as ->. simpl. now rewrite Hk.
  - destruct doc as [| | | | | | | dd]; simpl in Hget; try discriminate Hget.
    simpl. destruct (dict_lookup p dd) as [inner |]; [| discriminate Hget].
    simpl in Hget. now rewrite (IH inner Hget Hk).
Qed.

(** ** The JSON schema dump *)

Lemma remove_format_path_dict (d : pydict) :
  _remove_format_path (PDict d) = PDict (remove_format_path_items d).
Proof. reflexivity. Qed.

Lemma remove_format_path_items_cons (k : string) (v : pyval) (d : pydict) :
  remove_format_path_items ((k, v) :: d)
  = if String.eqb k "format" && equals_str v "path"
    then remove_format_path_items d
    else (k, _remove_format_path v) :: remove_format_path_items d.
Proof.
  unfold remove_format_path_items. simpl.
  now destruct (String.eqb k "format" && equals_str v "path").
Qed.

Lemma has_format_path_cons (k : string) (v : pyval) (d : pydict) :
  has_format_path (PDict ((k, v) :: d))
  = (String.eqb k "format" && equals_str v "path")
    || has_format_path v || has_format_path (PDict d).
Proof. reflexivity. Qed.

Lemma equals_str_remove_format_path (v : pyval) (s : string) :
  equals_str (_remove_format_path v) s = equals_str v s.
Proof. now destruct v. Qed.

(** No entry ["format": "path"] is left, at any depth. *)
Lemma remove_format_path_clean (v : pyval) :
  has_format_path (_remove_format_path v) = false.
Proof.
  induction v as [| b | z | s | s | c | l IH | d IH] using pyval_nested_ind;
    try reflexivity.
  - simpl. induction IH as [| x l Hx _ IHl]; simpl; [reflexivity |].
    now rewrite Hx, IHl.
  - rewrite remove_format_path_dict.
    induction IH as [| [k x] d Hx _ IHd]; [reflexivity |].
    rewrite remove_format_path_items_cons.
    destruct (String.eqb k "format" && equals_str x "path") eqn:Hkx;
      [exact IHd |].
    rewrite has_format_path_cons, equals_str_remove_format_path, Hkx.
    simpl in Hx. now rewrite Hx, IHd.
Qed.

(** A document without such an entry is returned as it is. *)
Lemma remove_format_path_fixed (v : pyval) :
  has_format_path v = false -> _remove_format_path v = v.
Proof.
  induction v as [| b | z | s | s | c | l IH | d IH] using pyval_nested_ind;
    try reflexivity.
  - simpl. intros Hclean. f_equal.
    induction IH as [| x l Hx _ IHl]; simpl; [reflexivity |].
    simpl in Hclean. apply orb_false_iff in Hclean.
    destruct Hclean as [Hcx Hcl]. now rewrite Hx, IHl.
  - rewrite remove_format_path_dict. intros Hclean. f_equal.
    induction IH as [| [k x] d Hx _ IHd]; [reflexivity |].
    rewrite has_format_path_cons in Hclean.
    apply orb_false_iff in Hclean. destruct Hclean as [Hclean Hcd].
    apply orb_false_iff in Hclean. destruct Hclean as [Hkx Hcx].
    rewrite remove_format_path_items_cons, Hkx.
    simpl in Hx. now rewrite Hx, IHd.
Qed.

(** [_remove_format_path] leaves no entry ["format": "path"] at any depth
    of the document, and a second pass changes nothing more. *)
Theorem remove_format_path_idempotent (obj : pyval) :
  has_format_path (_remove_format_path obj) = false
  /\ _remove_format_path (_remove_format_path obj) = _remove_format_path obj.
Proof.
  split; [apply remove_format_path_clean |].
  apply remove_format_path_fixed, remove_format_path_clean.
Qed.

Lemma remove_format_path_lookup (d : pydict) (k : string) (v : pyval) :
  dict_lookup k d = Some v ->
  String.eqb k "format" && equals_str v "path" = false ->
  dict_lookup k (remove_format_path_items d) = Some (_remove_format_path v).
Proof.
  intros Hk Hkeep. induction d as [| [k0 v0] d IH]; [discriminate Hk |].
  rewrite remove_format_path_items_cons. simpl in Hk.
  destruct (String.eqb k k0) eqn:Hkk0.
  - apply String.eqb_eq in Hkk0. subst k0. injection Hk as ->.
    rewrite Hkeep. simpl. now rewrite String.eqb_refl.
  - destruct (String.eqb k0 "format" && equals_str v0 "path");
      [exact (IH Hk) |].
    simpl. rewrite Hkk0. exact (IH Hk).
Qed.

(** [_remove_format_path] keeps every other entry of a dict under its
    key, with the value cleaned in turn, and adds no key. *)
Theorem remove_format_path_keeps (d : pydict) (k : string) :
  (dict_lookup k d = None ->
   dict_lookup k (remove_format_path_items d) = None)
  /\ (forall v,
        dict_lookup k d = Some v ->
        String.eqb k "format" && equals_str v "path" = false ->
        dict_lookup k (remove_format_path_items d)
        = Some (_remove_format_path v)).
Proof.
  split; [| intros v; apply remove_format_path_lookup].
  induction d as [| [k0 v0] d IH]; [reflexivity |].
  rewrite remove_format_path_items_cons. simpl.
  destruct (String.eqb k k0) eqn:Hkk0; [discriminate |]. intros Hk.
  destruct (String.eqb k0 "format" && equals_str v0 "path");
    [exact (IH Hk) |].
  simpl. rewrite Hkk0. exact (IH Hk).
Qed.

Lemma remove_format_path_keeps_witness :
  dict_lookup "title"
    (remove_format_path_items
       [("format", PStr "path"); ("type", PStr "string")]) = None
  /\ dict_lookup "type"
       (remove_format_path_items
          [("format", PStr "path"); ("type", PStr "string")])
     = Some (PStr "string")
  /\ dict_lookup "format"
       (remove_format_path_items [("format", PStr "uri")])
     = Some (PStr "uri").
Proof.
  split; [| split].
  - apply (proj1 (remove_format_path_keeps
                    [("format", PStr "path"); ("type", PStr "string")]
                    "title")).
    reflexivity.
  - apply (proj2 (remove_format_path_keeps
                    [("format", PStr "path"); ("type", PStr "string")]
                    "type") (PStr "string")); reflexivity.
  - apply (proj2 (remove_format_path_keeps [("format", PStr "uri")]
                    "format") (PStr "uri")); reflexivity.
Defined.



(** After [_remove_discriminator_mapping] has returned, the discriminator
    of its result has no mapping, so a second call on the result raises
    a [KeyError]. *)
Theorem remove_discriminator_mapping_twice (obj obj' : pyval)
    (discriminator : pydict) :
  _remove_discriminator_mapping obj = Ok obj' ->
  get_at ["discriminator"] obj = Ok (PDict discriminator) ->
  keys_unique discriminator = true ->
  get_at ["discriminator"] obj'
  = Ok (PDict (dict_del "mapping" discriminator))
  /\ get_at ["discriminator"; "mapping"] obj'
     = Raise (mkExn KeyError "mapping")
  /\ _remove_discriminator_mapping obj' = Raise (mkExn KeyError "mapping").
Proof.
  unfold _remove_discriminator_mapping. intros Hrun Hdisc Hunique.
  destruct (del_at ["discriminator"] "mapping" obj) as [obj1 |] eqn:Hdel1;
    [| discriminate Hrun].
  cbn [rbind] in Hrun.
  destruct (del_at_inner _ _ _ _ Hdel1) as (d & Hget & _ & Hget1).
  rewrite Hdisc in Hget. injection Hget as <-.
  assert (Hget' : get_at ["discriminator"] obj'
                  = Ok (PDict (dict_del "mapping" discriminator))).
  { rewrite <- Hget1.
    apply (del_at_frame _ _ _ _ ["discriminator"] Hrun). reflexivity. }
  pose proof (dict_has_del_unique "mapping" discriminator Hunique) as Hgone.
  split; [exact Hget' | split].
  - change (get_at ["discriminator"; "mapping"] obj')
      with (inner <- subscript obj' "discriminator" ;;
            get_at ["mapping"] inner)%result.
    simpl in Hget'.
    destruct (subscript obj' "discriminator") as [inner |];
      [| discriminate Hget'].
    injection Hget' as ->. simpl. unfold dict_has in Hgone.
    now destruct (dict_lookup "mapping" (dict_del "mapping" discriminator)).
  - now rewrite (del_at_missing _ _ _ _ Hget' Hgone).
Qed.

Lemma remove_discriminator_mapping_twice_witness :
  exists obj',
    _remove_discriminator_mapping (PDict example_schema) = Ok obj'
    /\ get_at ["discriminator"] obj'
       = Ok (PDict [("propertyName", PStr "class")])
    /\ _remove_discriminator_mapping obj' = Raise (mkExn KeyError "mapping").
Proof.
  eexists. split; [vm_compute; reflexivity |].
  destruct (remove_discriminator_mapping_twice (PDict example_schema) _
              [("mapping", PDict [("case", PStr "#/$defs/CaseMetadata")]);
               ("propertyName", PStr "class")]
              eq_refl eq_refl eq_refl) as (Hget & _ & Htwice).
  split; [exact Hget | exact Htwice].
Defined.

Lemma dict_lookup_app (k : string) (d1 d2 : pydict) :
  dict_lookup k (List.app d1 d2)
  = match dict_lookup k d1 with
    | Some v => Some v
    | None => dict_lookup k d2
    end.
Proof.
  induction d1 as [| [k0 v0] d1 IH]; simpl; [reflexivity |].
  now destruct (String.eqb k k0).
Qed.

(** A key read from [dict(ChainMap(a, b))] has the value of [a], and
    that of [b] where [a] has none. *)
Lemma ChainMap_dict_lookup (a b : pydict) (k : string) :
  dict_lookup k (ChainMap_dict a b)
  = match dict_lookup k a with
    | Some v => Some v
    | None => dict_lookup k b
    end.
Proof.
  unfold ChainMap_dict. rewrite dict_lookup_app.
  assert (Hb : dict_lookup k
                 (map (fun kv => (fst kv,
                                  match dict_lookup (fst kv) a with
                                  | Some v => v
                                  | None => snd kv
                                  end)) b)
               = match dict_lookup k b with
                 | Some v => Some match dict_lookup k a with
                                  | Some x => x
                                  | None => v
                                  end
                 | None => None
                 end).
  { induction b as [| [k0 v0] b IH]; simpl; [reflexivity |].
    destruct (String.eqb k k0) eqn:Hk; [| exact IH].
    apply String.eqb_eq in Hk. now subst k0. }
  rewrite Hb. clear Hb. destruct (dict_lookup k b) as [v |] eqn:Hkb.
  - now destruct (dict_lookup k a).
  - induction a as [| [k0 v0] a IH]; simpl; [reflexivity |].
    destruct (String.eqb k k0) eqn:Hk.
    + apply String.eqb_eq in Hk. subst k0. unfold dict_has. rewrite Hkb.
      simpl. now rewrite String.eqb_refl.
    + destruct (negb (dict_has k0 b)); [| exact IH].
      simpl. rewrite Hk. exact IH.
Qed.

(** [dump] needs the discriminator pydantic writes at the top of the
    schema of [Root]: without it the call raises a [KeyError]. When it
    returns, the schema carries the identifier, the schema dialect and the
    contractual keys of [dump] itself, whatever pydantic's schema holds
    under these keys, and no entry ["format": "path"]. *)
Theorem dump_header_first (Root_model_json_schema : pydict) :
  (dict_has "discriminator" Root_model_json_schema = false ->
   dump Root_model_json_schema = Raise (mkExn KeyError "discriminator"))
  /\ (forall schema,
        dump Root_model_json_schema = Ok schema ->
        subscript schema "$id" = Ok (PStr "fmu_meta.json")
        /\ subscript schema "$schema"
           = Ok (PStr "https://json-schema.org/draft/2020-12/schema")
        /\ subscript schema "$contractual"
           = Ok (dict_get "$contractual" dump_header)
        /\ has_format_path schema = false).
Proof.
  unfold dump, _remove_discriminator_mapping. split.
  - intros Hnone. cbn [del_at]. rewrite ChainMap_dict_lookup.
    unfold dict_has in Hnone. cbn [dict_lookup dump_header String.eqb Ascii.eqb Bool.eqb].
    destruct (dict_lookup "discriminator" Root_model_json_schema);
      [discriminate Hnone | reflexivity].
  - intros schema Hrun.
    destruct (del_at ["discriminator"] "mapping"
                (PDict (ChainMap_dict dump_header Root_model_json_schema)))
      as [obj1 |] eqn:Hdel1; [| discriminate Hrun].
    cbn [rbind] in Hrun.
    destruct (del_at ["$defs"; "AnyData"; "discriminator"] "mapping" obj1)
      as [obj2 |] eqn:Hdel2; [| discriminate Hrun].
    cbn [rbind] in Hrun. injection Hrun as <-.
    assert (Hkept : forall k v,
               dict_lookup k dump_header = Some v ->
               String.eqb "discriminator" k = false ->
               String.eqb "$defs" k = false ->
               String.eqb k "format" = false ->
               subscript (_remove_format_path obj2) k
               = Ok (_remove_format_path v)).
    { intros k v Hk Hk1 Hk2 Hk3.
      assert (Hget : get_at [k] obj2 = Ok v).
      { rewrite (del_at_frame _ _ _ _ [k] Hdel2)
          by (cbn [diverge List.app]; now rewrite Hk2).
        rewrite (del_at_frame _ _ _ _ [k] Hdel1)
          by (cbn [diverge List.app]; now rewrite Hk1).
        cbn [get_at subscript]. now rewrite ChainMap_dict_lookup, Hk. }
      destruct obj2 as [| | | | | | | d2]; try discriminate Hget.
      simpl in Hget.
      destruct (dict_lookup k d2) as [x |] eqn:Hx; [| discriminate Hget].
      injection Hget as ->. rewrite remove_format_path_dict.
      apply subscript_dict. apply remove_format_path_lookup; [exact Hx |].
      now rewrite Hk3. }
    split; [| split; [| split]].
    + exact (Hkept "$id" (PStr "fmu_meta.json") eq_refl eq_refl eq_refl
               eq_refl).
    + exact (Hkept "$schema" _ eq_refl eq_refl eq_refl eq_refl).
    + rewrite (Hkept "$contractual" _ eq_refl eq_refl eq_refl eq_refl).
      reflexivity.
    + apply remove_format_path_clean.
Qed.

Lemma dump_header_first_witness :
  dump [("title", PStr "Root")] = Raise (mkExn KeyError "discriminator")
  /\ exists schema,
       dump example_schema = Ok schema
       /\ subscript schema "$id" = Ok (PStr "fmu_meta.json")
       /\ has_format_path schema = false.
Proof.
  split.
  - apply (proj1 (dump_header_first [("title", PStr "Root")])). reflexivity.
  - eexists. split; [vm_compute; reflexivity |].
    destruct (proj2 (dump_header_first example_schema) _ eq_refl)
      as (Hid & _ & _ & Hclean).
    split; [exact Hid | exact Hclean].
Defined.

(** ** The metadata of an aggregation *)

Lemma get_at_snoc (path : list string) (k : string) (doc : pyval) :
  get_at (List.app path [k]) doc
  = (inner <- get_at path doc ;; subscript inner k)%result.
Proof.
  revert doc. induction path as [| p path IH]; intros doc; simpl.
  - now destruct (subscript doc k).
  - destruct (subscript doc p) as [inner |]; simpl; [apply IH | reflexivity].
Qed.

Lemma lift_ok_inv {S A : Type} (r : result A) (s s' : S) (a : A) :
  lift r s = (Ok a, s') -> r = Ok a /\ s' = s.
Proof. unfold lift. intros H. injection H as -> <-. now split. Qed.

Lemma aggregated_in_world_inv {A : Type} (m : M World A)
    (s s' : AggregatedData.state) (r : result A) :
  AggregatedData.in_world m s = (r, s') ->
  exists w', m (AggregatedData.world s) = (r, w')
             /\ s' = AggregatedData.mkState (AggregatedData.self s) w'.
Proof.
  unfold AggregatedData.in_world.
  destruct (m (AggregatedData.world s)) as [r' w']. intros H.
  injection H as <- <-. eauto.
Qed.

Lemma realization_chain (conf : pyval) :
  (fmu <- subscript conf "fmu" ;;
   realization <- subscript fmu "realization" ;;
   rid <- subscript realization "id" ;;
   xuuid <- subscript realization "uuid" ;;
   Ok (rid, xuuid))%result
  = match get_at ["fmu"; "realization"; "id"] conf,
          get_at ["fmu"; "realization"; "uuid"] conf with
    | Ok rid, Ok xuuid => Ok (rid, xuuid)
    | Raise e, _ => Raise e
    | Ok _, Raise e => Raise e
    end.
Proof.
  simpl. destruct (subscript conf "fmu") as [fmu |]; simpl; [| reflexivity].
  destruct (subscript fmu "realization") as [realization |]; simpl;
    [| reflexivity].
  destruct (subscript realization "id") as [rid |]; simpl; [| reflexivity].
  now destruct (subscript realization "uuid").
Qed.

(** The loop over the source documents returns for the documents that
    name their realization, and raises a [ValidationError] otherwise. *)
Lemma realization_ids_uuids_names (confs : list pyval) :
  match AggregatedData.realization_ids_uuids confs with
  | Ok ids =>
      forallb names_realization confs = true
      /\ map (get_at ["fmu"; "realization"; "id"]) confs = map Ok (fst ids)
      /\ map (get_at ["fmu"; "realization"; "uuid"]) confs
         = map Ok (snd ids)
  | Raise e =>
      forallb names_realization confs = false
      /\ exists detail,
           e = mkExn ValidationError
                 ("Seems that input config are not valid: " ++ detail)
  end.
Proof.
  induction confs as [| conf confs IH]; [now repeat split |].
  cbn [AggregatedData.realization_ids_uuids forallb map].
  rewrite realization_chain.
  assert (Hconf : names_realization conf
                  = match get_at ["fmu"; "realization"; "id"] conf,
                          get_at ["fmu"; "realization"; "uuid"] conf with
                    | Ok _, Ok _ => true
                    | _, _ => false
                    end) by reflexivity.
  rewrite Hconf. clear Hconf.
  destruct (get_at ["fmu"; "realization"; "id"] conf) as [rid |];
    [| split; [reflexivity | eexists; reflexivity]].
  destruct (get_at ["fmu"; "realization"; "uuid"] conf) as [xuuid |];
    [| split; [reflexivity | eexists; reflexivity]].
  destruct (AggregatedData.realization_ids_uuids confs) as [[ids uuids] | e];
    cbn [rbind fst snd map andb].
  - destruct IH as (Hall & Hids & Huuids).
    now rewrite Hall, Hids, Huuids.
  - destruct IH as (Hall & Hdetail). now rewrite Hall.
Qed.

Lemma set_at_get_same (path : list string) (k : string)
    (v doc doc' : pyval) :
  set_at path k v doc = Ok doc' -> get_at (List.app path [k]) doc' = Ok v.
Proof.
  intros H. destruct (set_at_inner _ _ _ _ _ H) as (d & _ & Hget).
  rewrite get_at_snoc, Hget. cbn [rbind subscript].
  now rewrite dict_lookup_set_same.
Qed.

Lemma optional_lift_inv {S A : Type} (b : bool) (r : result A) (a a' : A)
    (s s' : S) :
  (if b then lift r else ret a) s = (Ok a', s') ->
  s' = s /\ (if b then r else Ok a) = Ok a'.
Proof.
  destruct b; intros H.
  - apply lift_ok_inv in H. now destruct H.
  - injection H as <- <-. now split.
Qed.

(** A step that may assign at a key path leaves as it is what is read
    along a path that parts ways with it. *)
Lemma optional_set_at_inv {S : Type} (b : bool) (path : list string)
    (k : string) (v t t' : pyval) (s s' : S) :
  (if b then lift (set_at path k v t) else ret t) s = (Ok t', s') ->
  s' = s
  /\ (b = true -> set_at path k v t = Ok t')
  /\ (forall q, diverge (List.app path [k]) q = true ->
                get_at q t' = get_at q t).
Proof.
  destruct b; intros H.
  - apply lift_ok_inv in H. destruct H as [H ->].
    split; [reflexivity | split; [intros _; exact H |]].
    intros q Hq. exact (set_at_frame _ _ _ _ _ q H Hq).
  - injection H as <- <-. split; [reflexivity | split; [discriminate |]].
    reflexivity.
Qed.

(** One step of a run that has returned: the value and the state the
    step gave, and the rest of the run. *)
Ltac bind_step H x s Hx :=
  apply bind_ok_inv in H; destruct H as (x & s & Hx & H).

(** A step that only computes. *)
Ltac lift_step H x Hx :=
  let s := fresh "s" in
  bind_step H x s Hx; apply lift_ok_inv in Hx; destruct Hx as [Hx ->].

(** A step of [AggregatedData] in the process environment. *)
Ltac aggregated_world_step H x w Hx :=
  let s := fresh "s" in
  bind_step H x s Hx; apply aggregated_in_world_inv in Hx;
  destruct Hx as (w & Hx & ->).

Section AggregatedFacts.

Variable uuid_from_string : string -> string.
Variable filter_validate_metadata : pyval -> pyval.
Variable Obj : Type.
Variable export_metadata :
  pyval -> string -> pyval -> Obj -> bool -> M World pyval.
Variable drop_nones : pyval -> pyval.


(** An aggregation id given to the instance is kept by
    [_generate_aggrd_metadata], whether it returns or raises. *)
Theorem aggregated_explicit_id_kept (obj : Obj) (real_ids uuids : list pyval)
    (compute_md5 : bool) (s : AggregatedData.state) (id : string) :
  AggregatedData.aggregation_id (AggregatedData.self s) = PStr id ->
  AggregatedData.aggregation_id
    (AggregatedData.self
       (snd (AggregatedData._generate_aggrd_metadata uuid_from_string
               filter_validate_metadata Obj export_metadata obj real_ids
               uuids compute_md5 s)))
  = PStr id.
Proof.
  intros Hid.
  assert (Hkeep : preserves (aggregation_id_is (PStr id))
                    (AggregatedData._generate_aggrd_metadata
                       uuid_from_string filter_validate_metadata Obj
                       export_metadata obj real_ids uuids compute_md5)).
  { unfold AggregatedData._generate_aggrd_metadata.
    intros s0 Hs0. unfold bind at 1. cbn [get_state].
    unfold aggregation_id_is in Hs0. rewrite Hs0.
    unfold bind at 1. cbn [ret].
    revert s0 Hs0. fold (aggregation_id_is (PStr id)).
    match goal with
    | |- forall s0, _ -> aggregation_id_is _ (snd (?rest s0)) =>
        change (preserves (aggregation_id_is (PStr id)) rest)
    end.
    keep_id. }
  exact (Hkeep s Hid).
Qed.

(** The first step of [_generate_aggrd_metadata]: when it returns, the
    instance has a string for its aggregation id and is otherwise as it
    was. *)
Lemma aggregated_id_step (uuids : list pyval) (s s1 : AggregatedData.state) :
  match AggregatedData.aggregation_id (AggregatedData.self s) with
  | PNone =>
      (us <- lift (as_strings uuids) ;;
       AggregatedData.set_aggregation_id
         (PStr (AggregatedData._generate_aggr_uuid uuid_from_string us)))%M
  | PStr _ => ret tt
  | _ => throw ValueError "aggregation_id must be a string"
  end s = (Ok tt, s1) ->
  exists id, s1 = with_aggregation_id (PStr id) s.
Proof.
  destruct s as [[id casepath sources name operation tagname verbosity
                   meta_format doc] w].
  cbn [AggregatedData.self AggregatedData.aggregation_id].
  destruct id as [| | | id | | | |]; intros H; try discriminate H.
  - lift_step H us Hus. injection H as <-. eexists. reflexivity.
  - injection H as <-. now exists id.
Qed.

(** A run of [_generate_aggrd_metadata] that returns, step by step: the
    id, the first source document, the paths of [_construct_filename],
    and the template after each group of assignments. *)
Lemma generate_aggrd_metadata_run (obj : Obj) (real_ids uuids : list pyval)
    (compute_md5 : bool) (s s' : AggregatedData.state) :
  AggregatedData._generate_aggrd_metadata uuid_from_string
    filter_validate_metadata Obj export_metadata obj real_ids uuids
    compute_md5 s = (Ok tt, s') ->
  exists id source rest paths w1 t1 t2 t5 t6 etempmeta t8 t9 t10 t11 t12,
    AggregatedData.aggregation_id (AggregatedData.self s') = PStr id
    /\ AggregatedData.source_metadata (AggregatedData.self s)
       = source :: rest
    /\ AggregatedData._construct_filename
         (AggregatedData.self (with_aggregation_id (PStr id) s))
         (filter_validate_metadata source) (AggregatedData.world s)
       = (Ok paths, w1)
    /\ del_at ["fmu"] "realization" (filter_validate_metadata source) = Ok t1
    /\ set_at ["fmu"] "aggregation" (PDict []) t1 = Ok t2
    /\ (t3 <- set_at ["fmu"; "aggregation"] "operation"
                (PStr (AggregatedData.operation (AggregatedData.self s)))
                t2 ;;
        t4 <- set_at ["fmu"; "aggregation"] "realization_ids"
                (PList real_ids) t3 ;;
        set_at ["fmu"; "aggregation"] "id" (PStr id) t4)%result = Ok t5
    /\ set_at ["fmu"; "context"] "stage" (PStr "iteration") t5 = Ok t6
    /\ (tracklog <- subscript etempmeta "tracklog" ;;
        t7 <- set_at [] "tracklog" tracklog t6 ;;
        file <- subscript etempmeta "file" ;;
        set_at [] "file" file t7)%result = Ok t8
    /\ set_at ["file"] "relative_path" (PStr (path_str (fst paths))) t8
       = Ok t9
    /\ set_at ["file"] "absolute_path"
         match snd paths with
         | Some abspath => PStr (path_str abspath)
         | None => PNone
         end t9 = Ok t10
    /\ (if truthy (PStr (AggregatedData.name (AggregatedData.self s)))
        then set_at ["data"] "name"
               (PStr (AggregatedData.name (AggregatedData.self s))) t10
        else Ok t10) = Ok t11
    /\ (if truthy (PStr (AggregatedData.tagname (AggregatedData.self s)))
        then set_at ["data"] "tagname"
               (PStr (AggregatedData.tagname (AggregatedData.self s))) t11
        else Ok t11) = Ok t12
    /\ forall q, diverge ["data"; "bbox"] q = true ->
                 get_at q (AggregatedData._metadata (AggregatedData.self s'))
                 = get_at q t12.
Proof.
  intros Hrun. unfold AggregatedData._generate_aggrd_metadata in Hrun.
  bind_step Hrun s0 s0' Hget. injection Hget as <- <-.
  bind_step Hrun u s1 Hid. destruct u.
  apply aggregated_id_step in Hid. destruct Hid as (id & ->).
  bind_step Hrun s1 s1' Hget. injection Hget as <- <-.
  cbv zeta in Hrun.
  cbn [with_aggregation_id AggregatedData.self AggregatedData.world
       AggregatedData.operation AggregatedData.source_metadata
       AggregatedData.aggregation_id AggregatedData.name
       AggregatedData.tagname] in Hrun.
  destruct (negb (truthy (PStr (AggregatedData.operation
                                  (AggregatedData.self s)))));
    [discriminate Hrun |].
  lift_step Hrun source Hsource.
  destruct (AggregatedData.source_metadata (AggregatedData.self s))
    as [| source' rest] eqn:Hsources; [discriminate Hsource |].
  injection Hsource as ->.
  aggregated_world_step Hrun paths w1 Hpaths.
  lift_step Hrun t1 Ht1. lift_step Hrun t2 Ht2. lift_step Hrun t3 Ht3.
  lift_step Hrun t4 Ht4. lift_step Hrun t5 Ht5. lift_step Hrun t6 Ht6.
  lift_step Hrun access Haccess. lift_step Hrun masterdata Hmasterdata.
  lift_step Hrun model_ Hmodel. lift_step Hrun content Hcontent.
  aggregated_world_step Hrun etempmeta w2 Hetemp.
  lift_step Hrun tracklog Htracklog. lift_step Hrun t7 Ht7.
  lift_step Hrun file Hfile. lift_step Hrun t8 Ht8.
  lift_step Hrun t9 Ht9. lift_step Hrun t10 Ht10.
  bind_step Hrun t11 s11 Ht11.
  apply optional_lift_inv in Ht11. destruct Ht11 as [-> Ht11].
  bind_step Hrun t12 s12 Ht12.
  apply optional_lift_inv in Ht12. destruct Ht12 as [-> Ht12].
  lift_step Hrun bbox Hbbox.
  bind_step Hrun t13 s13 Ht13.
  apply optional_set_at_inv in Ht13. destruct Ht13 as (-> & _ & Ht13).
  injection Hrun as <-.
  cbn [AggregatedData.self AggregatedData._metadata
       AggregatedData.aggregation_id].
  exists id, source, rest, paths, w1, t1, t2, t5, t6, etempmeta, t8, t9, t10,
    t11, t12.
  rewrite Ht3. cbn [rbind]. rewrite Ht4. cbn [rbind].
  rewrite Htracklog. cbn [rbind]. rewrite Ht7. cbn [rbind].
  rewrite Hfile. cbn [rbind].
  repeat (split; [first [reflexivity | assumption] |]).
  exact Ht13.
Qed.

(** Reading a document after an assignment that may have been left
    out. *)
Lemma optional_set_frame (b : bool) (path : list string) (k : string)
    (v t t' : pyval) (q : list string) :
  (if b then set_at path k v t else Ok t) = Ok t' ->
  diverge (List.app path [k]) q = true ->
  get_at q t' = get_at q t.
Proof.
  destruct b; intros H Hq.
  - exact (set_at_frame _ _ _ _ _ q H Hq).
  - now injection H as <-.
Qed.

(** What [_generate_aggrd_metadata] leaves in the [fmu] block of the
    metadata when it returns: an [aggregation] block with the operation,
    the realization ids and the aggregation id of the instance, in this
    order, and the context stage [iteration]; the [realization] block of
    the template is gone. *)
Theorem aggregated_metadata_fmu_block (obj : Obj)
    (real_ids uuids : list pyval) (compute_md5 : bool)
    (s s' : AggregatedData.state) :
  AggregatedData._generate_aggrd_metadata uuid_from_string
    filter_validate_metadata Obj export_metadata obj real_ids uuids
    compute_md5 s = (Ok tt, s') ->
  exists id source rest fmu,
    AggregatedData.aggregation_id (AggregatedData.self s') = PStr id
    /\ AggregatedData.source_metadata (AggregatedData.self s)
       = source :: rest
    /\ get_at ["fmu"] (filter_validate_metadata source) = Ok (PDict fmu)
    /\ get_at ["fmu"; "aggregation"]
         (AggregatedData._metadata (AggregatedData.self s'))
       = Ok (PDict
               [("operation",
                 PStr (AggregatedData.operation (AggregatedData.self s)));
                ("realization_ids", PList real_ids);
                ("id", PStr id)])
    /\ get_at ["fmu"; "context"; "stage"]
         (AggregatedData._metadata (AggregatedData.self s'))
       = Ok (PStr "iteration")
    /\ (keys_unique fmu = true ->
        get_at ["fmu"; "realization"]
          (AggregatedData._metadata (AggregatedData.self s'))
        = Raise (mkExn KeyError "realization")).
Proof.
  intros Hrun.
  destruct (generate_aggrd_metadata_run _ _ _ _ _ _ Hrun)
    as (id & source & rest & paths & w1 & t1 & t2 & t5 & t6 & etempmeta
        & t8 & t9 & t10 & t11 & t12 & Hid & Hsources & _ & Ht1 & Ht2 & Ht5
        & Ht6 & Ht8 & Ht9 & Ht10 & Ht11 & Ht12 & Hdoc).
  destruct (del_at_inner _ _ _ _ Ht1) as (fmu & Hfmu & _ & Hfmu1).
  exists id, source, rest, fmu.
  split; [exact Hid | split; [exact Hsources | split; [exact Hfmu |]]].
  destruct (set_at ["fmu"; "aggregation"] "operation"
              (PStr (AggregatedData.operation (AggregatedData.self s))) t2)
    as [t3 |] eqn:Ht3; [| discriminate Ht5].
  cbn [rbind] in Ht5.
  destruct (set_at ["fmu"; "aggregation"] "realization_ids" (PList real_ids)
              t3) as [t4 |] eqn:Ht4; [| discriminate Ht5].
  cbn [rbind] in Ht5.
  destruct (subscript etempmeta "tracklog") as [tracklog |];
    [| discriminate Ht8].
  cbn [rbind] in Ht8.
  destruct (set_at [] "tracklog" tracklog t6) as [t7 |] eqn:Ht7;
    [| discriminate Ht8].
  cbn [rbind] in Ht8.
  destruct (subscript etempmeta "file") as [file |]; [| discriminate Ht8].
  cbn [rbind] in Ht8.
  assert (Hlater : forall q,
             diverge ["tracklog"] q = true ->
             diverge ["file"] q = true ->
             diverge ["data"] q = true ->
             get_at q (AggregatedData._metadata (AggregatedData.self s'))
             = get_at q t6).
  { intros q Hq1 Hq2 Hq3.
    assert (Hdata : forall k, diverge (List.app ["data"] [k]) q = true).
    { intros k. destruct q as [| b q]; [discriminate Hq3 |].
      cbn [diverge List.app] in *.
      now destruct (String.eqb "data" b). }
    assert (Hfile' : forall k, diverge (List.app ["file"] [k]) q = true).
    { intros k. destruct q as [| b q]; [discriminate Hq2 |].
      cbn [diverge List.app] in *.
      now destruct (String.eqb "file" b). }
    rewrite Hdoc by apply (Hdata "bbox").
    rewrite (optional_set_frame _ _ _ _ _ _ q Ht12) by apply Hdata.
    rewrite (optional_set_frame _ _ _ _ _ _ q Ht11) by apply Hdata.
    rewrite (set_at_frame _ _ _ _ _ q Ht10) by apply Hfile'.
    rewrite (set_at_frame _ _ _ _ _ q Ht9) by apply Hfile'.
    rewrite (set_at_frame _ _ _ _ _ q Ht8) by exact Hq2.
    exact (set_at_frame _ _ _ _ _ q Ht7 Hq1). }
  split; [| split].
  - rewrite Hlater by reflexivity.
    rewrite (set_at_frame _ _ _ _ _ _ Ht6) by reflexivity.
    destruct (set_at_inner _ _ _ _ _ Ht5) as (d5 & Hd4 & ->).
    destruct (set_at_inner _ _ _ _ _ Ht4) as (d4 & Hd3 & Hd4').
    destruct (set_at_inner _ _ _ _ _ Ht3) as (d3 & Hd2 & Hd3').
    pose proof (set_at_get_same _ _ _ _ _ Ht2) as Hd2'.
    cbn [List.app] in Hd2'. rewrite Hd2' in Hd2. injection Hd2 as <-.
    rewrite Hd3' in Hd3. injection Hd3 as <-.
    rewrite Hd4' in Hd4. injection Hd4 as <-.
    reflexivity.
  - rewrite Hlater by reflexivity.
    exact (set_at_get_same _ _ _ _ _ Ht6).
  - intros Hunique. rewrite Hlater by reflexivity.
    rewrite (set_at_frame _ _ _ _ _ _ Ht6) by reflexivity.
    rewrite (set_at_frame _ _ _ _ _ _ Ht5) by reflexivity.
    rewrite (set_at_frame _ _ _ _ _ _ Ht4) by reflexivity.
    rewrite (set_at_frame _ _ _ _ _ _ Ht3) by reflexivity.
    rewrite (set_at_frame _ _ _ _ _ _ Ht2) by reflexivity.
    change ["fmu"; "realization"] with (List.app ["fmu"] ["realization"]).
    rewrite get_at_snoc, Hfmu1. cbn [rbind subscript].
    pose proof (dict_has_del_unique "realization" fmu Hunique) as Hgone.
    unfold dict_has in Hgone.
    now destruct (dict_lookup "realization" (dict_del "realization" fmu)).
Qed.

(** What [_generate_aggrd_metadata] leaves in the [file] and [data]
    blocks when it returns: the two paths [_construct_filename] gives for
    the first source document ([None] for the absolute path when there is
    none), and the name and the tagname of the instance where they are
    set. *)
Theorem aggregated_metadata_file_block (obj : Obj)
    (real_ids uuids : list pyval) (compute_md5 : bool)
    (s s' : AggregatedData.state) :
  AggregatedData._generate_aggrd_metadata uuid_from_string
    filter_validate_metadata Obj export_metadata obj real_ids uuids
    compute_md5 s = (Ok tt, s') ->
  exists id source rest paths w1,
    AggregatedData.source_metadata (AggregatedData.self s) = source :: rest
    /\ AggregatedData._construct_filename
         (AggregatedData.self (with_aggregation_id (PStr id) s))
         (filter_validate_metadata source) (AggregatedData.world s)
       = (Ok paths, w1)
    /\ get_at ["file"; "relative_path"]
         (AggregatedData._metadata (AggregatedData.self s'))
       = Ok (PStr (path_str (fst paths)))
    /\ get_at ["file"; "absolute_path"]
         (AggregatedData._metadata (AggregatedData.self s'))
       = Ok match snd paths with
            | Some abspath => PStr (path_str abspath)
            | None => PNone
            end
    /\ (AggregatedData.name (AggregatedData.self s) <> "" ->
        get_at ["data"; "name"]
          (AggregatedData._metadata (AggregatedData.self s'))
        = Ok (PStr (AggregatedData.name (AggregatedData.self s))))
    /\ (AggregatedData.tagname (AggregatedData.self s) <> "" ->
        get_at ["data"; "tagname"]
          (AggregatedData._metadata (AggregatedData.self s'))
        = Ok (PStr (AggregatedData.tagname (AggregatedData.self s)))).
Proof.
  intros Hrun.
  destruct (generate_aggrd_metadata_run _ _ _ _ _ _ Hrun)
    as (id & source & rest & paths & w1 & t1 & t2 & t5 & t6 & etempmeta
        & t8 & t9 & t10 & t11 & t12 & _ & Hsources & Hpaths & _ & _ & _
        & _ & _ & Ht9 & Ht10 & Ht11 & Ht12 & Hdoc).
  exists id, source, rest, paths, w1.
  split; [exact Hsources | split; [exact Hpaths |]].
  split; [| split; [| split]].
  - rewrite Hdoc by reflexivity.
    rewrite (optional_set_frame _ _ _ _ _ _ _ Ht12) by reflexivity.
    rewrite (optional_set_frame _ _ _ _ _ _ _ Ht11) by reflexivity.
    rewrite (set_at_frame _ _ _ _ _ _ Ht10) by reflexivity.
    exact (set_at_get_same _ _ _ _ _ Ht9).
  - rewrite Hdoc by reflexivity.
    rewrite (optional_set_frame _ _ _ _ _ _ _ Ht12) by reflexivity.
    rewrite (optional_set_frame _ _ _ _ _ _ _ Ht11) by reflexivity.
    exact (set_at_get_same _ _ _ _ _ Ht10).
  - intros Hname. rewrite Hdoc by reflexivity.
    rewrite (optional_set_frame _ _ _ _ _ _ _ Ht12) by reflexivity.
    apply String.eqb_neq in Hname. cbn [truthy] in Ht11.
    rewrite Hname in Ht11. exact (set_at_get_same _ _ _ _ _ Ht11).
  - intros Htag. rewrite Hdoc by reflexivity.
    apply String.eqb_neq in Htag. cbn [truthy] in Ht12.
    rewrite Htag in Ht12. exact (set_at_get_same _ _ _ _ _ Ht12).
Qed.

(** With no source document at all (after the keyword settings of the
    call are applied), [generate_metadata] derives the aggregation id
    from no UUID, stores it in the instance, and then raises: a
    [ValueError] when the operation is empty, an [IndexError] for the
    missing first document otherwise. *)
Theorem aggregated_no_sources (obj : Obj) (compute_md5 skip_null : bool)
    (kwargs : pydict) (s s0 : AggregatedData.state) :
  AggregatedData._update_settings kwargs s = (Ok tt, s0) ->
  AggregatedData.source_metadata (AggregatedData.self s0) = [] ->
  AggregatedData.aggregation_id (AggregatedData.self s0) = PNone ->
  AggregatedData.generate_metadata uuid_from_string filter_validate_metadata
    Obj export_metadata drop_nones obj compute_md5 skip_null kwargs s
  = (Raise (if String.eqb (AggregatedData.operation (AggregatedData.self s0))
                          ""
            then mkExn ValueError "The 'operation' key has no value"
            else mkExn IndexError "list index out of range"),
     with_aggregation_id (PStr (uuid_from_string "")) s0).
Proof.
  intros Hsettings. unfold AggregatedData.generate_metadata.
  unfold bind at 1. rewrite Hsettings. clear Hsettings.
  destruct s0 as [[id casepath sources name operation tagname verbosity
                    meta_format doc] w].
  cbn [AggregatedData.self AggregatedData.source_metadata
       AggregatedData.aggregation_id AggregatedData.operation].
  intros -> ->.
  unfold AggregatedData._generate_aggrd_metadata, bind, get_state, lift.
  cbn [AggregatedData.self AggregatedData.source_metadata
       AggregatedData.aggregation_id AggregatedData.operation
       AggregatedData.realization_ids_uuids fst snd as_strings
       AggregatedData.set_aggregation_id modify truthy].
  destruct (String.eqb operation ""); reflexivity.
Qed.

(** When [generate_metadata] returns, the keyword settings of the call
    are applied, and [_generate_aggrd_metadata] has run on the instance
    they leave, with the realization ids and the UUIDs of its source
    documents, one for each document and in the order of the list; the
    document returned is the one the instance keeps, without its [None]
    values when [skip_null] is set. *)
Theorem aggregated_generate_metadata_sources (obj : Obj)
    (compute_md5 skip_null : bool) (kwargs : pydict)
    (s s' : AggregatedData.state) (doc : pyval) :
  AggregatedData.generate_metadata uuid_from_string filter_validate_metadata
    Obj export_metadata drop_nones obj compute_md5 skip_null kwargs s
  = (Ok doc, s') ->
  exists s0 ids uuids s1,
    AggregatedData._update_settings kwargs s = (Ok tt, s0)
    /\ map (get_at ["fmu"; "realization"; "id"])
         (AggregatedData.source_metadata (AggregatedData.self s0))
       = map Ok ids
    /\ map (get_at ["fmu"; "realization"; "uuid"])
         (AggregatedData.source_metadata (AggregatedData.self s0))
       = map Ok uuids
    /\ AggregatedData._generate_aggrd_metadata uuid_from_string
         filter_validate_metadata Obj export_metadata obj ids uuids
         compute_md5 s0 = (Ok tt, s1)
    /\ doc = (if skip_null
              then drop_nones
                     (AggregatedData._metadata (AggregatedData.self s1))
              else AggregatedData._metadata (AggregatedData.self s1))
    /\ AggregatedData._metadata (AggregatedData.self s') = doc.
Proof.
  intros Hrun. unfold AggregatedData.generate_metadata in Hrun.
  bind_step Hrun u s0 Hsettings. destruct u.
  bind_step Hrun s0' s0'' Hget. injection Hget as <- <-.
  lift_step Hrun ids Hloop.
  pose proof (realization_ids_uuids_names
                (AggregatedData.source_metadata (AggregatedData.self s0)))
    as Hnames.
  rewrite Hloop in Hnames. destruct Hnames as (_ & Hids & Huuids).
  bind_step Hrun u s1 Hgen. destruct u.
  bind_step Hrun u s2 Hnull. destruct u.
  bind_step Hrun s3 s3' Hget. injection Hget as <- <-.
  injection Hrun as <- <-.
  exists s0, (fst ids), (snd ids), s1.
  split; [exact Hsettings |].
  split; [exact Hids | split; [exact Huuids | split; [exact Hgen |]]].
  destruct skip_null; cbn [when] in Hnull.
  - bind_step Hnull s4 s4' Hget. injection Hget as <- <-.
    injection Hnull as <-. now split.
  - injection Hnull as <-. now split.
Qed.

End AggregatedFacts.


(** In the run above the source document has no [fmu.realization]: the
    error shows the key, in quotes. *)
Example aggregated_sources_missing_key :
  fst (AggregatedData.generate_metadata (fun s => s) (fun doc => doc) unit
         example_export_metadata spec_drop_nones tt false true
         [("name", PStr "aggr")] nameless_aggregation)
  = Raise (mkExn ValidationError
             "Seems that input config are not valid: 'realization'").
Proof. vm_compute. reflexivity. Qed.

Lemma aggregated_explicit_id_kept_witness :
  AggregatedData.aggregation_id
    (AggregatedData.self
       (snd (AggregatedData._generate_aggrd_metadata (fun s => s)
               (fun doc => doc) unit example_export_metadata tt [PInt 0]
               [PStr "29b15b21"] false
               (with_aggregation_id (PStr "given") example_aggregation))))
  = PStr "given".
Proof.
  apply (aggregated_explicit_id_kept (fun s => s) (fun doc => doc) unit
           example_export_metadata tt [PInt 0] [PStr "29b15b21"] false
           (with_aggregation_id (PStr "given") example_aggregation)).
  reflexivity.
Defined.

Lemma aggregated_metadata_fmu_block_witness :
  exists s' id,
    AggregatedData._generate_aggrd_metadata (fun s => s) (fun doc => doc)
      unit example_export_metadata tt [PInt 0] [PStr "29b15b21"] false
      example_aggregation = (Ok tt, s')
    /\ get_at ["fmu"; "aggregation"]
         (AggregatedData._metadata (AggregatedData.self s'))
       = Ok (PDict [("operation", PStr "mean");
                    ("realization_ids", PList [PInt 0]);
                    ("id", PStr id)])
    /\ get_at ["fmu"; "realization"]
         (AggregatedData._metadata (AggregatedData.self s'))
       = Raise (mkExn KeyError "realization").
Proof.
  eexists.
  assert (Hrun : AggregatedData._generate_aggrd_metadata (fun s => s)
                   (fun doc => doc) unit example_export_metadata tt [PInt 0]
                   [PStr "29b15b21"] false example_aggregation
                 = (Ok tt, _)) by (vm_compute; reflexivity).
  destruct (aggregated_metadata_fmu_block (fun s => s) (fun doc => doc) unit
              example_export_metadata tt [PInt 0] [PStr "29b15b21"] false
              example_aggregation _ Hrun)
    as (id & source & rest & fmu & _ & Hsources & Hfmu & Haggr & _ & Hgone).
  exists id. split; [exact Hrun | split; [exact Haggr |]].
  apply Hgone. injection Hsources as <- _.
  vm_compute in Hfmu. injection Hfmu as <-. reflexivity.
Defined.

Lemma aggregated_metadata_file_block_witness :
  exists s',
    AggregatedData._generate_aggrd_metadata (fun s => s) (fun doc => doc)
      unit example_export_metadata tt [PInt 0] [PStr "29b15b21"] false
      example_aggregation = (Ok tt, s')
    /\ get_at ["file"; "relative_path"]
         (AggregatedData._metadata (AggregatedData.self s'))
       = Ok (PStr "iter-0/share/results/maps/x--mean.gri")
    /\ get_at ["file"; "absolute_path"]
         (AggregatedData._metadata (AggregatedData.self s'))
       = Ok PNone.
Proof.
  eexists.
  assert (Hrun : AggregatedData._generate_aggrd_metadata (fun s => s)
                   (fun doc => doc) unit example_export_metadata tt [PInt 0]
                   [PStr "29b15b21"] false example_aggregation
                 = (Ok tt, _)) by (vm_compute; reflexivity).
  destruct (aggregated_metadata_file_block (fun s => s) (fun doc => doc) unit
              example_export_metadata tt [PInt 0] [PStr "29b15b21"] false
              example_aggregation _ Hrun)
    as (id & source & rest & paths & w1 & Hsources & Hpaths & Hrel & Habs
        & _).
  injection Hsources as <- _. vm_compute in Hpaths.
  injection Hpaths as <- _.
  split; [exact Hrun | split; [exact Hrel | exact Habs]].
Defined.

Lemma aggregated_generate_metadata_sources_witness :
  exists doc s' s0 s1,
    AggregatedData.generate_metadata (fun s => s) (fun doc => doc) unit
      example_export_metadata spec_drop_nones tt false false
      [("operation", PStr "mean")] unset_aggregation = (Ok doc, s')
    /\ AggregatedData.operation (AggregatedData.self s0) = "mean"
    /\ AggregatedData._generate_aggrd_metadata (fun s => s) (fun doc => doc)
         unit example_export_metadata tt [PInt 0]
         [PStr "29b15b21-ce13-471b-9a4a-0f791b1a0d29"] false
         s0 = (Ok tt, s1)
    /\ AggregatedData._metadata (AggregatedData.self s') = doc.
Proof.
  do 2 eexists.
  assert (Hrun : AggregatedData.generate_metadata (fun s => s)
                   (fun doc => doc) unit example_export_metadata
                   spec_drop_nones tt false false
                   [("operation", PStr "mean")] unset_aggregation
                 = (Ok _, _)) by (vm_compute; reflexivity).
  destruct (aggregated_generate_metadata_sources (fun s => s)
              (fun doc => doc) unit example_export_metadata spec_drop_nones
              tt false false [("operation", PStr "mean")] unset_aggregation
              _ _ Hrun)
    as (s0 & ids & uuids & s1 & Hsettings & Hids & Huuids & Hgen & _ & Hdoc).
  exists s0, s1. split; [exact Hrun |].
  injection Hsettings as <-.
  split; [reflexivity | split; [| exact Hdoc]].
  destruct ids as [| rid [| ? ?]]; try discriminate Hids.
  destruct uuids as [| xuuid [| ? ?]]; try discriminate Huuids.
  injection Hids as <-. injection Huuids as <-. exact Hgen.
Defined.

Lemma aggregated_no_sources_witness :
  AggregatedData.generate_metadata (fun s => s) (fun doc => doc) unit
    example_export_metadata spec_drop_nones tt false true
    [("source_metadata", PList [])] example_aggregation
  = (Raise (mkExn IndexError "list index out of range"),
     with_aggregation_id (PStr "") empty_aggregation).
Proof.
  apply (aggregated_no_sources (fun s => s) (fun doc => doc) unit
           example_export_metadata spec_drop_nones tt false true
           [("source_metadata", PList [])] example_aggregation
           empty_aggregation); reflexivity.
Defined.

(** A keyword that is no public attribute of the class stops
    [generate_metadata] before anything else is done. *)
Example aggregated_unknown_setting :
  AggregatedData.generate_metadata (fun s => s) (fun doc => doc) unit
    example_export_metadata spec_drop_nones tt false true
    [("_metadata", PDict [])] example_aggregation
  = (Raise (mkExn ValidationError "The input key '_metadata' is not supported"),
     example_aggregation).
Proof. vm_compute. reflexivity. Qed.

(** ** Settings updates of [ExportData] *)

Lemma validate_variable_true (key : string) (value : pyval)
    (legals : legals_t) (b : bool) :
  _validate_variable key value legals = Ok b -> b = true.
Proof.
  unfold _validate_variable.
  destruct (legals_lookup key legals) as [[ty | tys |] |].
  - destruct (isinstance value ty); [| discriminate]. now intros [= <-].
  - destruct (existsb (isinstance value) tys); [| discriminate].
    now intros [= <-].
  - now intros [= <-].
  - discriminate.
Qed.

Lemma set_all_get_other (settings attrs : pydict) (k : string) :
  dict_has k settings = false ->
  dict_get k (set_all settings attrs) = dict_get k attrs.
Proof.
  revert attrs. unfold dict_has.
  induction settings as [| [k0 v0] settings IH]; intros attrs Hk;
    [reflexivity |].
  simpl in Hk. destruct (String.eqb k k0) eqn:Hkk0; [discriminate Hk |].
  cbn [set_all fold_left fst snd]. fold (set_all settings (dict_set k0 v0 attrs)).
  rewrite (IH _ Hk). apply dict_get_set_other.
  apply String.eqb_neq in Hkk0. exact Hkk0.
Qed.

Lemma set_all_get (settings attrs : pydict) (k : string) (v : pyval) :
  keys_unique settings = true ->
  dict_lookup k settings = Some v ->
  dict_get k (set_all settings attrs) = v.
Proof.
  revert attrs.
  induction settings as [| [k0 v0] settings IH]; intros attrs Hu Hk;
    [discriminate Hk |].
  simpl in Hu. apply andb_true_iff in Hu. destruct Hu as [Hfresh Hu].
  cbn [set_all fold_left fst snd]. fold (set_all settings (dict_set k0 v0 attrs)).
  simpl in Hk. destruct (String.eqb k k0) eqn:Hkk0.
  - apply String.eqb_eq in Hkk0. subst k0. injection Hk as ->.
    rewrite set_all_get_other by (now apply negb_true_iff).
    apply dict_get_set_same.
  - now apply IH.
Qed.

(** The settings that pass the check are set one after the other, and
    the loop goes on with the rest. *)
Lemma apply_settings_prefix (pre rest : pydict) (legals : legals_t)
    (s : ExportData.state) :
  forallb (legal_setting legals) pre = true ->
  ExportData.apply_settings (List.app pre rest) legals s
  = ExportData.apply_settings rest legals
      (with_attrs (set_all pre (ExportData.self s)) s).
Proof.
  revert s. induction pre as [| [k v] pre IH]; intros s Hlegal.
  - now destruct s.
  - simpl in Hlegal. apply andb_true_iff in Hlegal.
    destruct Hlegal as [Hkv Hlegal]. unfold legal_setting in Hkv.
    cbn [fst snd] in Hkv.
    unfold ExportData.apply_settings in *.
    cbn [List.app for_each fst snd]. unfold bind at 1. unfold bind at 1.
    destruct (_validate_variable k v legals) as [b |] eqn:Hcheck;
      [| discriminate Hkv].
    rewrite (validate_variable_true _ _ _ _ Hcheck).
    cbn [lift when ExportData.setattr modify].
    rewrite IH by exact Hlegal. reflexivity.
Qed.

(** A run of the loop that returns has checked every setting. *)
Lemma apply_settings_ok (settings : pydict) (legals : legals_t)
    (s s' : ExportData.state) :
  ExportData.apply_settings settings legals s = (Ok tt, s') ->
  forallb (legal_setting legals) settings = true
  /\ s' = with_attrs (set_all settings (ExportData.self s)) s.
Proof.
  revert s. induction settings as [| [k v] settings IH]; intros s Hrun.
  - injection Hrun as <-. split; [reflexivity | now destruct s].
  - unfold ExportData.apply_settings in *.
    cbn [for_each fst snd] in Hrun.
    bind_step Hrun u s1 Hstep. bind_step Hstep ok s0 Hcheck.
    apply lift_ok_inv in Hcheck. destruct Hcheck as [Hcheck ->].
    rewrite (validate_variable_true _ _ _ _ Hcheck) in Hstep.
    injection Hstep as _ <-.
    destruct (IH _ Hrun) as [Hlegal ->].
    split; [| reflexivity].
    cbn [forallb]. unfold legal_setting at 1. cbn [fst snd].
    now rewrite Hcheck.
Qed.

Lemma derived_attr_false (name : string) :
  derived_attr name = false ->
  name <> "_usecontent" /\ name <> "_content_specific"
  /\ name <> "fmu_context".
Proof.
  unfold derived_attr. intros H.
  apply orb_false_iff in H. destruct H as [H H3].
  apply orb_false_iff in H. destruct H as [H1 H2].
  repeat split; now apply String.eqb_neq.
Qed.

Lemma config_is_annotated :
  legals_lookup "config" (public_annotations ExportData.__annotations__)
  = Some (A_class T_dict).
Proof. vm_compute. reflexivity. Qed.

(** The two attributes a settings update derives from the content are
    no legal settings themselves. *)
Lemma usecontent_not_legal (v : pyval) :
  legal_setting update_legals ("_usecontent", v) = false.
Proof. vm_compute. reflexivity. Qed.

Lemma content_specific_not_legal (v : pyval) :
  legal_setting update_legals ("_content_specific", v) = false.
Proof. vm_compute. reflexivity. Qed.

Section SettingsUpdateFacts.

Variable model_fields : list string.
Variable requires_additional_input : string -> bool.
Variable AllowedContent_validate_dump : string -> pyval -> result pyval.
Variable FmuContext_get : pyval -> result FmuContext.

Lemma update_check_settings_steps (newsettings : pydict) :
  ExportData._update_check_settings model_fields requires_additional_input
    AllowedContent_validate_dump FmuContext_get newsettings
  = if key_in "config" newsettings
    then throw ValueError
           "Cannot have 'config' outside instance initialization"
    else (ExportData.apply_settings newsettings update_legals ;;
          ExportData._show_deprecations_or_notimplemented ;;
          ExportData._validate_content_key model_fields
            requires_additional_input AllowedContent_validate_dump ;;
          ExportData._validate_fmucontext_key FmuContext_get)%M.
Proof.
  unfold ExportData._update_check_settings, update_legals. cbv zeta.
  rewrite config_is_annotated. reflexivity.
Qed.

Lemma update_tail_keeps (name : string) (v : pyval) :
  derived_attr name = false ->
  preserves (attr_is name v)
    (ExportData._show_deprecations_or_notimplemented ;;
     ExportData._validate_content_key model_fields
       requires_additional_input AllowedContent_validate_dump ;;
     ExportData._validate_fmucontext_key FmuContext_get)%M.
Proof.
  intros Hname. apply derived_attr_false in Hname.
  destruct Hname as (H1 & H2 & H3).
  apply preserves_bind;
    [unfold ExportData._show_deprecations_or_notimplemented; keep
    | intros _].
  apply preserves_bind; [| intros _].
  - unfold ExportData._validate_content_key. keep;
      now apply preserves_setattr_other.
  - unfold ExportData._validate_fmucontext_key. keep.
    now apply preserves_setattr_other.
Qed.

(** A settings update has no rollback: when a setting fails the type
    check, the settings before it in the same update stay set, and the
    ones after it are not looked at. *)
Theorem update_check_settings_partial (pre post : pydict) (k : string)
    (v : pyval) (e : exn) (s : ExportData.state) :
  key_in "config" (List.app pre ((k, v) :: post)) = false ->
  forallb (legal_setting update_legals) pre = true ->
  _validate_variable k v update_legals = Raise e ->
  ExportData._update_check_settings model_fields requires_additional_input
    AllowedContent_validate_dump FmuContext_get
    (List.app pre ((k, v) :: post)) s
  = (Raise e, with_attrs (set_all pre (ExportData.self s)) s).
Proof.
  intros Hconfig Hpre Hkv. rewrite update_check_settings_steps, Hconfig.
  unfold bind at 1. rewrite (apply_settings_prefix _ _ _ _ Hpre).
  unfold ExportData.apply_settings. cbn [for_each fst snd].
  unfold bind at 1. unfold bind at 1. now rewrite Hkv.
Qed.

(** When a settings update returns, every setting it was given is the
    value of the attribute of that name; only [fmu_context] may have
    been converted. *)
Theorem update_check_settings_applies (newsettings : pydict)
    (s s' : ExportData.state) (k : string) (v : pyval) :
  ExportData._update_check_settings model_fields requires_additional_input
    AllowedContent_validate_dump FmuContext_get newsettings s = (Ok tt, s') ->
  keys_unique newsettings = true ->
  dict_lookup k newsettings = Some v ->
  k <> "fmu_context" ->
  ExportData.attr k s' = v.
Proof.
  rewrite update_check_settings_steps. intros Hrun Hunique Hk Hctx.
  destruct (key_in "config" newsettings); [discriminate Hrun |].
  bind_step Hrun u s1 Happly. destruct u.
  apply apply_settings_ok in Happly. destruct Happly as [Hlegal ->].
  assert (Hpublic : derived_attr k = false).
  { assert (Hkv : legal_setting update_legals (k, v) = true).
    { rewrite forallb_forall in Hlegal. apply Hlegal.
      clear - Hk. induction newsettings as [| [k0 v0] l IH];
        [discriminate Hk |].
      simpl in Hk. destruct (String.eqb k k0) eqn:Hkk0.
      - apply String.eqb_eq in Hkk0. subst k0. injection Hk as ->. now left.
      - right. now apply IH. }
    unfold derived_attr. apply String.eqb_neq in Hctx. rewrite Hctx.
    destruct (String.eqb k "_usecontent") eqn:H1.
    { apply String.eqb_eq in H1. subst k.
      rewrite usecontent_not_legal in Hkv. discriminate Hkv. }
    destruct (String.eqb k "_content_specific") eqn:H2.
    { apply String.eqb_eq in H2. subst k.
      rewrite content_specific_not_legal in Hkv. discriminate Hkv. }
    reflexivity. }
  pose proof (update_tail_keeps k v Hpublic
                (with_attrs (set_all newsettings (ExportData.self s)) s))
    as Hkeep.
  rewrite Hrun in Hkeep. apply Hkeep.
  unfold attr_is, ExportData.attr, with_attrs. cbn [ExportData.self].
  now apply set_all_get.
Qed.

(** A settings update leaves every attribute it was not given as it is,
    whether it returns or raises; only the validated content and
    [fmu_context] are computed anew. In particular it never changes
    [config]. *)
Theorem update_check_settings_frame (newsettings : pydict)
    (s : ExportData.state) (k : string) :
  k = "config" \/ dict_has k newsettings = false ->
  derived_attr k = false ->
  ExportData.attr k
    (snd (ExportData._update_check_settings model_fields
            requires_additional_input AllowedContent_validate_dump
            FmuContext_get newsettings s))
  = ExportData.attr k s.
Proof.
  intros Hk Hpublic. rewrite update_check_settings_steps.
  destruct (key_in "config" newsettings) eqn:Hconfig; [reflexivity |].
  assert (Habsent : dict_has k newsettings = false)
    by (destruct Hk as [-> | Hk]; assumption).
  assert (Hkeep : preserves (attr_is k (ExportData.attr k s))
                    (ExportData.apply_settings newsettings update_legals ;;
                     ExportData._show_deprecations_or_notimplemented ;;
                     ExportData._validate_content_key model_fields
                       requires_additional_input
                       AllowedContent_validate_dump ;;
                     ExportData._validate_fmucontext_key FmuContext_get)%M).
  { apply preserves_bind; [now apply apply_settings_keeps | intros _].
    now apply update_tail_keeps. }
  exact (Hkeep s eq_refl).
Qed.

End SettingsUpdateFacts.

Lemma update_check_settings_partial_witness :
  exists e,
    ExportData._update_check_settings spec_model_fields
      spec_requires_additional_input spec_validate_dump spec_FmuContext_get
      [("name", PStr "TopVolantis"); ("realization", PStr "first");
       ("tagname", PStr "depth")]
      default_instance
    = (Raise e,
       with_attrs
         (set_all [("name", PStr "TopVolantis")]
            (ExportData.self default_instance))
         default_instance)
    /\ exn_cls e = ValidationError.
Proof.
  eexists. split.
  - apply (update_check_settings_partial spec_model_fields
             spec_requires_additional_input spec_validate_dump
             spec_FmuContext_get [("name", PStr "TopVolantis")]
             [("tagname", PStr "depth")] "realization" (PStr "first") _
             default_instance).
    + reflexivity.
    + vm_compute. reflexivity.
    + vm_compute. reflexivity.
  - reflexivity.
Defined.

Lemma update_check_settings_applies_witness :
  exists s',
    ExportData._update_check_settings spec_model_fields
      spec_requires_additional_input spec_validate_dump spec_FmuContext_get
      [("name", PStr "TopVolantis"); ("content", PStr "depth")]
      default_instance = (Ok tt, s')
    /\ ExportData.attr "name" s' = PStr "TopVolantis".
Proof.
  eexists. split; [vm_compute; reflexivity |].
  apply (update_check_settings_applies spec_model_fields
           spec_requires_additional_input spec_validate_dump
           spec_FmuContext_get
           [("name", PStr "TopVolantis"); ("content", PStr "depth")]
           default_instance).
  - vm_compute. reflexivity.
  - reflexivity.
  - reflexivity.
  - differ.
Defined.

Lemma update_check_settings_frame_witness :
  ExportData.attr "config"
    (snd (ExportData._update_check_settings spec_model_fields
            spec_requires_additional_input spec_validate_dump
            spec_FmuContext_get
            [("name", PStr "TopVolantis"); ("realization", PStr "first")]
            default_instance))
  = ExportData.attr "config" default_instance.
Proof.
  apply (update_check_settings_frame spec_model_fields
           spec_requires_additional_input spec_validate_dump
           spec_FmuContext_get).
  - now left.
  - reflexivity.
Defined.

(** ** The global configuration of [ExportData] *)

Lemma dict_set_set (k : string) (v v' : pyval) (d : pydict) :
  dict_set k v (dict_set k v' d) = dict_set k v d.
Proof.
  induction d as [| [k0 v0] d IH]; simpl.
  - now rewrite String.eqb_refl.
  - destruct (String.eqb k k0) eqn:Hk; simpl; rewrite Hk; [reflexivity |].
    now rewrite IH.
Qed.

Lemma with_attrs_twice (attrs attrs' : pydict) (s : ExportData.state) :
  with_attrs attrs (with_attrs attrs' s) = with_attrs attrs s.
Proof. reflexivity. Qed.

Lemma setitem2_dict (d inner : pydict) (k1 k2 : string) (v : pyval) :
  dict_lookup k1 d = Some (PDict inner) ->
  ExportData.setitem2 (PDict d) k1 k2 v
  = Ok (PDict (dict_set k1 (PDict (dict_set k2 v inner)) d)).
Proof.
  intros H. unfold ExportData.setitem2. cbn [subscript]. now rewrite H.
Qed.

Lemma setitem2_ok_inv (d : pyval) (k1 k2 : string) (v d' : pyval) :
  ExportData.setitem2 d k1 k2 v = Ok d' ->
  exists kv inner, d = PDict kv /\ dict_lookup k1 kv = Some (PDict inner).
Proof.
  unfold ExportData.setitem2. intros H.
  destruct d as [| | | | | | | kv]; try discriminate H.
  cbn [subscript] in H.
  destruct (dict_lookup k1 kv) as [[| | | | | | | inner] |] eqn:Hk1;
    try discriminate H.
  exists kv, inner. split; [reflexivity | exact Hk1].
Qed.

(** With an [access_ssdl] and a configuration that has an [access]
    dict, the configuration gets the [access_ssdl] as its
    [access.ssdl]. *)
Lemma globalconfig_sets_ssdl (s : ExportData.state) (config access : pydict) :
  ExportData.attr "config" s = PDict config ->
  truthy (ExportData.attr "access_ssdl" s) = true ->
  dict_lookup "access" config = Some (PDict access) ->
  ExportData._update_globalconfig_from_settings s
  = (Ok tt,
     with_attrs
       (dict_set "config"
          (PDict (dict_set "access"
                    (PDict (dict_set "ssdl" (ExportData.attr "access_ssdl" s)
                              access))
                    config))
          (ExportData.self s)) s).
Proof.
  intros Hconfig Hssdl Haccess.
  unfold ExportData._update_globalconfig_from_settings.
  unfold bind at 1. cbn [get_state]. rewrite Hconfig, Hssdl.
  unfold bind at 1. unfold bind at 1. unfold lift at 1.
  cbn [subscript]. rewrite Haccess.
  unfold bind at 1. cbn [lift ExportData.not_in].
  unfold bind at 1.
  destruct (dict_has "ssdl" access); cbn [negb]; unfold ret, lift.
  - now rewrite (setitem2_dict _ _ _ _ _ Haccess).
  - rewrite (setitem2_dict _ _ _ _ _ Haccess).
    rewrite (setitem2_dict _ _ _ _ _ (dict_lookup_set_same _ _ _)).
    now rewrite !dict_set_set.
Qed.

Lemma attr_with_attrs_set (k : string) (v : pyval) (attrs : pydict)
    (s : ExportData.state) :
  ExportData.attr k (with_attrs (dict_set k v attrs) s) = v.
Proof.
  unfold ExportData.attr, with_attrs. cbn [ExportData.self].
  apply dict_get_set_same.
Qed.

(** With an [access_ssdl] given, [_update_globalconfig_from_settings]
    needs an [access] block in the configuration: without one it raises
    a [KeyError] and changes nothing. With one, the configuration gets
    the [access_ssdl] as its [access.ssdl], and nothing else in it
    changes. *)
Theorem globalconfig_access_ssdl (s : ExportData.state) (config : pydict) :
  ExportData.attr "config" s = PDict config ->
  truthy (ExportData.attr "access_ssdl" s) = true ->
  (dict_lookup "access" config = None ->
   ExportData._update_globalconfig_from_settings s
   = (Raise (mkExn KeyError "access"), s))
  /\ (forall access,
        dict_lookup "access" config = Some (PDict access) ->
        fst (ExportData._update_globalconfig_from_settings s) = Ok tt
        /\ get_at ["access"; "ssdl"]
             (ExportData.attr "config"
                (snd (ExportData._update_globalconfig_from_settings s)))
           = Ok (ExportData.attr "access_ssdl" s)
        /\ forall q,
             diverge ["access"; "ssdl"] q = true ->
             get_at q
               (ExportData.attr "config"
                  (snd (ExportData._update_globalconfig_from_settings s)))
             = get_at q (PDict config)).
Proof.
  intros Hconfig Hssdl. split.
  - intros Hnone. unfold ExportData._update_globalconfig_from_settings.
    unfold bind at 1. cbn [get_state]. rewrite Hconfig, Hssdl.
    unfold bind at 1. unfold bind at 1. unfold lift at 1.
    cbn [subscript]. now rewrite Hnone.
  - intros access Haccess.
    rewrite (globalconfig_sets_ssdl s config access Hconfig Hssdl Haccess).
    cbn [fst snd]. rewrite !attr_with_attrs_set.
    assert (Hset : set_at ["access"] "ssdl" (ExportData.attr "access_ssdl" s)
                     (PDict config)
                   = Ok (PDict
                           (dict_set "access"
                              (PDict (dict_set "ssdl"
                                        (ExportData.attr "access_ssdl" s)
                                        access))
                              config))).
    { cbn [set_at]. now rewrite Haccess. }
    split; [reflexivity | split].
    + exact (set_at_get_same _ _ _ _ _ Hset).
    + intros q Hq. exact (set_at_frame _ _ _ _ _ q Hset Hq).
Qed.

(** [_update_globalconfig_from_settings] is idempotent: a second call,
    as [generate_metadata] makes after the construction, leaves the
    instance as the first call left it. *)
Theorem globalconfig_idempotent (s s1 : ExportData.state) :
  ExportData._update_globalconfig_from_settings s = (Ok tt, s1) ->
  ExportData._update_globalconfig_from_settings s1 = (Ok tt, s1).
Proof.
  intros Hrun.
  destruct (truthy (ExportData.attr "access_ssdl" s)) eqn:Hssdl.
  - assert (Hshape : exists config access,
               ExportData.attr "config" s = PDict config
               /\ dict_lookup "access" config = Some (PDict access)).
    { unfold ExportData._update_globalconfig_from_settings in Hrun.
      bind_step Hrun s0 s0' Hget. injection Hget as <- <-.
      rewrite Hssdl in Hrun.
      bind_step Hrun newglobals s2 Hnew.
      bind_step Hnew access s3 Haccess.
      apply lift_ok_inv in Haccess. destruct Haccess as [Haccess ->].
      bind_step Hnew absent s3 Habsent.
      apply lift_ok_inv in Habsent. destruct Habsent as [Habsent ->].
      bind_step Hnew globals s3 Hglobals.
      apply optional_lift_inv in Hglobals. destruct Hglobals as [-> Hglobals].
      apply lift_ok_inv in Hnew. destruct Hnew as [Hnew _].
      destruct absent.
      - apply setitem2_ok_inv in Hglobals.
        destruct Hglobals as (kv & inner & Hkv & Hinner). now exists kv, inner.
      - injection Hglobals as <-. apply setitem2_ok_inv in Hnew.
        destruct Hnew as (kv & inner & Hkv & Hinner). now exists kv, inner. }
    destruct Hshape as (config & access & Hconfig & Haccess).
    rewrite (globalconfig_sets_ssdl s config access Hconfig Hssdl Haccess)
      in Hrun.
    injection Hrun as <-.
    rewrite (globalconfig_sets_ssdl _
               (dict_set "access"
                  (PDict (dict_set "ssdl" (ExportData.attr "access_ssdl" s)
                            access)) config)
               (dict_set "ssdl" (ExportData.attr "access_ssdl" s) access)).
    + unfold ExportData.attr, with_attrs. cbn [ExportData.self].
      rewrite (dict_get_set_other "access_ssdl" "config") by differ.
      now rewrite !dict_set_set.
    + unfold ExportData.attr, with_attrs. cbn [ExportData.self].
      apply dict_get_set_same.
    + unfold ExportData.attr, with_attrs. cbn [ExportData.self].
      rewrite (dict_get_set_other "access_ssdl" "config") by differ.
      exact Hssdl.
    + apply dict_lookup_set_same.
  - unfold ExportData._update_globalconfig_from_settings in *.
    unfold bind at 1 in Hrun. cbn [get_state] in Hrun.
    rewrite Hssdl in Hrun. injection Hrun as <-.
    unfold bind at 1. cbn [get_state].
    unfold ExportData.attr. cbn [ExportData.self].
    rewrite (dict_get_set_other "access_ssdl" "config") by differ.
    unfold ExportData.attr in Hssdl. rewrite Hssdl.
    unfold bind, ret, ExportData.setattr, modify.
    cbn [ExportData.self ExportData._inside_rms ExportData.world].
    now rewrite dict_get_set_same, dict_set_set.
Qed.

Lemma globalconfig_access_ssdl_witness :
  ExportData._update_globalconfig_from_settings ssdl_instance_no_config
  = (Raise (mkExn KeyError "access"), ssdl_instance_no_config)
  /\ get_at ["access"; "ssdl"]
       (ExportData.attr "config"
          (snd (ExportData._update_globalconfig_from_settings ssdl_instance)))
     = Ok (PDict [("access_level", PStr "internal");
                  ("rep_include", PBool false)]).
Proof.
  split.
  - apply (proj1 (globalconfig_access_ssdl ssdl_instance_no_config []
                    ltac:(vm_compute; reflexivity)
                    ltac:(vm_compute; reflexivity))).
    reflexivity.
  - apply (proj2 (globalconfig_access_ssdl ssdl_instance
                    example_config_fields
                    ltac:(vm_compute; reflexivity)
                    ltac:(vm_compute; reflexivity))
             [("asset", PDict [("name", PStr "Drogon")])]).
    reflexivity.
Defined.

Lemma globalconfig_idempotent_witness :
  exists s1,
    ExportData._update_globalconfig_from_settings ssdl_instance = (Ok tt, s1)
    /\ ExportData._update_globalconfig_from_settings s1 = (Ok tt, s1).
Proof.
  eexists.
  assert (Hrun : ExportData._update_globalconfig_from_settings ssdl_instance
                 = (Ok tt, _)) by (vm_compute; reflexivity).
  split; [exact Hrun | exact (globalconfig_idempotent _ _ Hrun)].
Defined.

(** ** What the construction of [ExportData] establishes *)

(** The routine steps of a proof that an attribute is kept, for an
    attribute whose name is known to differ from the ones set. *)
Ltac keep_named :=
  repeat first
    [ apply preserves_ret
    | apply preserves_lift
    | apply preserves_get_state
    | apply preserves_in_world
    | apply preserves_setattr_other; first [assumption | differ]
    | apply preserves_modify_self; reflexivity
    | apply preserves_when
    | apply preserves_bind; [| intros ?] ].

Lemma init_computed_false (name : string) :
  init_computed name = false ->
  name <> "config" /\ name <> "_config_is_valid"
  /\ name <> "_pwd" /\ name <> "_rootpath".
Proof.
  unfold init_computed. intros H.
  apply orb_false_iff in H. destruct H as [H H4].
  apply orb_false_iff in H. destruct H as [H H3].
  apply orb_false_iff in H. destruct H as [H1 H2].
  repeat split; now apply String.eqb_neq.
Qed.

Section ConstructionFacts.

Variable model_fields : list string.
Variable requires_additional_input : string -> bool.
Variable AllowedContent_validate_dump : string -> pyval -> result pyval.
Variable FmuContext_get : pyval -> result FmuContext.
Variable global_configuration_is_valid : pyval -> bool.
Variable global_configuration_roundtrip : pyval -> pyval.
Variable resolve : World -> PurePath -> PurePath.
Variable read_metadata_from_file : World -> PurePath -> result pyval.
Variable env : ExportData.Env.

(** The settings of the file named by [FMU_DATAIO_CONFIG] leave the
    attributes they do not name as they are. *)
Lemma init_settings_keep (name : string) (v : pyval) :
  dict_has name (external_settings env) = false ->
  preserves (attr_is name v)
    (match ExportData.SETTINGS_ENV env with
     | Some loaded =>
         external_input <- lift loaded ;;
         if truthy external_input
         then
           settings <- lift (ExportData.items external_input) ;;
           ExportData.apply_settings settings
             (public_annotations ExportData.__annotations__)
         else ret tt
     | None => ret tt
     end)%M.
Proof.
  intros Hkeys. unfold external_settings in Hkeys.
  destruct (ExportData.SETTINGS_ENV env) as [loaded |]; [| keep].
  apply preserves_bind_lift. intros external_input ->.
  destruct (truthy external_input); [| keep].
  apply preserves_bind_lift. intros settings Hitems.
  destruct external_input; try discriminate Hitems.
  injection Hitems as ->. now apply apply_settings_keeps.
Qed.

(** The end of [__post_init__], from the update of the configuration
    on, sets the configuration, its validity, and the two paths. *)
Lemma init_finish_keeps (name : string) (v : pyval) :
  init_computed name = false ->
  preserves (attr_is name v)
    (ExportData._update_globalconfig_from_settings ;;
     s <- get_state ;;
     let valid := global_configuration_is_valid (ExportData.attr "config" s) in
     ExportData.setattr "_config_is_valid" (PBool valid) ;;
     when valid
       (ExportData.setattr "config"
          (global_configuration_roundtrip (ExportData.attr "config" s))) ;;
     ExportData._establish_pwd_rootpath resolve env ;;
     ExportData._show_deprecations_or_notimplemented)%M.
Proof.
  intros Hname. apply init_computed_false in Hname.
  destruct Hname as (H1 & H2 & H3 & H4).
  apply preserves_bind; [| intros _].
  { unfold ExportData._update_globalconfig_from_settings. keep_named.
    destruct (truthy (ExportData.attr "access_ssdl" a)); keep_named.
    destruct a1; keep_named. }
  apply preserves_bind; [apply preserves_get_state | intros s].
  cbv zeta.
  apply preserves_bind; [keep_named | intros _].
  apply preserves_bind; [keep_named | intros _].
  apply preserves_bind; [| intros _].
  { unfold ExportData._establish_pwd_rootpath. keep_named.
    destruct (truthy (ExportData.attr "casepath" a)
              && (isinstance (ExportData.attr "casepath" a) T_str
                  || isinstance (ExportData.attr "casepath" a) T_Path));
      keep_named. }
  unfold ExportData._show_deprecations_or_notimplemented. keep_named.
Qed.

(** A constructed instance holds the validated form of its content:
    [_usecontent] and [_content_specific] are what [_check_content]
    gives for the content the instance has. *)
Theorem construct_validates_content (kwargs : pydict) (inside_rms : bool)
    (w : World) (s' : ExportData.state) :
  ExportData.construct model_fields requires_additional_input
    AllowedContent_validate_dump FmuContext_get
    global_configuration_is_valid global_configuration_roundtrip resolve
    env kwargs inside_rms w = (Ok tt, s') ->
  exists usecontent content_specific,
    _check_content model_fields requires_additional_input
      AllowedContent_validate_dump (ExportData.attr "content" s')
    = Ok (usecontent, content_specific)
    /\ ExportData.attr "_usecontent" s' = PStr usecontent
    /\ ExportData.attr "_content_specific" s' = content_specific.
Proof.
  unfold ExportData.construct.
  destruct (ExportData.__init__ kwargs) as [attrs | e]; [| discriminate].
  unfold ExportData.__post_init__. intros Hrun.
  bind_step Hrun s0 s1 Hget. injection Hget as <- <-.
  bind_step Hrun u2 s2 H2. bind_step Hrun c s3 H3.
  bind_step Hrun u4 s4 H4. bind_step Hrun u5 s5 H5.
  bind_step Hrun u6 s6 H6. bind_step Hrun u7 s7 H7.
  bind_step Hrun u8 s8 Hcontent.
  unfold ExportData._validate_content_key in Hcontent.
  bind_step Hcontent s7' s7'' Hget. injection Hget as <- <-.
  bind_step Hcontent p s9 Hcheck.
  apply lift_ok_inv in Hcheck. destruct Hcheck as [Hcheck ->].
  bind_step Hcontent u9 s9 Hset. injection Hset as _ <-.
  injection Hcontent as _ <-.
  destruct p as [usecontent content_specific]. cbn [fst snd] in Hrun.
  exists usecontent, content_specific.
  match type of Hrun with
  | ?rest ?s8 = _ =>
      assert (Hs' : snd (rest s8) = s') by (now rewrite Hrun);
      assert (Hkeep : forall name v,
                 init_computed name = false ->
                 attr_is name v s8 -> attr_is name v s');
        [ intros name v Hname Hv; rewrite <- Hs';
          exact (init_finish_keeps name v Hname s8 Hv)
        | ]
  end.
  split; [| split].
  - rewrite (Hkeep "content" (ExportData.attr "content" s7) eq_refl);
      [exact Hcheck |].
    unfold attr_is, ExportData.attr. cbn [ExportData.self].
    now rewrite !dict_get_set_other by differ.
  - apply (Hkeep "_usecontent" _ eq_refl).
    unfold attr_is, ExportData.attr. cbn [ExportData.self].
    rewrite dict_get_set_other by differ. apply dict_get_set_same.
  - apply (Hkeep "_content_specific" _ eq_refl).
    unfold attr_is, ExportData.attr. cbn [ExportData.self].
    apply dict_get_set_same.
Qed.

(** A constructed instance has a member of [FmuContext] for its
    [fmu_context], also when a string was given, unless the settings
    file named by [FMU_DATAIO_CONFIG] sets the key: what that file gives
    is not converted. *)
Theorem construct_fmu_context_member (kwargs : pydict) (inside_rms : bool)
    (w : World) (s' : ExportData.state) :
  dict_has "fmu_context" (external_settings env) = false ->
  ExportData.construct model_fields requires_additional_input
    AllowedContent_validate_dump FmuContext_get
    global_configuration_is_valid global_configuration_roundtrip resolve
    env kwargs inside_rms w = (Ok tt, s') ->
  exists c, ExportData.attr "fmu_context" s' = PCtx c.
Proof.
  intros Hkeys. unfold ExportData.construct.
  destruct (ExportData.__init__ kwargs) as [attrs | e]; [| discriminate].
  unfold ExportData.__post_init__. intros Hrun.
  bind_step Hrun s0 s1 Hget. injection Hget as <- <-.
  bind_step Hrun u2 s2 H2. bind_step Hrun c s3 H3.
  bind_step Hrun u4 s4 H4.
  exists c.
  assert (Hs4 : attr_is "fmu_context" (PCtx c) s4).
  { pose proof (setattr_establishes "fmu_context" (PCtx c) s3) as H.
    now rewrite H4 in H. }
  match type of Hrun with
  | ?rest s4 = _ =>
      assert (Hkeep : preserves (attr_is "fmu_context" (PCtx c)) rest)
  end.
  { apply preserves_bind; [keep | intros _].
    apply preserves_bind; [now apply init_settings_keep | intros _].
    apply preserves_bind.
    { destruct (ExportData.GLOBAL_ENV env); keep. }
    intros _.
    apply preserves_bind;
      [unfold ExportData._validate_content_key; keep | intros _].
    now apply init_finish_keeps. }
  specialize (Hkeep s4 Hs4). rewrite Hrun in Hkeep. exact Hkeep.
Qed.

(** A run of [bind], by the outcome of its first step. *)
Lemma bind_run {S A B : Type} (m : M S A) (f : A -> M S B) (s : S) :
  bind m f s
  = match m s with
    | (Ok a, s') => f a s'
    | (Raise e, s') => (Raise e, s')
    end.
Proof. reflexivity. Qed.

(** A keyword for [vertical_domain] is no unexpected keyword. *)
Lemma init_find_vertical_domain (given : pyval) (kwargs : pydict) :
  find (fun kv => negb (dict_has (fst kv) ExportData.init_fields))
       (dict_set "vertical_domain" given kwargs)
  = find (fun kv => negb (dict_has (fst kv) ExportData.init_fields)) kwargs.
Proof.
  induction kwargs as [| [k v] kwargs IH]; [reflexivity |].
  cbn [dict_set]. destruct (String.eqb "vertical_domain" k) eqn:Hk.
  - apply String.eqb_eq in Hk. subst k. reflexivity.
  - cbn [find fst]. now rewrite IH.
Qed.

(** The attributes [__init__] gives with and without a keyword for
    [vertical_domain] differ in that attribute only. *)
Lemma init_vertical_domain (given : pyval) (kwargs : pydict) :
  match ExportData.__init__ (dict_set "vertical_domain" given kwargs),
        ExportData.__init__ kwargs with
  | Ok attrs, Ok attrs' =>
      dict_get "verbosity" attrs = dict_get "verbosity" attrs'
      /\ dict_get "fmu_context" attrs = dict_get "fmu_context" attrs'
      /\ forall c v,
           dict_set "vertical_domain" v (dict_set "fmu_context" c attrs)
           = dict_set "vertical_domain" v (dict_set "fmu_context" c attrs')
  | Raise e, Raise e' => e = e'
  | _, _ => False
  end.
Proof.
  unfold ExportData.__init__. rewrite init_find_vertical_domain.
  destruct (find _ kwargs) as [[k v] |]; [reflexivity |].
  cbn [map ExportData.init_fields fst snd List.app].
  repeat match goal with
         | |- context [dict_lookup ?k (dict_set "vertical_domain" _ _)] =>
             rewrite (dict_lookup_set_other k "vertical_domain")
               by discriminate
         end.
  split; [| split]; intros;
    cbn [ExportData.private_fields dict_get dict_lookup dict_set String.eqb
           Ascii.eqb Bool.eqb];
    reflexivity.
Qed.

(** The first steps of [__post_init__]: the warning on [verbosity], the
    conversion of [fmu_context] and the default of [vertical_domain];
    the rest runs from the state these leave. *)
Lemma post_init_head :
  exists (tail : M ExportData.state unit) (msg : string),
    forall (attrs : pydict) (inside_rms : bool) (w : World),
      ExportData.__post_init__ model_fields requires_additional_input
        AllowedContent_validate_dump FmuContext_get
        global_configuration_is_valid global_configuration_roundtrip resolve
        env (ExportData.mkState attrs inside_rms w)
      = let w1 :=
          if ExportData.differs_from (dict_get "verbosity" attrs) "DEPRECATED"
          then set_warnings
                 (List.app (w_warnings w) [mkWarning UserWarning msg]) w
          else w in
        match FmuContext_get (dict_get "fmu_context" attrs) with
        | Ok c =>
            tail (ExportData.mkState
                    (dict_set "vertical_domain" (PDict [("depth", PStr "msl")])
                       (dict_set "fmu_context" (PCtx c) attrs))
                    inside_rms w1)
        | Raise e => (Raise e, ExportData.mkState attrs inside_rms w1)
        end.
Proof.
  do 2 eexists. intros attrs inside_rms w.
  unfold ExportData.__post_init__.
  rewrite bind_run. cbn [get_state]. rewrite bind_run.
  unfold ExportData.attr. cbn [ExportData.self].
  destruct (ExportData.differs_from (dict_get "verbosity" attrs) "DEPRECATED");
    cbn [when ExportData.in_world warn modify ret ExportData.self
           ExportData._inside_rms ExportData.world];
    rewrite bind_run; unfold lift at 1;
    (destruct (FmuContext_get (dict_get "fmu_context" attrs)) as [c | e];
     [| reflexivity]);
    rewrite bind_run;
    cbn [ExportData.setattr modify ExportData.self ExportData._inside_rms
           ExportData.world];
    rewrite bind_run;
    cbn [ExportData.setattr modify ExportData.self ExportData._inside_rms
           ExportData.world];
    reflexivity.
Qed.

(** C10, as [__post_init__] has it. A value passed for [vertical_domain]
    is discarded without a trace: with it and without it the
    construction returns or raises alike, emits the same warnings, and,
    when it returns, leaves the same instance. When the construction
    returns, the field holds the default [{"depth": "msl"}], unless the
    settings file named by [FMU_DATAIO_CONFIG] sets [vertical_domain]:
    then it holds the value of that file. *)
Theorem post_init_vertical_domain (kwargs : pydict) (given : pyval)
    (inside_rms : bool) (w : World) (s' : ExportData.state) :
  (fst (ExportData.construct model_fields requires_additional_input
          AllowedContent_validate_dump FmuContext_get
          global_configuration_is_valid global_configuration_roundtrip
          resolve env (dict_set "vertical_domain" given kwargs) inside_rms w)
   = fst (ExportData.construct model_fields requires_additional_input
            AllowedContent_validate_dump FmuContext_get
            global_configuration_is_valid global_configuration_roundtrip
            resolve env kwargs inside_rms w)
   /\ ExportData.world
        (snd (ExportData.construct model_fields requires_additional_input
                AllowedContent_validate_dump FmuContext_get
                global_configuration_is_valid global_configuration_roundtrip
                resolve env (dict_set "vertical_domain" given kwargs)
                inside_rms w))
      = ExportData.world
          (snd (ExportData.construct model_fields requires_additional_input
                  AllowedContent_validate_dump FmuContext_get
                  global_configuration_is_valid
                  global_configuration_roundtrip resolve env kwargs
                  inside_rms w))
   /\ (fst (ExportData.construct model_fields requires_additional_input
              AllowedContent_validate_dump FmuContext_get
              global_configuration_is_valid global_configuration_roundtrip
              resolve env kwargs inside_rms w) = Ok tt ->
       snd (ExportData.construct model_fields requires_additional_input
              AllowedContent_validate_dump FmuContext_get
              global_configuration_is_valid global_configuration_roundtrip
              resolve env (dict_set "vertical_domain" given kwargs)
              inside_rms w)
       = snd (ExportData.construct model_fields requires_additional_input
                AllowedContent_validate_dump FmuContext_get
                global_configuration_is_valid global_configuration_roundtrip
                resolve env kwargs inside_rms w)))
  /\ (keys_unique (external_settings env) = true ->
      ExportData.construct model_fields requires_additional_input
        AllowedContent_validate_dump FmuContext_get
        global_configuration_is_valid global_configuration_roundtrip resolve
        env kwargs inside_rms w = (Ok tt, s') ->
      ExportData.attr "vertical_domain" s'
      = match dict_lookup "vertical_domain" (external_settings env) with
        | Some v => v
        | None => PDict [("depth", PStr "msl")]
        end).
Proof.
  split.
  - unfold ExportData.construct.
    pose proof (init_vertical_domain given kwargs) as Hinit.
    destruct (ExportData.__init__ (dict_set "vertical_domain" given kwargs))
      as [attrs | e];
      destruct (ExportData.__init__ kwargs) as [attrs' | e'];
      try contradiction.
    2: { subst e'. repeat split. }
    destruct Hinit as (Hverbosity & Hcontext & Hset).
    destruct post_init_head as (tail & msg & Hhead).
    rewrite !Hhead. cbv zeta. rewrite Hverbosity, Hcontext.
    destruct (FmuContext_get (dict_get "fmu_context" attrs')) as [c | e].
    + rewrite Hset. repeat split.
    + repeat split. intros H. discriminate H.
  - intros Hunique. unfold ExportData.construct.
    destruct (ExportData.__init__ kwargs) as [attrs | e]; [| discriminate].
    unfold ExportData.__post_init__. intros Hrun.
    bind_step Hrun s0 s1 Hget. injection Hget as <- <-.
    bind_step Hrun u2 s2 H2. bind_step Hrun c s3 H3.
    bind_step Hrun u4 s4 H4. bind_step Hrun u5 s5 H5.
    bind_step Hrun u6 s6 H6. destruct u6.
    assert (Hs5 : attr_is "vertical_domain" (PDict [("depth", PStr "msl")]) s5).
    { pose proof (setattr_establishes "vertical_domain"
                    (PDict [("depth", PStr "msl")]) s4) as H.
      now rewrite H5 in H. }
    assert (Hs6 : attr_is "vertical_domain"
                    match dict_lookup "vertical_domain"
                            (external_settings env) with
                    | Some v => v
                    | None => PDict [("depth", PStr "msl")]
                    end s6).
    { unfold external_settings in *.
      destruct (ExportData.SETTINGS_ENV env) as [loaded |].
      - lift_step H6 external_input Hloaded. subst loaded.
        destruct (truthy external_input) eqn:Htruthy.
        + lift_step H6 settings Hitems.
          destruct external_input; try discriminate Hitems.
          injection Hitems as ->.
          apply apply_settings_ok in H6. destruct H6 as [_ ->].
          unfold attr_is, ExportData.attr, with_attrs.
          cbn [ExportData.self].
          destruct (dict_lookup "vertical_domain" settings) as [v |] eqn:Hv.
          * now apply set_all_get.
          * rewrite set_all_get_other
              by (unfold dict_has; now rewrite Hv).
            exact Hs5.
        + injection H6 as <-.
          destruct external_input as [| | | | | | | kv]; try exact Hs5.
          destruct kv; [exact Hs5 | discriminate Htruthy].
      - injection H6 as <-. exact Hs5. }
    match type of Hrun with
    | ?rest s6 = _ =>
        assert (Hkeep : forall v, preserves (attr_is "vertical_domain" v) rest)
    end.
    { intros v. apply preserves_bind.
      { destruct (ExportData.GLOBAL_ENV env); keep. }
      intros _.
      apply preserves_bind;
        [unfold ExportData._validate_content_key; keep | intros _].
      now apply init_finish_keeps. }
    specialize (Hkeep _ s6 Hs6). rewrite Hrun in Hkeep. exact Hkeep.
Qed.

Lemma take_preprocessed_keeps (key key' : string) (v currentmeta : pyval) :
  truthy v = true ->
  preserves (attr_is key v) (ExportData.take_preprocessed key' currentmeta).
Proof.
  intros Hv s Hs. unfold ExportData.take_preprocessed.
  unfold bind at 1. cbn [get_state].
  destruct (String.eqb key key') eqn:Hk.
  - apply String.eqb_eq in Hk. subst key'.
    unfold attr_is in Hs. rewrite Hs, Hv. exact Hs.
  - apply String.eqb_neq in Hk.
    destruct (negb (truthy (ExportData.attr key' s))); [| exact Hs].
    unfold bind, lift.
    destruct (subscript currentmeta "_preprocessed") as [pre |];
      [| exact Hs].
    destruct (get_method pre key') as [given |]; [| exact Hs].
    destruct (truthy given); [| exact Hs].
    now apply preserves_setattr_other.
Qed.

(** [_check_obj_if_file] never replaces a name, a tagname or a subfolder
    the instance already has by what the preprocessed metadata holds,
    whether it returns or raises. *)
Theorem check_obj_keeps_given_names (obj : pyval) (s : ExportData.state)
    (key : string) (v : pyval) :
  In key ["name"; "tagname"; "subfolder"] ->
  ExportData.attr key s = v ->
  truthy v = true ->
  ExportData.attr key
    (snd (ExportData._check_obj_if_file read_metadata_from_file obj s))
  = v.
Proof.
  intros Hkey Hattr Hv.
  assert (Hrule : key <> "reuse_metadata_rule")
    by (destruct Hkey as [<- | [<- | [<- | []]]]; differ).
  assert (Hkeep : preserves (attr_is key v)
                    (ExportData._check_obj_if_file read_metadata_from_file
                       obj)).
  { unfold ExportData._check_obj_if_file.
    destruct (isinstance obj T_str || isinstance obj T_Path); [| keep_named].
    apply preserves_bind; [apply preserves_lift | intros p].
    apply preserves_bind; [apply preserves_get_state | intros s0].
    destruct (negb (path_exists (ExportData.world s0) p));
      [apply preserves_throw |].
    apply preserves_bind; [keep_named | intros _].
    apply preserves_bind; [apply preserves_lift | intros currentmeta].
    apply preserves_bind; [apply preserves_lift | intros absent].
    destruct absent; [apply preserves_throw |].
    repeat (apply preserves_bind;
            [now apply take_preprocessed_keeps | intros _]).
    apply preserves_ret. }
  exact (Hkeep s Hattr).
Qed.

End ConstructionFacts.

Lemma post_init_vertical_domain_witness :
  (exists s',
     ExportData.construct spec_model_fields spec_requires_additional_input
       spec_validate_dump spec_FmuContext_get (fun _ => false) (fun c => c)
       (fun _ p => p) plain_env
       [("vertical_domain", PDict [("time", PStr "msl")]);
        ("content", PStr "depth")]
       false empty_world
     = (Ok tt, s')
     /\ ExportData.attr "vertical_domain" s' = PDict [("depth", PStr "msl")])
  /\ (exists s',
        ExportData.construct spec_model_fields spec_requires_additional_input
          spec_validate_dump spec_FmuContext_get (fun _ => false)
          (fun c => c) (fun _ p => p) settings_env
          [("vertical_domain", PDict [("depth", PStr "rkb")]);
           ("content", PStr "depth")]
          false empty_world
        = (Ok tt, s')
        /\ ExportData.attr "vertical_domain" s'
           = PDict [("time", PStr "msl")]).
Proof.
  split; eexists.
  - split; [vm_compute; reflexivity |].
    apply (proj2 (post_init_vertical_domain spec_model_fields
                    spec_requires_additional_input spec_validate_dump
                    spec_FmuContext_get (fun _ => false) (fun c => c)
                    (fun _ p => p) plain_env
                    [("vertical_domain", PDict [("time", PStr "msl")]);
                     ("content", PStr "depth")]
                    PNone false empty_world _)).
    + reflexivity.
    + vm_compute. reflexivity.
  - split; [vm_compute; reflexivity |].
    apply (proj2 (post_init_vertical_domain spec_model_fields
                    spec_requires_additional_input spec_validate_dump
                    spec_FmuContext_get (fun _ => false) (fun c => c)
                    (fun _ p => p) settings_env
                    [("vertical_domain", PDict [("depth", PStr "rkb")]);
                     ("content", PStr "depth")]
                    PNone false empty_world _)).
    + reflexivity.
    + vm_compute. reflexivity.
Defined.

(** The claim C10 as stated fails when the environment variable
    [FMU_DATAIO_CONFIG] names a settings file that sets
    [vertical_domain]: the construction succeeds and the field holds the
    value of the file. *)
Lemma post_init_vertical_domain_counterexample :
  fst (ExportData.construct spec_model_fields
         spec_requires_additional_input spec_validate_dump
         spec_FmuContext_get (fun _ => false) (fun c => c) (fun _ p => p)
         settings_env [("content", PStr "depth")] false empty_world)
  = Ok tt
  /\ ExportData.attr "vertical_domain"
       (snd (ExportData.construct spec_model_fields
               spec_requires_additional_input spec_validate_dump
               spec_FmuContext_get (fun _ => false) (fun c => c)
               (fun _ p => p) settings_env [("content", PStr "depth")]
               false empty_world))
     = PDict [("time", PStr "msl")]
  /\ PDict [("time", PStr "msl")] <> PDict [("depth", PStr "msl")].
Proof.
  split; [vm_compute; reflexivity |].
  split; [vm_compute; reflexivity | differ].
Qed.

(** The value passed for [vertical_domain] leaves no trace: the
    construction with it gives the instance and the environment of the
    construction without it. *)
Example post_init_vertical_domain_discarded :
  ExportData.construct spec_model_fields spec_requires_additional_input
    spec_validate_dump spec_FmuContext_get (fun _ => false) (fun c => c)
    (fun _ p => p) plain_env
    [("vertical_domain", PDict [("time", PStr "msl")]);
     ("content", PStr "depth")]
    false empty_world
  = ExportData.construct spec_model_fields spec_requires_additional_input
      spec_validate_dump spec_FmuContext_get (fun _ => false) (fun c => c)
      (fun _ p => p) plain_env [("content", PStr "depth")] false empty_world.
Proof. vm_compute. reflexivity. Qed.

Lemma construct_validates_content_witness :
  exists s',
    ExportData.construct spec_model_fields spec_requires_additional_input
      spec_validate_dump spec_FmuContext_get (fun _ => false) (fun c => c)
      (fun _ p => p) plain_env [("content", PStr "depth")] false empty_world
    = (Ok tt, s')
    /\ exists usecontent,
         ExportData.attr "_usecontent" s' = PStr usecontent.
Proof.
  eexists.
  assert (Hrun : ExportData.construct spec_model_fields
                   spec_requires_additional_input spec_validate_dump
                   spec_FmuContext_get (fun _ => false) (fun c => c)
                   (fun _ p => p) plain_env [("content", PStr "depth")]
                   false empty_world = (Ok tt, _))
    by (vm_compute; reflexivity).
  destruct (construct_validates_content _ _ _ _ _ _ _ _ _ _ _ _ Hrun)
    as (usecontent & content_specific & _ & Huse & _).
  split; [exact Hrun | now exists usecontent].
Defined.

Lemma construct_fmu_context_member_witness :
  exists s',
    ExportData.construct spec_model_fields spec_requires_additional_input
      spec_validate_dump spec_FmuContext_get (fun _ => false) (fun c => c)
      (fun _ p => p) plain_env [("fmu_context", PStr "case")] false
      empty_world
    = (Ok tt, s')
    /\ exists c, ExportData.attr "fmu_context" s' = PCtx c.
Proof.
  eexists.
  assert (Hrun : ExportData.construct spec_model_fields
                   spec_requires_additional_input spec_validate_dump
                   spec_FmuContext_get (fun _ => false) (fun c => c)
                   (fun _ p => p) plain_env [("fmu_context", PStr "case")]
                   false empty_world = (Ok tt, _))
    by (vm_compute; reflexivity).
  split; [exact Hrun |].
  apply (construct_fmu_context_member spec_model_fields
           spec_requires_additional_input spec_validate_dump
           spec_FmuContext_get (fun _ => false) (fun c => c) (fun _ p => p)
           plain_env [("fmu_context", PStr "case")] false empty_world).
  - reflexivity.
  - exact Hrun.
Defined.

(** With a settings file that sets [fmu_context], the instance keeps the
    string of the file. *)
Example construct_settings_fmu_context_string :
  let (r, s) :=
    ExportData.construct spec_model_fields spec_requires_additional_input
      spec_validate_dump spec_FmuContext_get (fun _ => false) (fun c => c)
      (fun _ p => p) context_env [] false empty_world in
  r = Ok tt /\ ExportData.attr "fmu_context" s = PStr "case".
Proof. vm_compute. split; reflexivity. Qed.

Lemma check_obj_keeps_given_names_witness :
  ExportData.attr "name"
    (snd (ExportData._check_obj_if_file read_preprocessed
            (PStr preprocessed_file) named_instance))
  = PStr "given".
Proof.
  apply (check_obj_keeps_given_names read_preprocessed
           (PStr preprocessed_file) named_instance "name" (PStr "given")).
  - now left.
  - vm_compute. reflexivity.
  - reflexivity.
Defined.

(** The same call takes the tagname the instance lacks from the
    preprocessed metadata, and marks the metadata as reused. *)
Example check_obj_takes_preprocessed :
  let (r, s) :=
    ExportData._check_obj_if_file read_preprocessed (PStr preprocessed_file)
      named_instance in
  r = Ok (PPath preprocessed_file)
  /\ ExportData.attr "tagname" s = PStr "depth"
  /\ ExportData.attr "reuse_metadata_rule" s = PStr "preprocessed".
Proof. vm_compute. repeat split. Qed.

(** ** Content given as a dict *)

Section ContentDictFacts.

Variable model_fields : list string.
Variable requires_additional_input : string -> bool.
Variable AllowedContent_validate_dump : string -> pyval -> result pyval.

(** Of a content given as a dict only the first key is looked at: what
    follows it is ignored. And when the extra fields under that key are
    an empty dict, a content of the taxonomy is accepted as it is: the
    taxonomy's own validation of the fields is not run, also for a
    content that requires additional input. *)
Theorem check_content_first_key (name : string) (fields : pyval)
    (others : pydict) :
  _check_content model_fields requires_additional_input
    AllowedContent_validate_dump (PDict ((name, fields) :: others))
  = _check_content model_fields requires_additional_input
      AllowedContent_validate_dump (PDict [(name, fields)])
  /\ (str_in name model_fields = true ->
      _check_content model_fields requires_additional_input
        AllowedContent_validate_dump (PDict ((name, PDict []) :: others))
      = Ok (name, PDict [])).
Proof.
  unfold _check_content, resolve_content. rewrite !dict_get_head.
  split; [reflexivity |].
  intros Hknown. cbn [rbind truthy]. rewrite Hknown.
  now rewrite andb_false_r.
Qed.

End ContentDictFacts.

Lemma check_content_first_key_witness :
  _check_content spec_model_fields spec_requires_additional_input
    spec_validate_dump
    (PDict [("fluid_contact", PDict []); ("depth", PStr "ignored")])
  = Ok ("fluid_contact", PDict []).
Proof.
  apply (proj2 (check_content_first_key spec_model_fields
                  spec_requires_additional_input spec_validate_dump
                  "fluid_contact" (PDict [])
                  [("depth", PStr "ignored")])).
  reflexivity.
Defined.

(** ** The file block *)

Lemma required_nullable_valid_inv {A : Type} (name : string)
    (v : validator A) (d : pydict) (o : option A) :
  required_nullable name v d = Valid o -> dict_has name d = true.
Proof.
  unfold required_nullable, dict_has.
  destruct (dict_lookup name d); [reflexivity | discriminate].
Qed.

Lemma isascii_nonempty (s : string) : isascii s = false -> s <> "".
Proof. intros H ->. discriminate H. Qed.

Lemma isascii_append (a b : string) :
  isascii (a ++ b) = isascii a && isascii b.
Proof.
  unfold isascii. induction a as [| c a IH]; [reflexivity |].
  cbn [append list_ascii_of_string forallb]. now rewrite IH, andb_assoc.
Qed.

Lemma isascii_concat (l : list string) :
  isascii (String.concat "/" l) = forallb isascii l.
Proof.
  induction l as [| x l IH]; [reflexivity |].
  destruct l as [| y l].
  - cbn [String.concat forallb]. now rewrite andb_true_r.
  - change (String.concat "/" (x :: y :: l))
      with (x ++ "/" ++ String.concat "/" (y :: l)).
    rewrite !isascii_append, IH. reflexivity.
Qed.

Lemma str_split_nonempty (sep : ascii) (s : string) : str_split sep s <> [].
Proof.
  induction s as [| c s IH]; cbn [str_split]; [discriminate |].
  destruct (Ascii.eqb c sep); [discriminate |].
  destruct (str_split sep s); [congruence | discriminate].
Qed.

(** Splitting at the slash loses no character but the slash. *)
Lemma isascii_split (s : string) :
  forallb isascii (str_split path_sep s) = isascii s.
Proof.
  induction s as [| c s IH]; [reflexivity |]. cbn [str_split].
  destruct (Ascii.eqb c path_sep) eqn:Hc.
  - apply Ascii.eqb_eq in Hc. subst c. cbn [forallb]. rewrite IH.
    reflexivity.
  - pose proof (str_split_nonempty path_sep s) as Hne.
    destruct (str_split path_sep s) as [| h t]; [congruence |].
    change (isascii (String c s))
      with (N.ltb (N_of_ascii c) 128 && isascii s).
    rewrite <- IH. cbn [forallb].
    change (isascii (String c h))
      with (N.ltb (N_of_ascii c) 128 && isascii h).
    now rewrite andb_assoc.
Qed.

Lemma isascii_parts (l : list string) :
  forallb isascii
    (filter (fun p => negb (String.eqb p "") && negb (String.eqb p ".")) l)
  = forallb isascii l.
Proof.
  induction l as [| x l IH]; [reflexivity |]. cbn [filter forallb].
  destruct (String.eqb x "") eqn:Hempty.
  - apply String.eqb_eq in Hempty. subst x. exact IH.
  - destruct (String.eqb x ".") eqn:Hdot; cbn [negb andb].
    + apply String.eqb_eq in Hdot. subst x. exact IH.
    + cbn [forallb]. now rewrite IH.
Qed.

(** A path made of a string is ASCII exactly when the string is: the
    normal form drops slashes and dots only. *)
Lemma isascii_Path (s : string) : isascii (path_str (Path s)) = isascii s.
Proof.
  rewrite <- (isascii_split s), <- isascii_parts.
  unfold path_str, Path. cbn [path_root path_parts].
  set (parts := filter _ (str_split path_sep s)).
  destruct (startswith "//" s && negb (startswith "///" s)).
  - rewrite isascii_append, isascii_concat. reflexivity.
  - destruct (startswith "/" s).
    + rewrite isascii_append, isascii_concat. reflexivity.
    + destruct parts as [| x parts]; [reflexivity |].
      rewrite isascii_append, isascii_concat. reflexivity.
Qed.

Lemma optional_set_other {A : Type} (name k : string) (v : validator A)
    (x : pyval) (d : pydict) :
  name <> k -> optional name v (dict_set k x d) = optional name v d.
Proof. intros Hne. unfold optional. now rewrite dict_lookup_set_other. Qed.

Lemma required_nullable_set_other {A : Type} (name k : string)
    (v : validator A) (x : pyval) (d : pydict) :
  name <> k ->
  required_nullable name v (dict_set k x d) = required_nullable name v d.
Proof.
  intros Hne. unfold required_nullable. now rewrite dict_lookup_set_other.
Qed.

Lemma required_set_other {A : Type} (name k : string) (v : validator A)
    (x : pyval) (d : pydict) :
  name <> k -> required name v (dict_set k x d) = required name v d.
Proof. intros Hne. unfold required. now rewrite dict_lookup_set_other. Qed.

(** A path field set to a string is valid, whatever the string. *)
Lemma required_path_set (name s : string) (d : pydict) :
  required name v_Path (dict_set name (PStr s) d) = Valid (Path s).
Proof. unfold required. now rewrite dict_lookup_set_same. Qed.

Lemma optional_path_set (name s : string) (d : pydict) :
  optional name v_Path (dict_set name (PStr s) d) = Valid (Some (Path s)).
Proof. unfold optional. now rewrite dict_lookup_set_same. Qed.

(** C7, as the validator has it: a file block whose absolute path is
    given (as a string or a path) and holds a character outside ASCII is
    rejected, with the error of [_check_for_non_ascii_in_path], which
    shows the path. The validator looks at [absolute_path] only: in a
    block that is valid, the relative path and the two symlink paths can
    be set to any strings, ASCII or not, and the block stays valid, with
    the paths made of these strings. *)
Theorem file_rejects_non_ascii_absolute_path (v_int : validator Z)
    (builtin_str : pyval -> string) (d d' : pydict)
    (s shown rel rel_link abs_link : string) (f : File) :
  (dict_get "absolute_path" d = PStr s /\ shown = s
   \/ dict_get "absolute_path" d = PPath s /\ shown = path_str (Path s) ->
   isascii s = false ->
   File_validate v_int builtin_str (PDict d)
   = value_error ("Path has non-ascii elements which is not supported: "
                  ++ shown))
  /\ (File_validate v_int builtin_str (PDict d') = Valid f ->
      File_validate v_int builtin_str
        (PDict (dict_set "absolute_path_symlink" (PStr abs_link)
                  (dict_set "relative_path_symlink" (PStr rel_link)
                     (dict_set "relative_path" (PStr rel) d'))))
      = Valid (mkFile (File_absolute_path f) (Path rel)
                 (File_checksum_md5 f) (File_size_bytes f)
                 (Some (Path rel_link)) (Some (Path abs_link)))).
Proof.
  split.
  - intros Hpath Hascii.
    unfold File_validate, _check_for_non_ascii_in_path.
    destruct Hpath as [[-> ->] | [-> ->]]; cbn [truthy py_str].
    + rewrite Hascii. apply isascii_nonempty, String.eqb_neq in Hascii.
      rewrite Hascii. reflexivity.
    + rewrite isascii_Path, Hascii. reflexivity.
  - unfold File_validate. intros H. apply obind_valid_inv in H.
    destruct H as (d0 & Hcheck & Hfields).
    unfold _check_for_non_ascii_in_path in *.
    rewrite !dict_get_set_other by discriminate.
    destruct (truthy (dict_get "absolute_path" d')
              && negb (isascii (py_str builtin_str
                                  (dict_get "absolute_path" d'))));
      [discriminate Hcheck |].
    injection Hcheck as <-. cbn [obind].
    unfold File_fields in *.
    peel Hfields abs_link0 Habs_link. peel Hfields rel_link0 Hrel_link.
    peel Hfields size Hsize. peel Hfields md5 Hmd5.
    peel Hfields rel0 Hrel. peel Hfields abs Habs.
    injection Hfields as <-.
    cbn [File_absolute_path File_checksum_md5 File_size_bytes].
    rewrite optional_path_set.
    rewrite (optional_set_other "relative_path_symlink") by discriminate.
    rewrite optional_path_set.
    rewrite !(optional_set_other "size_bytes") by discriminate.
    rewrite !(required_nullable_set_other "checksum_md5") by discriminate.
    rewrite !(required_set_other "relative_path") by discriminate.
    rewrite required_path_set.
    rewrite !(optional_set_other "absolute_path") by discriminate.
    rewrite Habs, Hmd5, Hsize. reflexivity.
Qed.

Lemma file_rejects_non_ascii_absolute_path_witness :
  File_validate json_int no_builtin_str
    (PDict [("absolute_path", PStr ("/scratch/f/case/" ++ a_ring ++ ".gri"));
            ("relative_path", PStr "share/results/maps/x.gri");
            ("checksum_md5", PNone)])
  = value_error ("Path has non-ascii elements which is not supported: "
                 ++ ("/scratch/f/case/" ++ a_ring ++ ".gri"))
  /\ File_validate json_int no_builtin_str
       (PDict (dict_set "absolute_path_symlink"
                 (PStr ("/scratch/f/case/share/" ++ a_ring ++ ".gri"))
                 (dict_set "relative_path_symlink"
                    (PStr ("share/" ++ a_ring ++ ".gri"))
                    (dict_set "relative_path"
                       (PStr ("share/results/maps/" ++ a_ring ++ ".gri"))
                       [("absolute_path",
                         PStr "/scratch/f/case/share/results/maps/x.gri");
                        ("relative_path", PStr "share/results/maps/x.gri");
                        ("checksum_md5", PNone)]))))
     = Valid (mkFile
                (Some (Path "/scratch/f/case/share/results/maps/x.gri"))
                (Path ("share/results/maps/" ++ a_ring ++ ".gri"))
                None None
                (Some (Path ("share/" ++ a_ring ++ ".gri")))
                (Some (Path ("/scratch/f/case/share/" ++ a_ring ++ ".gri")))).
Proof.
  destruct (file_rejects_non_ascii_absolute_path json_int no_builtin_str
              [("absolute_path", PStr ("/scratch/f/case/" ++ a_ring ++ ".gri"));
               ("relative_path", PStr "share/results/maps/x.gri");
               ("checksum_md5", PNone)]
              [("absolute_path",
                PStr "/scratch/f/case/share/results/maps/x.gri");
               ("relative_path", PStr "share/results/maps/x.gri");
               ("checksum_md5", PNone)]
              ("/scratch/f/case/" ++ a_ring ++ ".gri")
              ("/scratch/f/case/" ++ a_ring ++ ".gri")
              ("share/results/maps/" ++ a_ring ++ ".gri")
              ("share/" ++ a_ring ++ ".gri")
              ("/scratch/f/case/share/" ++ a_ring ++ ".gri")
              (mkFile
                 (Some (Path "/scratch/f/case/share/results/maps/x.gri"))
                 (Path "share/results/maps/x.gri") None None None None))
    as [Hrejected Hunchecked].
  split.
  - apply Hrejected; [left; split; reflexivity | vm_compute; reflexivity].
  - apply Hunchecked. vm_compute. reflexivity.
Defined.

(** The claim C7 as stated fails at a file block whose relative path and
    symlink paths hold a character outside ASCII: the block is valid. *)
Lemma file_non_ascii_relative_path_counterexample :
  isascii ("share/results/maps/" ++ a_ring ++ ".gri") = false
  /\ File_validate json_int no_builtin_str
       (PDict [("relative_path",
                PStr ("share/results/maps/" ++ a_ring ++ ".gri"));
               ("checksum_md5", PNone);
               ("relative_path_symlink",
                PStr ("share/results/maps/" ++ a_ring ++ ".gri"))])
     = Valid (mkFile None
                (Path ("share/results/maps/" ++ a_ring ++ ".gri"))
                None None
                (Some (Path ("share/results/maps/" ++ a_ring ++ ".gri")))
                None).
Proof. split; vm_compute; reflexivity. Qed.

Lemma v_Path_valid_inv (x : pyval) (p : PurePath) :
  v_Path x = Valid p -> exists s, (x = PStr s \/ x = PPath s) /\ p = Path s.
Proof.
  destruct x; simpl; intros H; try discriminate H;
    injection H as <-; eauto.
Qed.

(** A file block that validates is a dict whose relative path is a
    string or a path, which the validated block holds in the normal form
    of [pathlib]; it has the key [checksum_md5] (whose value may be
    [None]); and the absolute path of the validated block, when it has
    one, is ASCII. *)
Theorem file_valid_block (v_int : validator Z)
    (builtin_str : pyval -> string) (v : pyval) (f : File) :
  File_validate v_int builtin_str v = Valid f ->
  exists d,
    v = PDict d
    /\ (exists s,
          (dict_get "relative_path" d = PStr s
           \/ dict_get "relative_path" d = PPath s)
          /\ File_relative_path f = Path s)
    /\ dict_has "checksum_md5" d = true
    /\ match File_absolute_path f with
       | Some path => isascii (path_str path) = true
       | None => True
       end.
Proof.
  unfold File_validate. intros H. apply obind_valid_inv in H.
  destruct H as (d0 & Hcheck & Hfields).
  unfold _check_for_non_ascii_in_path in Hcheck.
  destruct v as [| | | | | | | d]; try discriminate Hcheck.
  destruct (truthy (dict_get "absolute_path" d)
            && negb (isascii (py_str builtin_str
                                (dict_get "absolute_path" d)))) eqn:Hascii;
    [discriminate Hcheck |].
  injection Hcheck as <-. exists d. split; [reflexivity |].
  unfold File_fields in Hfields.
  peel Hfields abs_link Habs_link. peel Hfields rel_link Hrel_link.
  peel Hfields size Hsize. peel Hfields md5 Hmd5.
  peel Hfields rel Hrel. peel Hfields abs Habs.
  injection Hfields as <-. cbn [File_relative_path File_absolute_path].
  split; [| split].
  - apply required_valid_inv in Hrel. destruct Hrel as (x & Hx & Hv).
    apply v_Path_valid_inv in Hv. destruct Hv as (s & Hs & ->).
    exists s. unfold dict_get. rewrite Hx. now split.
  - exact (required_nullable_valid_inv _ _ _ _ Hmd5).
  - apply optional_valid_inv in Habs. destruct abs as [path |]; [| exact I].
    destruct Habs as (x & Hx & Hnone & Hv).
    unfold dict_get in Hascii. rewrite Hx in Hascii.
    apply v_Path_valid_inv in Hv. destruct Hv as (s & [-> | ->] & ->);
      cbn [truthy py_str] in Hascii.
    + rewrite isascii_Path.
      destruct (String.eqb s "") eqn:Hempty.
      * apply String.eqb_eq in Hempty. now subst s.
      * cbn [negb andb] in Hascii. now apply negb_false_iff in Hascii.
    + cbn [andb] in Hascii. now apply negb_false_iff in Hascii.
Qed.

Lemma file_valid_block_witness :
  exists f,
    File_validate json_int no_builtin_str
      (PDict [("absolute_path",
               PStr "/scratch/f/case//share/results/maps/./x.gri");
              ("relative_path", PStr "share//results/maps/./x.gri");
              ("checksum_md5", PNone)])
    = Valid f
    /\ File_relative_path f = Path "share/results/maps/x.gri"
    /\ match File_absolute_path f with
       | Some path => isascii (path_str path) = true
       | None => True
       end.
Proof.
  eexists.
  assert (Hvalid : File_validate json_int no_builtin_str
                     (PDict [("absolute_path",
                              PStr "/scratch/f/case//share/results/maps/./x.gri");
                             ("relative_path",
                              PStr "share//results/maps/./x.gri");
                             ("checksum_md5", PNone)])
                   = Valid _) by (vm_compute; reflexivity).
  destruct (file_valid_block _ _ _ _ Hvalid) as (d & _ & _ & _ & Hascii).
  split; [exact Hvalid |]. split; [reflexivity | exact Hascii].
Defined.

